(** * The export engine of the lifecycle: volume cache and exporter

    A shallow embedding of [cache/volume_cache.go] and [exporter.go].

    - The volume cache is modelled over a small file system: directories
      hold names that point to inodes, so that a hard link made by
      [os.Link] is one file reachable under two names.  Every system call
      may also be hit by an environmental failure, scheduled by an oracle
      that is part of the state.
    - The exporter is modelled over a working image that keeps the log of
      the calls it received, and over a layer factory given as functions. *)

From stdpp Require Import gmap strings list fin_maps pretty.
From Stdlib.Strings Require Import Byte.

Set Default Proof Using "Type".

Abbreviation bytes := (list Byte.byte).

(** ** Go errors *)

(** Failures that come from the environment rather than from the shape of
    the directory tree (I/O error, permissions, full or read-only disk). *)
Inductive ioerr := EIO | EACCES | ENOSPC | EROFS.

Inductive errno :=
  | ENOENT
  | EEXIST
  | ENOTEMPTY
  | EENV (e : ioerr)
  | EISDIR.

(** Error values as the two packages build them: the sentinel
    [errCacheCommitted], errors of system calls, [errors.Wrap]/[Wrapf]
    around a cause, [fmt.Errorf], and errors returned by collaborators
    (image, layer factory, encoders). *)
Inductive error :=
  | errCacheCommitted
  | SysErr (e : errno)
  | Wrap (msg : string) (cause : error)
  | Errorf (msg : string)
  | Foreign (msg : string).

(** [os.IsNotExist] and [os.IsExist] look at the error of the system call. *)
Definition os_IsNotExist (err : error) : bool :=
  match err with SysErr ENOENT => true | _ => false end.

Definition os_IsExist (err : error) : bool :=
  match err with SysErr EEXIST | SysErr ENOTEMPTY => true | _ => false end.

(** ** The file system *)

(** A path names a directory, or a file inside a directory.  The model is
    two levels deep: directories are keyed by their full path and hold
    files only, which is all the cache root ever contains. *)
Inductive path :=
  | DirPath (d : string)
  | FilePath (d : string) (name : string).

Definition path_string (p : path) : string :=
  match p with
  | DirPath d => d
  | FilePath d name => d +:+ "/" +:+ name
  end.

(** *** Path names

    Paths are written with the slash, on every platform: where Go
    separates with the backslash the model keeps the slash.
    [filepath.Join] joins its elements and cleans the result, so an
    element may hold separators, [.] and [..] of its own, and the file it
    names need not be below the first element. *)

Definition slash : Ascii.ascii := Ascii.ascii_of_nat 47.
Definition backslash : Ascii.ascii := Ascii.ascii_of_nat 92.

(** The elements of a path, between its separators. *)
Fixpoint split_path (p : string) : list string :=
  match p with
  | EmptyString => [EmptyString]
  | String ch rest =>
      if Ascii.eqb ch slash then EmptyString :: split_path rest
      else match split_path rest with
           | [] => [String ch EmptyString]
           | e :: es => String ch e :: es
           end
  end.

Definition is_rooted (p : string) : bool :=
  match p with
  | String ch _ => Ascii.eqb ch slash
  | EmptyString => false
  end.

(** One element of [filepath.Clean], with the elements kept so far, last
    first: an empty element and [.] are dropped; [..] takes back the
    element before it, stays when there is none to take back, and is
    dropped at the root. *)
Definition clean_step (rooted : bool) (out : list string) (e : string) : list string :=
  if String.eqb e "" || String.eqb e "." then out
  else if String.eqb e ".." then
    match out with
    | top :: below => if String.eqb top ".." then e :: out else below
    | [] => if rooted then [] else [e]
    end
  else e :: out.

Definition clean_elems (rooted : bool) (elems : list string) : list string :=
  rev (fold_left (clean_step rooted) elems []).

Definition render_path (rooted : bool) (elems : list string) : string :=
  if rooted then "/" +:+ String.concat "/" elems
  else match elems with
       | [] => "."
       | _ => String.concat "/" elems
       end.

(** [filepath.Clean] *)
Definition filepath_Clean (p : string) : string :=
  render_path (is_rooted p) (clean_elems (is_rooted p) (split_path p)).

(** [filepath.Join] of two elements: empty elements are ignored, the
    result is cleaned, and joining nothing gives the empty string. *)
Definition filepath_Join (base name : string) : string :=
  if String.eqb base "" then
    (if String.eqb name "" then "" else filepath_Clean name)
  else filepath_Clean (base +:+ "/" +:+ name).

(** A path that [filepath.Clean] leaves as it is. *)
Definition cleaned (p : string) : Prop := filepath_Clean p = p.

Fixpoint has_char (ch : Ascii.ascii) (s : string) : bool :=
  match s with
  | EmptyString => false
  | String c rest => Ascii.eqb c ch || has_char ch rest
  end.

(** A name that is one element of a path and names an entry. *)
Definition plain_name (n : string) : bool :=
  negb (has_char slash n) &&
  negb (String.eqb n "" || String.eqb n "." || String.eqb n "..").

(** A diffID that is a plain name: it holds no separator, neither the
    slash nor the backslash that separates as well on Windows. *)
Definition plain_diffID (d : string) : bool :=
  negb (has_char slash d) && negb (has_char backslash d).

(** The elements kept by [filepath.Clean] so far, last first: plain names
    on top of the leading [..] elements, of which a rooted path has
    none. *)
Definition kept (rooted : bool) (out : list string) : Prop :=
  ∃ names k, out = names ++ replicate k ".." ∧
             Forall (λ n, plain_name n = true) names ∧ (rooted = true → k = 0).

(** The file that a path string names for the file system: the entry of
    its last element in the directory of the elements before it. *)
Definition file_path (p : string) : path :=
  let elems := split_path p in
  let d := String.concat "/" (removelast elems) in
  FilePath (if String.eqb d "" then (if is_rooted p then "/" else ".") else d)
           (default "" (last elems)).

(** An environmental failure: the error, and for a write how many bytes
    went through before it. *)
Record fault := { f_err : ioerr; f_done : nat }.

Record World := {
  dirs : gmap string (gmap string nat);
  inodes : gmap nat bytes;
  oracle : list (option fault)
}.

Definition set_dirs (f : gmap string (gmap string nat) → gmap string (gmap string nat))
    (w : World) : World :=
  {| dirs := f (dirs w); inodes := inodes w; oracle := oracle w |}.

Definition set_inodes (f : gmap nat bytes → gmap nat bytes) (w : World) : World :=
  {| dirs := dirs w; inodes := f (inodes w); oracle := oracle w |}.

(** Bytes of the file a path names, when there is one. *)
Definition lookup_ino (p : path) (w : World) : option nat :=
  match p with
  | DirPath _ => None
  | FilePath d name => dirs w !! d ≫= λ entries, entries !! name
  end.

Definition file_content (p : path) (w : World) : option bytes :=
  lookup_ino p w ≫= λ i, inodes w !! i.

Definition path_exists (p : path) (w : World) : bool :=
  match p with
  | DirPath d => bool_decide (is_Some (dirs w !! d))
  | FilePath _ _ => bool_decide (is_Some (lookup_ino p w))
  end.

(** ** State passing *)

(** Both packages are sequential code over a mutable environment: a
    computation takes the state and returns its result with the new
    state.  Go's [if err != nil] is written out as a match on the result. *)
Definition ST (S A : Type) : Type := S → A * S.

Definition ret {S A} (a : A) : ST S A := λ s, (a, s).

Definition bind {S A B} (c : ST S A) (k : A → ST S B) : ST S B :=
  λ s, let '(a, s1) := c s in k a s1.

Notation "x <- c ;; k" := (bind c (λ x, k))
  (at level 100, c at next level, right associativity).
Notation "c ;;; k" := (bind c (λ _, k))
  (at level 100, right associativity).

(** ** System calls *)

Abbreviation M := (ST World).

(** The next decision of the oracle; an exhausted oracle injects nothing.
    Every system call consumes one decision. *)
Definition pending (w : World) : option fault := default None (head (oracle w)).

Definition tick (w : World) : World :=
  {| dirs := dirs w; inodes := inodes w; oracle := tail (oracle w) |}.

Definition next_fault : M (option fault) := λ w, (pending w, tick w).

(** A system call that changes nothing when it fails. *)
Definition syscall {A} (body : World → errno + (A * World)) : M (errno + A) :=
  f <- next_fault ;;
  match f with
  | Some flt => ret (inl (EENV (f_err flt)))
  | None => λ w, match body w with
                 | inl e => (inl e, w)
                 | inr (a, w1) => (inr a, w1)
                 end
  end.

Definition errno_of {A} (r : errno + A) : option errno :=
  match r with inl e => Some e | inr _ => None end.

Definition os_Stat (p : path) : M (option errno) :=
  r <- syscall (λ w, if path_exists p w then inr (tt, w) else inl ENOENT) ;;
  ret (errno_of r).

Definition os_MkdirAll (d : string) : M (option errno) :=
  r <- syscall (λ w, match dirs w !! d with
                     | Some _ => inr (tt, w)
                     | None => inr (tt, set_dirs (insert d ∅) w)
                     end) ;;
  ret (errno_of r).

Definition os_RemoveAll (d : string) : M (option errno) :=
  r <- syscall (λ w, inr (tt, set_dirs (delete d) w)) ;;
  ret (errno_of r).

(** [rename(2)] on directories: the source must exist; an existing target
    is replaced only when it is empty. *)
Definition os_Rename (old new : string) : M (option errno) :=
  r <- syscall (λ w,
         match dirs w !! old with
         | None => inl ENOENT
         | Some entries =>
             if decide (old = new) then inr (tt, w)
             else match dirs w !! new with
                  | Some target =>
                      if decide (target = ∅)
                      then inr (tt, set_dirs (λ ds, <[new := entries]> (delete old ds)) w)
                      else inl ENOTEMPTY
                  | None => inr (tt, set_dirs (λ ds, <[new := entries]> (delete old ds)) w)
                  end
         end) ;;
  ret (errno_of r).

(** [link(2)]: a second name for the inode of [old]. *)
Definition os_Link (old new : path) : M (option errno) :=
  r <- syscall (λ w,
         match lookup_ino old w, new with
         | None, _ => inl ENOENT
         | Some i, FilePath d name =>
             match dirs w !! d with
             | None => inl ENOENT
             | Some entries =>
                 match entries !! name with
                 | Some _ => inl EEXIST
                 | None => inr (tt, set_dirs (insert d (<[name := i]> entries)) w)
                 end
             end
         | Some _, DirPath _ => inl EEXIST
         end) ;;
  ret (errno_of r).

(** [os.Create] opens with O_CREATE|O_TRUNC: an existing file keeps its
    inode and loses its bytes, under every name it has; otherwise a fresh
    inode is entered in the directory.  The handle is the inode. *)
Definition os_Create (p : path) : M (errno + nat) :=
  syscall (λ w,
    match p with
    | DirPath _ => inl EEXIST
    | FilePath d name =>
        match dirs w !! d with
        | None => inl ENOENT
        | Some entries =>
            match entries !! name with
            | Some i => inr (i, set_inodes (insert i []) w)
            | None =>
                let i := fresh (dom (inodes w)) in
                inr (i, set_inodes (insert i [])
                          (set_dirs (insert d (<[name := i]> entries)) w))
            end
        end
    end).

(** An open file: a regular file, known by its inode, or a directory,
    which [os.Open] opens as well. *)
Inductive File :=
  | RegularFile (ino : nat)
  | Directory (d : string).

Definition os_Open (p : path) : M (errno + File) :=
  syscall (λ w, match p with
                | DirPath d =>
                    match dirs w !! d with
                    | Some _ => inr (Directory d, w)
                    | None => inl ENOENT
                    end
                | FilePath _ _ =>
                    match lookup_ino p w with
                    | Some i => inr (RegularFile i, w)
                    | None => inl ENOENT
                    end
                end).

(** Writing through a handle appends to the inode; a failing write leaves
    the bytes that went through. *)
Definition append_ino (fh : nat) (data : bytes) (w : World) : World :=
  set_inodes (λ ino, <[fh := default [] (ino !! fh) ++ data]> ino) w.

Definition file_Write (fh : nat) (data : bytes) : M (option errno) :=
  f <- next_fault ;;
  match f with
  | Some flt => λ w, (Some (EENV (f_err flt)), append_ino fh (take (f_done flt) data) w)
  | None => λ w, (None, append_ino fh data w)
  end.

(** What [io.Copy] drains: a caller's stream, or an open file, read when
    the copy runs.  A directory cannot be read. *)
Inductive Reader :=
  | Stream (data : bytes)
  | FileReader (f : File).

Definition reader_bytes (r : Reader) (w : World) : bytes :=
  match r with
  | Stream data => data
  | FileReader (RegularFile i) => default [] (inodes w !! i)
  | FileReader (Directory _) => []
  end.

Definition io_Copy (dst : nat) (src : Reader) : M (option errno) :=
  match src with
  | FileReader (Directory _) =>
      f <- next_fault ;;
      ret (Some (match f with Some flt => EENV (f_err flt) | None => EISDIR end))
  | _ => λ w, file_Write dst (reader_bytes src w) w
  end.

(** Reading a whole open file, as a decoder does. *)
Definition file_ReadAll (f : File) : M (errno + bytes) :=
  syscall (λ w, match f with
                | RegularFile i => inr (default [] (inodes w !! i), w)
                | Directory _ => inl EISDIR
                end).

(** ** cache/volume_cache.go *)

Module Cache.

(** Modelled from the spec: the name of the metadata file, a constant of
    the package declared outside the translated file
    ([staging/io.buildpacks.lifecycle.cache.metadata]). *)
Definition MetadataLabel : string := "io.buildpacks.lifecycle.cache.metadata".

Record VolumeCache := {
  committed : bool;
  dir : string;
  backupDir : string;
  stagingDir : string;
  committedDir : string
}.

Definition mark_committed (c : VolumeCache) : VolumeCache :=
  {| committed := true; dir := dir c; backupDir := backupDir c;
     stagingDir := stagingDir c; committedDir := committedDir c |}.

(** [strings.TrimPrefix] *)
Fixpoint strip_prefix (prefix s : string) : option string :=
  match prefix with
  | EmptyString => Some s
  | String a prefix' =>
      match s with
      | EmptyString => None
      | String b s' => if Ascii.eqb a b then strip_prefix prefix' s' else None
      end
  end.

Definition strings_TrimPrefix (s prefix : string) : string :=
  default s (strip_prefix prefix s).

Section WithPlatform.

(** [runtime.GOOS], and the metadata record of package [platform] with
    its JSON encoding: the cache stores the document and never looks
    inside it. *)
Variable GOOS : string.
Variable CacheMetadata : Type.
Variable CacheMetadata_zero : CacheMetadata.
Variable json_Marshal : CacheMetadata → error + bytes.
Variable json_Unmarshal : bytes → option CacheMetadata.

Definition diffIDPath (basePath diffID : string) : path :=
  let diffID :=
    if String.eqb GOOS "windows"
    then strings_TrimPrefix diffID "sha256:" (* Avoid colons in Windows file paths *)
    else diffID in
  file_path (filepath_Join basePath (diffID +:+ ".tar")).

Definition setupStagingDir (c : VolumeCache) : M (option errno) :=
  e <- os_RemoveAll (stagingDir c) ;;
  match e with
  | Some err => ret (Some err)
  | None => os_MkdirAll (stagingDir c)
  end.

Definition NewVolumeCache (dir : string) : M (error + VolumeCache) :=
  e <- os_Stat (DirPath dir) ;;
  match e with
  | Some err => ret (inl (SysErr err))
  | None =>
      let c := {| committed := false;
                  dir := dir;
                  backupDir := filepath_Join dir "committed-backup";
                  stagingDir := filepath_Join dir "staging";
                  committedDir := filepath_Join dir "committed" |} in
      e <- setupStagingDir c ;;
      match e with
      | Some err =>
          ret (inl (Wrap ("initializing staging directory '" +:+ stagingDir c +:+ "'")
                         (SysErr err)))
      | None =>
          e <- os_RemoveAll (backupDir c) ;;
          match e with
          | Some err =>
              ret (inl (Wrap ("removing backup directory '" +:+ backupDir c +:+ "'")
                             (SysErr err)))
          | None =>
              e <- os_MkdirAll (committedDir c) ;;
              match e with
              | Some err =>
                  ret (inl (Wrap ("creating committed directory '" +:+ committedDir c +:+ "'")
                                 (SysErr err)))
              | None => ret (inr c)
              end
          end
      end
  end.

Definition Exists (c : VolumeCache) : M bool :=
  e <- os_Stat (DirPath (committedDir c)) ;;
  ret (match e with Some _ => false | None => true end).

Definition Name (c : VolumeCache) : string := dir c.

(** The metadata file is [filepath.Join] of a directory of the instance
    and [MetadataLabel]: the directories of a constructed instance are
    cleaned paths and the label is a plain name, so it is the entry
    [MetadataLabel] of that directory. *)
Definition SetMetadata (c : VolumeCache) (metadata : CacheMetadata) : M (option error) :=
  if committed c then ret (Some errCacheCommitted)
  else
    let metadataPath := FilePath (stagingDir c) MetadataLabel in
    r <- os_Create metadataPath ;;
    match r with
    | inl err =>
        ret (Some (Wrap ("creating metadata file '" +:+ path_string metadataPath +:+ "'")
                        (SysErr err)))
    | inr file =>
        match json_Marshal metadata with
        | inl err => ret (Some (Wrap "marshalling metadata" err))
        | inr data =>
            e <- file_Write file data ;;
            match e with
            | Some err => ret (Some (Wrap "marshalling metadata" (SysErr err)))
            | None => ret None
            end
        end
    end.

Definition RetrieveMetadata (c : VolumeCache) : M (CacheMetadata * option error) :=
  let metadataPath := FilePath (committedDir c) MetadataLabel in
  r <- os_Open metadataPath ;;
  match r with
  | inl err =>
      if os_IsNotExist (SysErr err) then ret (CacheMetadata_zero, None)
      else ret (CacheMetadata_zero,
                Some (Wrap ("opening metadata file '" +:+ path_string metadataPath +:+ "'")
                           (SysErr err)))
  | inr file =>
      r <- file_ReadAll file ;;
      match r with
      | inl _ => ret (CacheMetadata_zero, None)
      | inr data =>
          match json_Unmarshal data with
          | None => ret (CacheMetadata_zero, None)
          | Some metadata => ret (metadata, None)
          end
      end
  end.

Definition copyFile (from to : path) : M (option error) :=
  r <- os_Open from ;;
  match r with
  | inl err => ret (Some (SysErr err))
  | inr in_ =>
      r <- os_Create to ;;
      match r with
      | inl err => ret (Some (SysErr err))
      | inr out =>
          e <- io_Copy out (FileReader in_) ;;
          ret (SysErr <$> e)
      end
  end.

Definition AddLayerFile (c : VolumeCache) (tarPath : path) (diffID : string)
    : M (option error) :=
  if committed c then ret (Some errCacheCommitted)
  else
    let layerTar := diffIDPath (stagingDir c) diffID in
    e <- os_Stat layerTar ;;
    match e with
    | None => ret None (* don't waste time rewriting an identical layer *)
    | Some _ =>
        e <- copyFile tarPath layerTar ;;
        match e with
        | Some err => ret (Some (Wrap ("caching layer (" +:+ diffID +:+ ")") err))
        | None => ret None
        end
    end.

Definition AddLayer (c : VolumeCache) (rc : Reader) (diffID : string) : M (option error) :=
  if committed c then ret (Some errCacheCommitted)
  else
    r <- os_Create (diffIDPath (stagingDir c) diffID) ;;
    match r with
    | inl err => ret (Some (Wrap "create layer file in cache" (SysErr err)))
    | inr fh =>
        e <- io_Copy fh rc ;;
        match e with
        | Some err => ret (Some (Wrap "copying layer to tar file" (SysErr err)))
        | None => ret None
        end
    end.

Definition ReuseLayer (c : VolumeCache) (diffID : string) : M (option error) :=
  if committed c then ret (Some errCacheCommitted)
  else
    e <- os_Link (diffIDPath (committedDir c) diffID) (diffIDPath (stagingDir c) diffID) ;;
    match e with
    | Some err =>
        if negb (os_IsExist (SysErr err))
        then ret (Some (Wrap ("reusing layer (" +:+ diffID +:+ ")") (SysErr err)))
        else ret None
    | None => ret None
    end.

Definition HasLayer (c : VolumeCache) (diffID : string) : M (bool * option error) :=
  e <- os_Stat (diffIDPath (committedDir c) diffID) ;;
  match e with
  | Some err =>
      if os_IsNotExist (SysErr err) then ret (false, None)
      else ret (false,
                Some (Wrap ("retrieving layer with SHA '" +:+ diffID +:+ "'") (SysErr err)))
  | None => ret (true, None)
  end.

Definition RetrieveLayerFile (c : VolumeCache) (diffID : string) : M (error + path) :=
  let path := diffIDPath (committedDir c) diffID in
  e <- os_Stat path ;;
  match e with
  | Some err =>
      if os_IsNotExist (SysErr err)
      then ret (inl (Wrap ("layer with SHA '" +:+ diffID +:+ "' not found") (SysErr err)))
      else ret (inl (Wrap ("retrieving layer with SHA '" +:+ diffID +:+ "'") (SysErr err)))
  | None => ret (inr path)
  end.

Definition RetrieveLayer (c : VolumeCache) (diffID : string) : M (error + Reader) :=
  r <- RetrieveLayerFile c diffID ;;
  match r with
  | inl err => ret (inl err)
  | inr path =>
      r <- os_Open path ;;
      match r with
      | inl err =>
          ret (inl (Wrap ("opening layer with SHA '" +:+ diffID +:+ "'") (SysErr err)))
      | inr file => ret (inr (FileReader file))
      end
  end.

(** [Commit] marks the receiver before anything else; the removal of the
    backup is deferred from the moment the backup exists, so it runs on
    every later way out. *)
Definition Commit (c : VolumeCache) : M (option error * VolumeCache) :=
  if committed c then ret (Some errCacheCommitted, c)
  else
    let c := mark_committed c in
    e <- os_Rename (committedDir c) (backupDir c) ;;
    match e with
    | Some err => ret (Some (Wrap "backing up cache" (SysErr err)), c)
    | None =>
        result <-
          (e1 <- os_Rename (stagingDir c) (committedDir c) ;;
           match e1 with
           | Some err1 =>
               e2 <- os_Rename (backupDir c) (committedDir c) ;;
               match e2 with
               | Some err2 => ret (Some (Wrap "rolling back cache" (SysErr err2)))
               | None => ret (Some (Wrap "committing cache" (SysErr err1)))
               end
           | None => ret None
           end) ;;
        os_RemoveAll (backupDir c) ;;;
        ret (result, c)
    end.

(** The four mutating operations, as one entry point. *)
Inductive Mutation :=
  | DoSetMetadata (metadata : CacheMetadata)
  | DoAddLayerFile (tarPath : path) (diffID : string)
  | DoAddLayer (rc : Reader) (diffID : string)
  | DoReuseLayer (diffID : string).

Definition mutate (c : VolumeCache) (op : Mutation) : M (option error) :=
  match op with
  | DoSetMetadata metadata => SetMetadata c metadata
  | DoAddLayerFile tarPath diffID => AddLayerFile c tarPath diffID
  | DoAddLayer rc diffID => AddLayer c rc diffID
  | DoReuseLayer diffID => ReuseLayer c diffID
  end.

(** An operation whose diffID, if it has one, is a plain name. *)
Definition plain_op (op : Mutation) : bool :=
  match op with
  | DoSetMetadata _ => true
  | DoAddLayerFile _ diffID | DoAddLayer _ diffID | DoReuseLayer diffID =>
      plain_diffID diffID
  end.

(** The name under [staging/] that a mutating operation writes. *)
Definition file_name (p : path) : string :=
  match p with
  | DirPath d => d
  | FilePath _ name => name
  end.

Definition staged_name (op : Mutation) : string :=
  match op with
  | DoSetMetadata _ => MetadataLabel
  | DoAddLayerFile _ diffID | DoAddLayer _ diffID | DoReuseLayer diffID =>
      file_name (diffIDPath "" diffID)
  end.

(** A session: the operations run in turn on the instance, whatever each
    returns; the result lists the names of the files whose operation
    returned nil. *)
Fixpoint session (c : VolumeCache) (ops : list Mutation) : M (list string) :=
  match ops with
  | [] => ret []
  | op :: rest =>
      e <- mutate c op ;;
      names <- session c rest ;;
      ret (match e with
           | None => staged_name op :: names
           | Some _ => names
           end)
  end.

(** The instances [NewVolumeCache] builds: the three directories are the
    fixed children of the root. *)
Definition constructed (c : VolumeCache) : Prop :=
  backupDir c = filepath_Join (dir c) "committed-backup" ∧
  stagingDir c = filepath_Join (dir c) "staging" ∧
  committedDir c = filepath_Join (dir c) "committed".

(** An operation writes through [staging/] when the entries of every
    other directory are as before, and every file whose bytes changed has
    a name in [staging/] afterwards. *)
Definition writes_through_staging (c : VolumeCache) (w w' : World) : Prop :=
  (∀ d, d ≠ stagingDir c → dirs w' !! d = dirs w !! d) ∧
  (∀ i, inodes w' !! i ≠ inodes w !! i →
        ∃ name, lookup_ino (FilePath (stagingDir c) name) w' = Some i).

(** An operation writes only into [staging/] when every file outside
    [staging/] reads as before. *)
Definition writes_only_into_staging (c : VolumeCache) (w w' : World) : Prop :=
  ∀ d name, d ≠ stagingDir c →
    file_content (FilePath d name) w' = file_content (FilePath d name) w.

End WithPlatform.

End Cache.

(** ** exporter.go *)

(** *** The data of the collaborating packages

    The structs below belong to packages [api], [layers], [buildpack],
    [launch] and [platform/dataformat]; they carry the fields the
    exporter reads or writes. *)

Module api.

(** Modelled from the spec: the platform API version of package [api],
    a major and a minor number compared in that order; [AtLeast] and
    [LessThan] take the version that the source writes as a string. *)
Record Version := { Major : nat; Minor : nat }.

Definition Compare (v o : Version) : comparison :=
  match Nat.compare (Major v) (Major o) with
  | Eq => Nat.compare (Minor v) (Minor o)
  | c => c
  end.

Definition LessThan (v o : Version) : bool :=
  match Compare v o with Lt => true | _ => false end.

Definition AtLeast (v o : Version) : bool :=
  match Compare v o with Lt => false | _ => true end.

Definition String (v : Version) : string :=
  pretty (Major v) +:+ "." +:+ pretty (Minor v).

Definition v0_4 : Version := {| Major := 0; Minor := 4 |}.
Definition v0_5 : Version := {| Major := 0; Minor := 5 |}.
Definition v0_6 : Version := {| Major := 0; Minor := 6 |}.

End api.

Module Layer.
Record t := { ID : string; TarPath : string; Digest : string }.
Definition zero : t := {| ID := ""; TarPath := ""; Digest := "" |}.
End Layer.

Module Slice.
Record t := { Paths : list string }.
End Slice.

Module GroupBuildpack.
Record t := { ID : string; Version : string; API : string; Homepage : string }.
End GroupBuildpack.

Module Process.
Record t := { Type_ : string; Command : string; Args : list string; Direct : bool }.
End Process.

Module launch.

Record Metadata := { Processes : list Process.t }.

(** Modelled from the spec: [Metadata.FindProcessType] of package
    [launch], the process of the list that carries the type, if any. *)
Definition FindProcessType (m : Metadata) (pType : string) : option Process.t :=
  find (λ p, String.eqb (Process.Type_ p) pType) (Processes m).

End launch.

Module LayerMetadata.
Record t := { SHA : string }.
Definition zero : t := {| SHA := "" |}.
End LayerMetadata.

Module BuildpackLayerMetadata.
Record t := {
  SHA : string;
  Data : string;
  Build : bool;
  Launch : bool;
  Cache : bool
}.
Definition zero : t :=
  {| SHA := ""; Data := ""; Build := false; Launch := false; Cache := false |}.
Definition with_SHA (sha : string) (m : t) : t :=
  {| SHA := sha; Data := Data m; Build := Build m; Launch := Launch m; Cache := Cache m |}.
End BuildpackLayerMetadata.

Module BuildpackLayersMetadata.
Record t := {
  ID : string;
  Version : string;
  Layers : gmap string BuildpackLayerMetadata.t;
  Store : string
}.
Definition zero : t := {| ID := ""; Version := ""; Layers := ∅; Store := "" |}.
Definition set_layer (name : string) (lmd : BuildpackLayerMetadata.t) (m : t) : t :=
  {| ID := ID m; Version := Version m; Layers := <[name := lmd]> (Layers m);
     Store := Store m |}.
End BuildpackLayersMetadata.

Module RunImageMetadata.
Record t := { TopLayer : string; Reference : string }.
End RunImageMetadata.

Module LayersMetadata.
Record t := {
  App : list LayerMetadata.t;
  Buildpacks : list BuildpackLayersMetadata.t;
  Config : LayerMetadata.t;
  Launcher : LayerMetadata.t;
  ProcessTypes : LayerMetadata.t;
  RunImage : RunImageMetadata.t;
  Stack : string
}.

Definition zero : t :=
  {| App := []; Buildpacks := []; Config := LayerMetadata.zero;
     Launcher := LayerMetadata.zero; ProcessTypes := LayerMetadata.zero;
     RunImage := {| RunImageMetadata.TopLayer := ""; RunImageMetadata.Reference := "" |};
     Stack := "" |}.

(** Modelled from the spec: [LayersMetadata.MetadataForBuildpack], the
    entry of the buildpack or an empty one; missing is not an error. *)
Definition MetadataForBuildpack (m : t) (id : string) : BuildpackLayersMetadata.t :=
  default BuildpackLayersMetadata.zero
    (find (λ bpMD, String.eqb (BuildpackLayersMetadata.ID bpMD) id) (Buildpacks m)).

Definition with_App (app : list LayerMetadata.t) (m : t) : t :=
  {| App := app; Buildpacks := Buildpacks m; Config := Config m; Launcher := Launcher m;
     ProcessTypes := ProcessTypes m; RunImage := RunImage m; Stack := Stack m |}.
Definition with_Buildpacks (bps : list BuildpackLayersMetadata.t) (m : t) : t :=
  {| App := App m; Buildpacks := bps; Config := Config m; Launcher := Launcher m;
     ProcessTypes := ProcessTypes m; RunImage := RunImage m; Stack := Stack m |}.
Definition with_Config (sha : string) (m : t) : t :=
  {| App := App m; Buildpacks := Buildpacks m; Config := {| LayerMetadata.SHA := sha |};
     Launcher := Launcher m; ProcessTypes := ProcessTypes m; RunImage := RunImage m;
     Stack := Stack m |}.
Definition with_Launcher (sha : string) (m : t) : t :=
  {| App := App m; Buildpacks := Buildpacks m; Config := Config m;
     Launcher := {| LayerMetadata.SHA := sha |}; ProcessTypes := ProcessTypes m;
     RunImage := RunImage m; Stack := Stack m |}.
Definition with_ProcessTypes (sha : string) (m : t) : t :=
  {| App := App m; Buildpacks := Buildpacks m; Config := Config m; Launcher := Launcher m;
     ProcessTypes := {| LayerMetadata.SHA := sha |}; RunImage := RunImage m;
     Stack := Stack m |}.
End LayersMetadata.

Module Label.
Record t := { Key : string; Value : string }.
End Label.

Module BuildMetadata.
Record t := {
  BOM : list string;
  Labels : list Label.t;
  Launcher : string;
  Processes : list Process.t;
  Slices : list Slice.t;
  BuildpackDefaultProcessType : string
}.

Definition zero : t :=
  {| BOM := []; Labels := []; Launcher := ""; Processes := []; Slices := [];
     BuildpackDefaultProcessType := "" |}.

Definition with_Launcher (l : string) (m : t) : t :=
  {| BOM := BOM m; Labels := Labels m; Launcher := l; Processes := Processes m;
     Slices := Slices m; BuildpackDefaultProcessType := BuildpackDefaultProcessType m |}.

(** Modelled from the spec: [BuildMetadata.ToLaunchMD], the launch
    metadata made of the processes of the build. *)
Definition ToLaunchMD (m : t) : launch.Metadata := {| launch.Processes := Processes m |}.
End BuildMetadata.

Module ImageReport.
Record t := { Tags : list string; ImageID : string; Digest : string; ManifestSize : nat }.
Definition zero : t := {| Tags := []; ImageID := ""; Digest := ""; ManifestSize := 0 |}.
Definition with_ManifestSize (n : nat) (r : t) : t :=
  {| Tags := Tags r; ImageID := ImageID r; Digest := Digest r; ManifestSize := n |}.
End ImageReport.

Module ExportReport.
Record t := { Build : list string; Image : ImageReport.t }.
End ExportReport.

(** Modelled from the spec: a layer of a buildpack's layers directory
    ([bpLayer], declared outside the translated file), seen through what
    the exporter asks of it: its path, [name()], [Identifier()]
    ([<buildpackId>:<layerName>]), the outcome of [read()] and
    [hasLocalContents()]. *)
Module bpLayer.
Record t := {
  path : string;
  name : string;
  Identifier : string;
  read : error + BuildpackLayerMetadata.t;
  hasLocalContents : bool
}.
End bpLayer.

(** Modelled from the spec: what [readBuildpackLayersDir] returns, with
    the answers of [findLayers(forLaunch)] (in filename order) and
    [findLayers(forMalformed)]. *)
Module bpLayersDir.
Record t := {
  store : string;
  launchLayers : list bpLayer.t;
  malformedLayers : list bpLayer.t
}.
End bpLayersDir.

Module Lifecycle.

Definition EnvLayersDir : string := "CNB_LAYERS_DIR".
Definition EnvAppDir : string := "CNB_APP_DIR".
Definition EnvPlatformAPI : string := "CNB_PLATFORM_API".
Definition EnvDeprecationMode : string := "CNB_DEPRECATION_MODE".
Definition EnvProcessType : string := "CNB_PROCESS_TYPE".
Definition DeprecationModeQuiet : string := "quiet".

(** Modelled from the spec: the keys of the three metadata labels,
    constants of package [dataformat]. *)
Definition LayerMetadataLabel : string := "io.buildpacks.lifecycle.metadata".
Definition BuildMetadataLabel : string := "io.buildpacks.build.metadata".
Definition ProjectMetadataLabel : string := "io.buildpacks.project.metadata".

(** *** The working image and the logger *)

(** The calls of the [imgutil.Image] interface that the exporter makes.
    Modelled from the spec: [saveImage] is declared outside the
    translated file; it saves the image under the requested names through
    the image's save contract, which is the one call [Save] here. *)
Inductive ImageCall :=
  | TopLayer
  | AddLayerWithDiffID (tarPath diffID : string)
  | ReuseLayer (sha : string)
  | SetLabel (key value : string)
  | SetEnv (key value : string)
  | Env (key : string)
  | SetEntrypoint (ep : list string)
  | SetCmd (cmd : list string)
  | SetWorkingDir (d : string)
  | Save (additionalNames : list string).

Record ImageReply := {
  reply_err : option error;
  reply_value : string;
  reply_report : ImageReport.t
}.

(** An image answers a call given the calls it received before. *)
Definition Image : Type := list ImageCall → ImageCall → ImageReply.

Inductive Level := DebugLevel | InfoLevel | WarnLevel.

Record ExportState := {
  calls : list ImageCall;
  logs : list (Level * string)
}.

Abbreviation E := (ST ExportState).

Definition call (image : Image) (c : ImageCall) : E ImageReply :=
  λ st, (image (calls st) c, {| calls := calls st ++ [c]; logs := logs st |}).

Definition log (lvl : Level) (msg : string) : E unit :=
  λ st, (tt, {| calls := calls st; logs := logs st ++ [(lvl, msg)] |}).

Definition nl : string := String (Ascii.ascii_of_nat 10) "".

(** [fmt] of a slice of strings with [%s] or [%+v]. *)
Definition fmt_strings (l : list string) : string :=
  "[" +:+ String.concat " " l +:+ "]".

Record LayerFactory := {
  DirLayer : string → string → Layer.t * option error;
  LauncherLayer : string → Layer.t * option error;
  ProcessTypesLayer : launch.Metadata → Layer.t * option error;
  SliceLayers : string → list Slice.t → list Layer.t * option error
}.

Record Exporter := {
  Buildpacks : list GroupBuildpack.t;
  Factory : LayerFactory;
  PlatformAPI : api.Version
}.

Record LauncherConfig := {
  Path : string;
  Metadata : string
}.

Record ExportOptions := {
  LayersDir : string;
  AppDir : string;
  WorkingImage : Image;
  RunImageRef : string;
  OrigMetadata : LayersMetadata.t;
  AdditionalNames : list string;
  Launcher : LauncherConfig;
  Stack : string;
  Project : string;
  DefaultProcessType : string
}.

Definition with_dirs (layersDir appDir : string) (o : ExportOptions) : ExportOptions :=
  {| LayersDir := layersDir; AppDir := appDir; WorkingImage := WorkingImage o;
     RunImageRef := RunImageRef o; OrigMetadata := OrigMetadata o;
     AdditionalNames := AdditionalNames o; Launcher := Launcher o; Stack := Stack o;
     Project := Project o; DefaultProcessType := DefaultProcessType o |}.

Section WithEnvironment.

(** What the exporter takes from the host and from the rest of the
    repository: path resolution, the decoders of the files under the
    layers directory, the JSON encoders of the labels, and the constants
    and helpers of packages [launch], [buildpack] and [api]. *)
Variable filepath_Abs : string → string * option error.
Variable os_PathListSeparator : string.
Variable toml_DecodeFile_BuildMetadata : string → BuildMetadata.t * option error.
Variable toml_DecodeFile_BuildReport : string → list string * option error.
Variable readBuildpackLayersDir : string → GroupBuildpack.t → error + bpLayersDir.t.
Variable json_Marshal_LayersMetadata : LayersMetadata.t → string * option error.
Variable json_Marshal_BuildMetadata : BuildMetadata.t → string * option error.
Variable json_Marshal_Project : string → string * option error.
Variable launch_LauncherPath : string.
Variable launch_ProcessDir : string.
Variable launch_LifecycleDir : string.
Variable launch_ProcessPath : string → string.
Variable launch_EscapeID : string → string.
Variable buildpack_WithBuildpack : GroupBuildpack.t → list string → list string.
Variable api_MustParse : string → api.Version.

Definition supportsMulticallLauncher (e : Exporter) : bool :=
  api.AtLeast (PlatformAPI e) api.v0_4.

Definition supportsManifestSize (e : Exporter) : bool :=
  api.AtLeast (PlatformAPI e) api.v0_6.

Definition processTypeWarning (launchMD : launch.Metadata) (defaultProcessType : string)
    : string :=
  let typeList := map Process.Type_ (launch.Processes launchMD) in
  "default process type '" +:+ defaultProcessType +:+ "' not present in list "
    +:+ fmt_strings typeList.

Definition processTypeError (launchMD : launch.Metadata) (defaultProcessType : string)
    : error :=
  Errorf (processTypeWarning launchMD defaultProcessType).

Definition addOrReuseLayer (e : Exporter) (image : Image) (layer : Layer.t)
    (previousSHA : string) : E (string * option error) :=
  let '(layer, err) := DirLayer (Factory e) (Layer.ID layer) (Layer.TarPath layer) in
  match err with
  | Some err =>
      ret ("", Some (Wrap ("creating layer '" +:+ Layer.ID layer +:+ "'") err))
  | None =>
      if String.eqb (Layer.Digest layer) previousSHA then
        log InfoLevel ("Reusing layer '" +:+ Layer.ID layer +:+ "'" +:+ nl) ;;;
        log DebugLevel ("Layer '" +:+ Layer.ID layer +:+ "' SHA: "
                        +:+ Layer.Digest layer +:+ nl) ;;;
        r <- call image (ReuseLayer previousSHA) ;;
        ret (Layer.Digest layer, reply_err r)
      else
        log InfoLevel ("Adding layer '" +:+ Layer.ID layer +:+ "'" +:+ nl) ;;;
        log DebugLevel ("Layer '" +:+ Layer.ID layer +:+ "' SHA: "
                        +:+ Layer.Digest layer +:+ nl) ;;;
        r <- call image (AddLayerWithDiffID (Layer.TarPath layer) (Layer.Digest layer)) ;;
        ret (Layer.Digest layer, reply_err r)
  end.

(** The body of the loop over the launch layers of one buildpack: the
    metadata to store under the layer's name, or the error that ends the
    export. *)
Definition exportLaunchLayer (e : Exporter) (opts : ExportOptions)
    (bp : GroupBuildpack.t) (fsLayer : bpLayer.t) : E (error + BuildpackLayerMetadata.t) :=
  match bpLayer.read fsLayer with
  | inl err =>
      ret (inl (Wrap ("reading '" +:+ bpLayer.Identifier fsLayer +:+ "' metadata") err))
  | inr lmd =>
      let origLayers :=
        BuildpackLayersMetadata.Layers
          (LayersMetadata.MetadataForBuildpack (OrigMetadata opts) (GroupBuildpack.ID bp)) in
      if bpLayer.hasLocalContents fsLayer then
        let '(layer, err) :=
          DirLayer (Factory e) (bpLayer.Identifier fsLayer) (bpLayer.path fsLayer) in
        match err with
        | Some err => ret (inl (Wrap "creating layer" err))
        | None =>
            let origLayerMetadata :=
              default BuildpackLayerMetadata.zero (origLayers !! bpLayer.name fsLayer) in
            r <- addOrReuseLayer e (WorkingImage opts) layer
                   (BuildpackLayerMetadata.SHA origLayerMetadata) ;;
            match r with
            | (_, Some err) => ret (inl err)
            | (sha, None) => ret (inr (BuildpackLayerMetadata.with_SHA sha lmd))
            end
        end
      else if BuildpackLayerMetadata.Cache lmd then
        ret (inl (Errorf ("layer '" +:+ bpLayer.Identifier fsLayer
                          +:+ "' is cache=true but has no contents")))
      else
        match origLayers !! bpLayer.name fsLayer with
        | None =>
            ret (inl (Errorf ("cannot reuse '" +:+ bpLayer.Identifier fsLayer
                              +:+ "', previous image has no metadata for layer '"
                              +:+ bpLayer.Identifier fsLayer +:+ "'")))
        | Some origLayerMetadata =>
            log InfoLevel ("Reusing layer '" +:+ bpLayer.Identifier fsLayer +:+ "'" +:+ nl) ;;;
            log DebugLevel ("Layer '" +:+ bpLayer.Identifier fsLayer +:+ "' SHA: "
                            +:+ BuildpackLayerMetadata.SHA origLayerMetadata +:+ nl) ;;;
            r <- call (WorkingImage opts)
                   (ReuseLayer (BuildpackLayerMetadata.SHA origLayerMetadata)) ;;
            match reply_err r with
            | Some err =>
                ret (inl (Wrap ("reusing layer: '" +:+ bpLayer.Identifier fsLayer +:+ "'")
                               err))
            | None =>
                ret (inr (BuildpackLayerMetadata.with_SHA
                            (BuildpackLayerMetadata.SHA origLayerMetadata) lmd))
            end
        end
  end.

Fixpoint exportLaunchLayers (e : Exporter) (opts : ExportOptions) (bp : GroupBuildpack.t)
    (fsLayers : list bpLayer.t) (bpMD : BuildpackLayersMetadata.t)
    : E (error + BuildpackLayersMetadata.t) :=
  match fsLayers with
  | [] => ret (inr bpMD)
  | fsLayer :: rest =>
      r <- exportLaunchLayer e opts bp fsLayer ;;
      match r with
      | inl err => ret (inl err)
      | inr lmd =>
          exportLaunchLayers e opts bp rest
            (BuildpackLayersMetadata.set_layer (bpLayer.name fsLayer) lmd bpMD)
      end
  end.

Fixpoint addBuildpackLayers_from (e : Exporter) (opts : ExportOptions)
    (bps : list GroupBuildpack.t) (meta : LayersMetadata.t) : E (error + LayersMetadata.t) :=
  match bps with
  | [] => ret (inr meta)
  | bp :: rest =>
      match readBuildpackLayersDir (LayersDir opts) bp with
      | inl err =>
          ret (inl (Wrap ("reading layers for buildpack '" +:+ GroupBuildpack.ID bp +:+ "'")
                         err))
      | inr bpDir =>
          let bpMD :=
            {| BuildpackLayersMetadata.ID := GroupBuildpack.ID bp;
               BuildpackLayersMetadata.Version := GroupBuildpack.Version bp;
               BuildpackLayersMetadata.Layers := ∅;
               BuildpackLayersMetadata.Store := bpLayersDir.store bpDir |} in
          r <- exportLaunchLayers e opts bp (bpLayersDir.launchLayers bpDir) bpMD ;;
          match r with
          | inl err => ret (inl err)
          | inr bpMD =>
              let meta :=
                LayersMetadata.with_Buildpacks (LayersMetadata.Buildpacks meta ++ [bpMD])
                  meta in
              match bpLayersDir.malformedLayers bpDir with
              | [] => addBuildpackLayers_from e opts rest meta
              | malformedLayers =>
                  let ids := map bpLayer.Identifier malformedLayers in
                  ret (inl (Errorf ("failed to parse metadata for layers '"
                                    +:+ fmt_strings ids +:+ "'")))
              end
          end
      end
  end.

Definition addBuildpackLayers (e : Exporter) (opts : ExportOptions)
    (meta : LayersMetadata.t) : E (error + LayersMetadata.t) :=
  addBuildpackLayers_from e opts (Buildpacks e) meta.

Definition launcherConfig (e : Exporter) (opts : ExportOptions) (buildMD : BuildMetadata.t)
    (meta : LayersMetadata.t) : E (error + LayersMetadata.t) :=
  if supportsMulticallLauncher e then
    let launchMD := {| launch.Processes := BuildMetadata.Processes buildMD |} in
    if 0 <? length (BuildMetadata.Processes buildMD) then
      let '(processTypesLayer, err) := ProcessTypesLayer (Factory e) launchMD in
      match err with
      | Some err =>
          ret (inl (Wrap ("creating layer '" +:+ Layer.ID processTypesLayer +:+ "'") err))
      | None =>
          r <- addOrReuseLayer e (WorkingImage opts) processTypesLayer
                 (LayerMetadata.SHA (LayersMetadata.ProcessTypes (OrigMetadata opts))) ;;
          match r with
          | (_, Some err) =>
              ret (inl (Wrap ("exporting layer '" +:+ Layer.ID processTypesLayer +:+ "'")
                             err))
          | (sha, None) => ret (inr (LayersMetadata.with_ProcessTypes sha meta))
          end
      end
    else ret (inr meta)
  else ret (inr meta).

Definition addLauncherLayers (e : Exporter) (opts : ExportOptions)
    (buildMD : BuildMetadata.t) (meta : LayersMetadata.t) : E (error + LayersMetadata.t) :=
  let '(launcherLayer, err) := LauncherLayer (Factory e) (Path (Launcher opts)) in
  match err with
  | Some err => ret (inl (Wrap "creating launcher layers" err))
  | None =>
      r <- addOrReuseLayer e (WorkingImage opts) launcherLayer
             (LayerMetadata.SHA (LayersMetadata.Launcher (OrigMetadata opts))) ;;
      match r with
      | (_, Some err) => ret (inl (Wrap "exporting launcher configLayer" err))
      | (sha, None) =>
          let meta := LayersMetadata.with_Launcher sha meta in
          let '(configLayer, err) :=
            DirLayer (Factory e) "config" (filepath_Join (LayersDir opts) "config") in
          match err with
          | Some err =>
              ret (inl (Wrap ("creating layer '" +:+ Layer.ID configLayer +:+ "'") err))
          | None =>
              r <- addOrReuseLayer e (WorkingImage opts) configLayer
                     (LayerMetadata.SHA (LayersMetadata.Config (OrigMetadata opts))) ;;
              match r with
              | (_, Some err) => ret (inl (Wrap "exporting config layer" err))
              | (sha, None) =>
                  launcherConfig e opts buildMD (LayersMetadata.with_Config sha meta)
              end
          end
      end
  end.

(** The loop of [addAppLayers]: the metadata and the number of reused
    layers so far go through the iterations. *)
Fixpoint addSliceLayers (e : Exporter) (opts : ExportOptions) (sliceLayers : list Layer.t)
    (meta : LayersMetadata.t) (numberOfReusedLayers : nat)
    : E (error + (LayersMetadata.t * nat)) :=
  match sliceLayers with
  | [] => ret (inr (meta, numberOfReusedLayers))
  | slice :: rest =>
      let found :=
        existsb (λ previous, String.eqb (Layer.Digest slice) (LayerMetadata.SHA previous))
          (LayersMetadata.App (OrigMetadata opts)) in
      r <- (if found
            then call (WorkingImage opts) (ReuseLayer (Layer.Digest slice))
            else call (WorkingImage opts)
                   (AddLayerWithDiffID (Layer.TarPath slice) (Layer.Digest slice))) ;;
      let numberOfReusedLayers :=
        if found then S numberOfReusedLayers else numberOfReusedLayers in
      match reply_err r with
      | Some err => ret (inl err)
      | None =>
          log DebugLevel ("Layer '" +:+ Layer.ID slice +:+ "' SHA: "
                          +:+ Layer.Digest slice +:+ nl) ;;;
          addSliceLayers e opts rest
            (LayersMetadata.with_App
               (LayersMetadata.App meta ++ [{| LayerMetadata.SHA := Layer.Digest slice |}])
               meta)
            numberOfReusedLayers
      end
  end.

Definition addAppLayers (e : Exporter) (opts : ExportOptions) (slices : list Slice.t)
    (meta : LayersMetadata.t) : E (error + LayersMetadata.t) :=
  (* creating app layers (slices + app dir) *)
  let '(sliceLayers, err) := SliceLayers (Factory e) (AppDir opts) slices in
  match err with
  | Some err => ret (inl (Wrap "creating app layers" err))
  | None =>
      r <- addSliceLayers e opts sliceLayers meta 0 ;;
      match r with
      | inl err => ret (inl err)
      | inr (meta, numberOfReusedLayers) =>
          let delta := length sliceLayers - numberOfReusedLayers in
          (if 0 <? numberOfReusedLayers
           then log InfoLevel ("Reusing " +:+ pretty numberOfReusedLayers +:+ "/"
                               +:+ pretty (length sliceLayers) +:+ " app layer(s)" +:+ nl)
           else ret tt) ;;;
          (if negb (delta =? 0)
           then log InfoLevel ("Adding " +:+ pretty delta +:+ "/"
                               +:+ pretty (length sliceLayers) +:+ " app layer(s)" +:+ nl)
           else ret tt) ;;;
          ret (inr meta)
      end
  end.

Fixpoint setBuildpackLabels (opts : ExportOptions) (labels : list Label.t)
    : E (option error) :=
  match labels with
  | [] => ret None
  | label :: rest =>
      log InfoLevel ("Adding label '" +:+ Label.Key label +:+ "'") ;;;
      r <- call (WorkingImage opts) (SetLabel (Label.Key label) (Label.Value label)) ;;
      match reply_err r with
      | Some err =>
          ret (Some (Wrap ("set buildpack-provided label '" +:+ Label.Key label +:+ "'")
                          err))
      | None => setBuildpackLabels opts rest
      end
  end.

(** [setLabels] also fills the launcher field of the build metadata it
    was handed, so the record goes back to the caller. *)
Definition setLabels (e : Exporter) (opts : ExportOptions) (meta : LayersMetadata.t)
    (buildMD : BuildMetadata.t) : E (option error * BuildMetadata.t) :=
  let '(data, err) := json_Marshal_LayersMetadata meta in
  match err with
  | Some err => ret (Some (Wrap "marshall metadata" err), buildMD)
  | None =>
      log InfoLevel ("Adding label '" +:+ LayerMetadataLabel +:+ "'") ;;;
      r <- call (WorkingImage opts) (SetLabel LayerMetadataLabel data) ;;
      match reply_err r with
      | Some err => ret (Some (Wrap "set app image metadata label" err), buildMD)
      | None =>
          let buildMD := BuildMetadata.with_Launcher (Metadata (Launcher opts)) buildMD in
          let '(buildJSON, err) := json_Marshal_BuildMetadata buildMD in
          match err with
          | Some err => ret (Some (Wrap "parse build metadata" err), buildMD)
          | None =>
              log InfoLevel ("Adding label '" +:+ BuildMetadataLabel +:+ "'") ;;;
              r <- call (WorkingImage opts) (SetLabel BuildMetadataLabel buildJSON) ;;
              match reply_err r with
              | Some err => ret (Some (Wrap "set build image metadata label" err), buildMD)
              | None =>
                  let '(projectJSON, err) := json_Marshal_Project (Project opts) in
                  match err with
                  | Some err => ret (Some (Wrap "parse project metadata" err), buildMD)
                  | None =>
                      log InfoLevel ("Adding label '" +:+ ProjectMetadataLabel +:+ "'") ;;;
                      r <- call (WorkingImage opts)
                             (SetLabel ProjectMetadataLabel projectJSON) ;;
                      match reply_err r with
                      | Some err =>
                          ret (Some (Wrap "set project metadata label" err), buildMD)
                      | None =>
                          r <- setBuildpackLabels opts (BuildMetadata.Labels buildMD) ;;
                          ret (r, buildMD)
                      end
                  end
              end
          end
      end
  end.

(** One [SetEnv] of [setEnv]: log, call, and wrap the failure. *)
Definition setEnvVar (opts : ExportOptions) (key value errName : string)
    : E (option error) :=
  log DebugLevel ("Setting " +:+ key +:+ "=" +:+ value) ;;;
  r <- call (WorkingImage opts) (SetEnv key value) ;;
  match reply_err r with
  | Some err => ret (Some (Wrap ("set app image env " +:+ errName) err))
  | None => ret None
  end.

Definition setEnv (e : Exporter) (opts : ExportOptions) (launchMD : launch.Metadata)
    : E (option error) :=
  r <- setEnvVar opts EnvLayersDir (LayersDir opts) EnvLayersDir ;;
  match r with Some err => ret (Some err) | None =>
  r <- setEnvVar opts EnvAppDir (AppDir opts) EnvAppDir ;;
  match r with Some err => ret (Some err) | None =>
  r <- setEnvVar opts EnvPlatformAPI (api.String (PlatformAPI e)) EnvAppDir ;;
  match r with Some err => ret (Some err) | None =>
  r <- setEnvVar opts EnvDeprecationMode DeprecationModeQuiet EnvAppDir ;;
  match r with Some err => ret (Some err) | None =>
  if supportsMulticallLauncher e then
    r <- call (WorkingImage opts) (Env "PATH") ;;
    match reply_err r with
    | Some err => ret (Some (Wrap "failed to get PATH from app image" err))
    | None =>
        let path :=
          String.concat os_PathListSeparator
            [launch_ProcessDir; launch_LifecycleDir; reply_value r] in
        log DebugLevel ("Prepending " +:+ launch_ProcessDir +:+ " and "
                        +:+ launch_LifecycleDir +:+ " to PATH") ;;;
        r <- call (WorkingImage opts) (SetEnv "PATH" path) ;;
        match reply_err r with
        | Some err => ret (Some (Wrap "set app image env PATH" err))
        | None => ret None
        end
    end
  else if negb (String.eqb (DefaultProcessType opts) "") then
    match launch.FindProcessType launchMD (DefaultProcessType opts) with
    | None => ret (Some (processTypeError launchMD (DefaultProcessType opts)))
    | Some _ => setEnvVar opts EnvProcessType (DefaultProcessType opts) EnvProcessType
    end
  else ret None
  end end end end.

Definition setWorkingDir (opts : ExportOptions) : E (option error) :=
  r <- call (WorkingImage opts) (SetWorkingDir (AppDir opts)) ;;
  ret (reply_err r).

Definition entrypoint (e : Exporter) (launchMD : launch.Metadata)
    (userDefaultProcessType buildpackDefaultProcessType : string)
    : E (string * option error) :=
  if negb (supportsMulticallLauncher e) then ret (launch_LauncherPath, None)
  else
    match String.eqb userDefaultProcessType "",
          api.LessThan (PlatformAPI e) api.v0_6,
          launch.Processes launchMD with
    | true, true, [p] =>
        (* if there is only one process, we set it to the default for platform API < 0.6 *)
        log InfoLevel ("Setting default process type '" +:+ Process.Type_ p +:+ "'") ;;;
        ret (launch_ProcessPath (Process.Type_ p), None)
    | _, _, _ =>
        if negb (String.eqb userDefaultProcessType "") then
          match launch.FindProcessType launchMD userDefaultProcessType with
          | None =>
              if api.LessThan (PlatformAPI e) api.v0_6 then
                log WarnLevel (processTypeWarning launchMD userDefaultProcessType) ;;;
                ret (launch_LauncherPath, None)
              else
                ret ("", Some (Errorf ("tried to set " +:+ userDefaultProcessType
                                       +:+ " to default but it doesn't exist")))
          | Some defaultProcess =>
              log InfoLevel ("Setting default process type '"
                             +:+ Process.Type_ defaultProcess +:+ "'") ;;;
              ret (launch_ProcessPath (Process.Type_ defaultProcess), None)
          end
        else if String.eqb buildpackDefaultProcessType "" then
          log InfoLevel "no default process type" ;;;
          ret (launch_LauncherPath, None)
        else
          log InfoLevel ("Setting default process type '"
                         +:+ buildpackDefaultProcessType +:+ "'") ;;;
          ret (launch_ProcessPath buildpackDefaultProcessType, None)
    end.

Fixpoint buildReportEntries (layersDir : string) (bps : list GroupBuildpack.t)
    (out : list string) : error + list string :=
  match bps with
  | [] => inr out
  | bp :: rest =>
      if api.LessThan (api_MustParse (GroupBuildpack.API bp)) api.v0_5
      then buildReportEntries layersDir rest out
      else
        let bpBuildTOML :=
          filepath_Join (filepath_Join layersDir (launch_EscapeID (GroupBuildpack.ID bp)))
            "build.toml" in
        let '(bom, err) := toml_DecodeFile_BuildReport bpBuildTOML in
        match err with
        | Some err =>
            if negb (os_IsNotExist err) then inl err
            else buildReportEntries layersDir rest (out ++ buildpack_WithBuildpack bp bom)
        | None => buildReportEntries layersDir rest (out ++ buildpack_WithBuildpack bp bom)
        end
  end.

Definition makeBuildReport (e : Exporter) (layersDir : string) : error + list string :=
  if api.LessThan (PlatformAPI e) api.v0_5 then inr []
  else buildReportEntries layersDir (Buildpacks e) [].

Definition saveImage (image : Image) (additionalNames : list string)
    : E (ImageReport.t * option error) :=
  r <- call image (Save additionalNames) ;;
  ret (reply_report r, reply_err r).

Definition Export (e : Exporter) (opts : ExportOptions) : E (error + ExportReport.t) :=
  let '(layersDir, err) := filepath_Abs (LayersDir opts) in
  match err with
  | Some err => ret (inl (Wrap "layers dir absolute path" err))
  | None =>
  let '(appDir, err) := filepath_Abs (AppDir opts) in
  match err with
  | Some err => ret (inl (Wrap "app dir absolute path" err))
  | None =>
  let opts := with_dirs layersDir appDir opts in
  r <- call (WorkingImage opts) TopLayer ;;
  match reply_err r with
  | Some err => ret (inl (Wrap "get run image top layer SHA" err))
  | None =>
  let meta :=
    {| LayersMetadata.App := []; LayersMetadata.Buildpacks := [];
       LayersMetadata.Config := LayerMetadata.zero;
       LayersMetadata.Launcher := LayerMetadata.zero;
       LayersMetadata.ProcessTypes := LayerMetadata.zero;
       LayersMetadata.RunImage :=
         {| RunImageMetadata.TopLayer := reply_value r;
            RunImageMetadata.Reference := RunImageRef opts |};
       LayersMetadata.Stack := Stack opts |} in
  let '(buildMD, err) :=
    toml_DecodeFile_BuildMetadata
      (filepath_Join (filepath_Join (LayersDir opts) "config") "metadata.toml") in
  match err with
  | Some err => ret (inl (Wrap "read build metadata" err))
  | None =>
  (* buildpack-provided layers *)
  r <- addBuildpackLayers e opts meta ;;
  match r with
  | inl err => ret (inl err)
  | inr meta =>
  (* app layers (split into 1 or more slices) *)
  r <- addAppLayers e opts (BuildMetadata.Slices buildMD) meta ;;
  match r with
  | inl err => ret (inl (Wrap "exporting app layers" err))
  | inr meta =>
  (* launcher layers (launcher binary, launcher config, process symlinks) *)
  r <- addLauncherLayers e opts buildMD meta ;;
  match r with
  | inl err => ret (inl err)
  | inr meta =>
  r <- setLabels e opts meta buildMD ;;
  match r with
  | (Some err, _) => ret (inl err)
  | (None, buildMD) =>
  r <- setEnv e opts (BuildMetadata.ToLaunchMD buildMD) ;;
  match r with
  | Some err => ret (inl err)
  | None =>
  r <- (if api.AtLeast (PlatformAPI e) api.v0_6 then
          log DebugLevel ("Setting WORKDIR: '" +:+ AppDir opts +:+ "'") ;;;
          setWorkingDir opts
        else ret None) ;;
  match r with
  | Some err => ret (inl (Wrap "setting workdir" err))
  | None =>
  r <- entrypoint e (BuildMetadata.ToLaunchMD buildMD) (DefaultProcessType opts)
         (BuildMetadata.BuildpackDefaultProcessType buildMD) ;;
  match r with
  | (_, Some err) => ret (inl (Wrap "determining entrypoint" err))
  | (entrypoint, None) =>
  log DebugLevel ("Setting ENTRYPOINT: '" +:+ entrypoint +:+ "'") ;;;
  r <- call (WorkingImage opts) (SetEntrypoint [entrypoint]) ;;
  match reply_err r with
  | Some err => ret (inl (Wrap "setting entrypoint" err))
  | None =>
  r <- call (WorkingImage opts) (SetCmd []) ;; (* Note: Command intentionally empty *)
  match reply_err r with
  | Some err => ret (inl (Wrap "setting cmd" err))
  | None =>
  match makeBuildReport e (LayersDir opts) with
  | inl err => ret (inl err)
  | inr build =>
  r <- saveImage (WorkingImage opts) (AdditionalNames opts) ;;
  match r with
  | (_, Some err) => ret (inl err)
  | (image, None) =>
  let image :=
    if negb (supportsManifestSize e)
    then (* unset manifest size in report.toml for old platform API versions *)
      ImageReport.with_ManifestSize 0 image
    else image in
  ret (inr {| ExportReport.Build := build; ExportReport.Image := image |})
  end end end end end end end end end end end end end end end.

(** *** The layer calls of an export, in order *)

Definition is_layer_call (c : ImageCall) : bool :=
  match c with
  | AddLayerWithDiffID _ _ | ReuseLayer _ => true
  | _ => false
  end.

Definition layer_calls (cs : list ImageCall) : list ImageCall :=
  List.filter is_layer_call cs.

(** The call by which a layer enters the image: reuse when the digest of
    the layer made again by the factory is the previous one. *)
Definition addOrReuse_call (e : Exporter) (layer : Layer.t) (previousSHA : string)
    : ImageCall :=
  let rebuilt := (DirLayer (Factory e) (Layer.ID layer) (Layer.TarPath layer)).1 in
  if String.eqb (Layer.Digest rebuilt) previousSHA
  then ReuseLayer previousSHA
  else AddLayerWithDiffID (Layer.TarPath rebuilt) (Layer.Digest rebuilt).

Definition launch_layer_call (e : Exporter) (opts : ExportOptions) (bp : GroupBuildpack.t)
    (fsLayer : bpLayer.t) : ImageCall :=
  let previous :=
    BuildpackLayerMetadata.SHA
      (default BuildpackLayerMetadata.zero
         (BuildpackLayersMetadata.Layers
            (LayersMetadata.MetadataForBuildpack (OrigMetadata opts) (GroupBuildpack.ID bp))
          !! bpLayer.name fsLayer)) in
  if bpLayer.hasLocalContents fsLayer
  then addOrReuse_call e
         (DirLayer (Factory e) (bpLayer.Identifier fsLayer) (bpLayer.path fsLayer)).1
         previous
  else ReuseLayer previous.

(** The launch layers of one buildpack, in the order of its directory. *)
Definition buildpack_calls (e : Exporter) (opts : ExportOptions) (bp : GroupBuildpack.t)
    : list ImageCall :=
  match readBuildpackLayersDir (LayersDir opts) bp with
  | inl _ => []
  | inr bpDir => map (launch_layer_call e opts bp) (bpLayersDir.launchLayers bpDir)
  end.

Definition slice_call (opts : ExportOptions) (slice : Layer.t) : ImageCall :=
  if existsb (λ previous, String.eqb (Layer.Digest slice) (LayerMetadata.SHA previous))
       (LayersMetadata.App (OrigMetadata opts))
  then ReuseLayer (Layer.Digest slice)
  else AddLayerWithDiffID (Layer.TarPath slice) (Layer.Digest slice).

Definition launcher_call (e : Exporter) (opts : ExportOptions) : ImageCall :=
  addOrReuse_call e (LauncherLayer (Factory e) (Path (Launcher opts))).1
    (LayerMetadata.SHA (LayersMetadata.Launcher (OrigMetadata opts))).

Definition config_call (e : Exporter) (opts : ExportOptions) : ImageCall :=
  addOrReuse_call e
    (DirLayer (Factory e) "config" (filepath_Join (LayersDir opts) "config")).1
    (LayerMetadata.SHA (LayersMetadata.Config (OrigMetadata opts))).

Definition process_types_calls (e : Exporter) (opts : ExportOptions)
    (buildMD : BuildMetadata.t) : list ImageCall :=
  if api.AtLeast (PlatformAPI e) api.v0_4 && (0 <? length (BuildMetadata.Processes buildMD))
  then [addOrReuse_call e
          (ProcessTypesLayer (Factory e)
             {| launch.Processes := BuildMetadata.Processes buildMD |}).1
          (LayerMetadata.SHA (LayersMetadata.ProcessTypes (OrigMetadata opts)))]
  else [].

(** *** The decision table of the entrypoint *)

Inductive EntrypointDecision :=
  | UseLauncher
  | UseProcess (processType : string)
  | WarnAndUseLauncher
  | FailNoSuchProcess.

(** The rows of the table, evaluated top to bottom. *)
Definition entrypoint_table (platformAPI : api.Version) (processes : list Process.t)
    (userDefault buildpackDefault : string) : EntrypointDecision :=
  let userSet := negb (String.eqb userDefault "") in
  let found := existsb (λ p, String.eqb (Process.Type_ p) userDefault) processes in
  if api.LessThan platformAPI api.v0_4 then UseLauncher
  else if userSet && found then UseProcess userDefault
  else if userSet && api.LessThan platformAPI api.v0_6 then WarnAndUseLauncher
  else if userSet then FailNoSuchProcess
  else match api.LessThan platformAPI api.v0_6, processes with
       | true, [p] => UseProcess (Process.Type_ p)
       | _, _ =>
           if negb (String.eqb buildpackDefault "") then UseProcess buildpackDefault
           else UseLauncher
       end.

End WithEnvironment.

(** The calls that a run adds to the log of the image. *)
Definition emits (st st' : ExportState) (cs : list ImageCall) : Prop :=
  calls st' = calls st ++ cs.

(** A run that makes no layer call. *)
Definition quiet (st st' : ExportState) : Prop :=
  ∃ cs, emits st st' cs ∧ layer_calls cs = [].

(** A message contains a text. *)
Definition contains (s sub : string) : Prop :=
  ∃ before after, s = before +:+ sub +:+ after.

End Lifecycle.

(** ** Scenarios

    Concrete caches and worlds on which the operations are run. *)

Module Scenario.
Import Cache.

Definition cache0 : VolumeCache :=
  {| committed := false;
     dir := "/cache";
     backupDir := "/cache/committed-backup";
     stagingDir := "/cache/staging";
     committedDir := "/cache/committed" |}.

Definition layerA : bytes := String.list_byte_of_string "layer A".
Definition layerB : bytes := String.list_byte_of_string "layer B, a longer one".

(** A cache root after construction: one committed layer, an empty
    staging directory, and a tarball waiting in [/tmp]. *)
Definition fs0 : gmap string (gmap string nat) :=
  {[ "/cache" := ∅;
     "/cache/committed" := {[ "sha256:A.tar" := 1 ]};
     "/cache/staging" := ∅;
     "/tmp" := {[ "b.tar" := 2 ]} ]}.

Definition world0 : World :=
  {| dirs := fs0; inodes := {[ 1 := layerA; 2 := layerB ]}; oracle := [] |}.

Definition with_oracle (o : list (option fault)) (w : World) : World :=
  {| dirs := dirs w; inodes := inodes w; oracle := o |}.

Definition eio : option fault := Some {| f_err := EIO; f_done := 7 |}.

(** The state before construction: no staging directory yet. *)
Definition world_fresh : World :=
  {| dirs := {[ "/cache" := ∅;
                "/cache/committed" := {[ "sha256:A.tar" := 1 ]};
                "/tmp" := {[ "b.tar" := 2 ]} ]};
     inodes := {[ 1 := layerA; 2 := layerB ]}; oracle := [] |}.

(** A session that reuses A and adds B. *)
Definition world_staged : World :=
  (AddLayerFile "linux" cache0 (FilePath "/tmp" "b.tar") "sha256:B"
     (ReuseLayer "linux" cache0 "sha256:A" world0).2).2.

(** Both renames of the second step of [Commit] fail. *)
Definition world_rollback_fails : World := with_oracle [None; eio; eio] world_staged.

(** The staging rename fails and the rollback goes through. *)
Definition world_rollback_ok : World := with_oracle [None; eio] world_staged.

(** The copy of a stream breaks after seven bytes. *)
Definition world_copy_fails : World := with_oracle [None; eio] world0.

(** The same, seen from before the construction, whose five system calls
    go through. *)
Definition world_fresh_copy_fails : World :=
  with_oracle [None; None; None; None; None; None; eio] world_fresh.

(** A metadata document kept as its bytes; the empty document does not
    decode. *)
Definition Doc : Type := bytes.
Definition Doc_zero : Doc := [].
Definition Doc_Marshal (m : Doc) : error + bytes := inr m.
Definition Doc_Unmarshal (b : bytes) : option Doc :=
  match b with [] => None | _ => Some b end.

End Scenario.

(** An export of one buildpack with three launch layers: [l1] has local
    contents, [l2] has none and is known to the previous image, [l3] has
    none and is marked [cache=true]. *)
Module ExportScenario.
Import Lifecycle.

Definition factory : LayerFactory :=
  {| DirLayer := λ id dir,
       ({| Layer.ID := id; Layer.TarPath := dir +:+ ".tar";
           Layer.Digest := "sha256:" +:+ id |}, None);
     LauncherLayer := λ path,
       ({| Layer.ID := "launcher"; Layer.TarPath := path;
           Layer.Digest := "sha256:launcher" |}, None);
     ProcessTypesLayer := λ _,
       ({| Layer.ID := "process-types"; Layer.TarPath := "/tmp/process-types";
           Layer.Digest := "sha256:process-types" |}, None);
     SliceLayers := λ dir _,
       ([{| Layer.ID := "app"; Layer.TarPath := dir +:+ ".tar";
            Layer.Digest := "sha256:app" |}], None) |}.

(** A factory whose directory layers carry no digest. *)
Definition factory_blank : LayerFactory :=
  {| DirLayer := λ id dir,
       ({| Layer.ID := id; Layer.TarPath := dir; Layer.Digest := "" |}, None);
     LauncherLayer := LauncherLayer factory;
     ProcessTypesLayer := ProcessTypesLayer factory;
     SliceLayers := SliceLayers factory |}.

Definition image_ok : Image :=
  λ _ _, {| reply_err := None; reply_value := "/usr/bin";
            reply_report := ImageReport.zero |}.

Definition bp1 : GroupBuildpack.t :=
  {| GroupBuildpack.ID := "bp1"; GroupBuildpack.Version := "1";
     GroupBuildpack.API := "0.5"; GroupBuildpack.Homepage := "" |}.

Definition launch_md (cache : bool) : BuildpackLayerMetadata.t :=
  {| BuildpackLayerMetadata.SHA := ""; BuildpackLayerMetadata.Data := "";
     BuildpackLayerMetadata.Build := false; BuildpackLayerMetadata.Launch := true;
     BuildpackLayerMetadata.Cache := cache |}.

Definition l1 : bpLayer.t :=
  {| bpLayer.path := "/layers/bp1/l1"; bpLayer.name := "l1";
     bpLayer.Identifier := "bp1:l1"; bpLayer.read := inr (launch_md false);
     bpLayer.hasLocalContents := true |}.

Definition l2 : bpLayer.t :=
  {| bpLayer.path := "/layers/bp1/l2"; bpLayer.name := "l2";
     bpLayer.Identifier := "bp1:l2"; bpLayer.read := inr (launch_md false);
     bpLayer.hasLocalContents := false |}.

Definition l3 : bpLayer.t :=
  {| bpLayer.path := "/layers/bp1/l3"; bpLayer.name := "l3";
     bpLayer.Identifier := "bp1:l3"; bpLayer.read := inr (launch_md true);
     bpLayer.hasLocalContents := false |}.

Definition bpDir (layers : list bpLayer.t) : bpLayersDir.t :=
  {| bpLayersDir.store := ""; bpLayersDir.launchLayers := layers;
     bpLayersDir.malformedLayers := [] |}.

Definition web : Process.t :=
  {| Process.Type_ := "web"; Process.Command := "run"; Process.Args := [];
     Process.Direct := false |}.

Definition buildMD : BuildMetadata.t :=
  {| BuildMetadata.BOM := []; BuildMetadata.Labels := []; BuildMetadata.Launcher := "";
     BuildMetadata.Processes := [web]; BuildMetadata.Slices := [];
     BuildMetadata.BuildpackDefaultProcessType := "" |}.

(** The previous image knows [l2] of [bp1]. *)
Definition orig : LayersMetadata.t :=
  LayersMetadata.with_Buildpacks
    [{| BuildpackLayersMetadata.ID := "bp1"; BuildpackLayersMetadata.Version := "1";
        BuildpackLayersMetadata.Layers :=
          {[ "l2" := BuildpackLayerMetadata.with_SHA "sha256:old-l2" (launch_md false) ]};
        BuildpackLayersMetadata.Store := "" |}]
    LayersMetadata.zero.

Definition opts : ExportOptions :=
  {| LayersDir := "/layers"; AppDir := "/workspace"; WorkingImage := image_ok;
     RunImageRef := "run"; OrigMetadata := orig; AdditionalNames := [];
     Launcher := {| Path := "/tmp/launcher"; Metadata := "" |};
     Stack := ""; Project := ""; DefaultProcessType := "" |}.

Definition exporter : Exporter :=
  {| Buildpacks := [bp1]; Factory := factory; PlatformAPI := api.v0_5 |}.

Definition exporter_blank : Exporter :=
  {| Buildpacks := [bp1]; Factory := factory_blank; PlatformAPI := api.v0_5 |}.

Definition st0 : ExportState := {| calls := []; logs := [] |}.

(** The host and the files under the layers directory. *)
Definition Abs (p : string) : string * option error := (p, None).
Definition decode_buildMD (_ : string) : BuildMetadata.t * option error := (buildMD, None).
Definition decode_report (_ : string) : list string * option error :=
  ([], Some (SysErr ENOENT)).
Definition read_dir (layers : list bpLayer.t) (_ : string) (_ : GroupBuildpack.t)
    : error + bpLayersDir.t := inr (bpDir layers).
Definition marshal {A} (_ : A) : string * option error := ("{}", None).
Definition ProcessPath (t : string) : string := "/cnb/process/" +:+ t.
Definition EscapeID (id : string) : string := id.
Definition WithBuildpack (_ : GroupBuildpack.t) (bom : list string) : list string := bom.
Definition MustParse (_ : string) : api.Version := api.v0_5.

Definition Export_with (layers : list bpLayer.t) : E (error + ExportReport.t) :=
  Export Abs ":" decode_buildMD decode_report (read_dir layers) marshal marshal marshal
    "/cnb/lifecycle/launcher" "/cnb/process" "/cnb/lifecycle" ProcessPath EscapeID
    WithBuildpack MustParse exporter opts.

(** The launcher layer as the exporter hands it to [addOrReuseLayer], and
    as the factory makes it again. *)
Definition launcher_in : Layer.t :=
  {| Layer.ID := "launcher"; Layer.TarPath := "/tmp/launcher"; Layer.Digest := "" |}.

Definition launcher_rebuilt : Layer.t :=
  {| Layer.ID := "launcher"; Layer.TarPath := "/tmp/launcher.tar";
     Layer.Digest := "sha256:launcher" |}.

(** The metadata of [bp1] before its layers, and after [l1]. *)
Definition bpMD0 : BuildpackLayersMetadata.t :=
  {| BuildpackLayersMetadata.ID := "bp1"; BuildpackLayersMetadata.Version := "1";
     BuildpackLayersMetadata.Layers := ∅; BuildpackLayersMetadata.Store := "" |}.

Definition bpMD_l1 : BuildpackLayersMetadata.t :=
  BuildpackLayersMetadata.set_layer "l1"
    (BuildpackLayerMetadata.with_SHA "sha256:bp1:l1" (launch_md false)) bpMD0.

Definition after_l1 : ExportState :=
  (exportLaunchLayers exporter opts bp1 [l1] bpMD0 st0).2.

End ExportScenario.

(** ** Sessions without environmental failure *)

(** A world is calm when the oracle has nothing left to inject. *)
Definition calm (w : World) : Prop := oracle w = [].

(** The state between construction and commit: [staging/] and
    [committed/] exist and there is no backup. *)
Definition in_session (c : Cache.VolumeCache) (w : World) : Prop :=
  is_Some (dirs w !! Cache.stagingDir c) ∧
  is_Some (dirs w !! Cache.committedDir c) ∧
  dirs w !! Cache.backupDir c = None.

Module CrashScenario.
Import Cache Scenario.

(** A root left by a commit that stopped between its two renames: the
    old generation sits in the backup, a stale staging directory is
    there, and [committed/] is missing. *)
Definition world_crashed : World :=
  {| dirs := {[ "/cache" := ∅;
                "/cache/committed-backup" := {[ "sha256:A.tar" := 1 ]};
                "/cache/staging" := {[ "sha256:B.tar" := 2 ]} ]};
     inodes := {[ 1 := layerA; 2 := layerB ]}; oracle := [] |}.

(** No cache root at all. *)
Definition world_empty : World := {| dirs := ∅; inodes := ∅; oracle := [] |}.

(** A document that the codec takes there and back. *)
Definition doc : Doc := String.list_byte_of_string "{}".

End CrashScenario.

(** The same file system under another schedule of failures. *)
Definition set_oracle (o : list (option fault)) (w : World) : World :=
  {| dirs := dirs w; inodes := inodes w; oracle := o |}.

Module MoreScenario.
Import Cache Scenario.

(** An encoder that refuses every document. *)
Definition Marshal_refuses (m : Doc) : error + bytes :=
  inl (Foreign "json: unsupported value").

(** [committed/] was removed behind the cache's back. *)
Definition world_no_committed : World :=
  {| dirs := {[ "/cache" := ∅; "/cache/staging" := {[ "sha256:B.tar" := 2 ]} ]};
     inodes := {[ 2 := layerB ]}; oracle := [] |}.

End MoreScenario.

(** ** The calls of a run, by kind *)

Module Calls.
Import Lifecycle.

Definition is_label_call (c : ImageCall) : bool :=
  match c with SetLabel _ _ => true | _ => false end.

Definition is_env_call (c : ImageCall) : bool :=
  match c with SetEnv _ _ | Env _ => true | _ => false end.

Definition is_save_call (c : ImageCall) : bool :=
  match c with Save _ => true | _ => false end.

Definition not_save (c : ImageCall) : bool := negb (is_save_call c).

(** A computation that, from any state and whatever it returns, adds to
    the log of the image only calls of one kind. *)
Definition sends_only {A} (P : ImageCall → bool) (c : E A) : Prop :=
  ∀ st, ∃ cs, calls (c st).2 = calls st ++ cs ∧ Forall (λ x, P x = true) cs.

(** A computation that saves last: whatever it does, it calls [Save] at
    most once, as its last call to the image, and when it does its outcome
    is the outcome of that call; when it does not, it has failed. *)
Definition saves_last {B} (image : Image) (names : list string) (c : E (error + B))
    : Prop :=
  ∀ st, ∃ pre,
    Forall (λ x, not_save x = true) pre ∧
    ((calls (c st).2 = calls st ++ pre ∧ ∃ err, (c st).1 = inl err) ∨
     (calls (c st).2 = calls st ++ pre ++ [Save names] ∧
      match reply_err (image (calls st ++ pre) (Save names)) with
      | Some err => (c st).1 = inl err
      | None => ∃ report, (c st).1 = inr report
      end)).

End Calls.

(** ** The Dockerfiles of an extension

    The second file of the source belongs to package [buildpack]:
    [processDockerfiles] lists the Dockerfiles that an extension wrote to
    its output directory. *)

Module buildpack.

Record DockerfileArg := { Key : string; Value : string }.

Record Dockerfile := {
  ExtensionID : string;
  Path : string;
  Type_ : string;
  Args : list DockerfileArg
}.

Section WithHost.

(** [filepath.Glob] and [filepath.Split] of the host. *)
Variable filepath_Glob : string → error + list string.
Variable filepath_Split : string → string * string.

(** The loop over the matches, with the slice it appends to. *)
Fixpoint processMatches (extID : string) (buildArgs runArgs : list DockerfileArg)
    (matches : list string) (dockerfiles : list Dockerfile) : list Dockerfile :=
  match matches with
  | [] => dockerfiles
  | m :: rest =>
      let filename := (filepath_Split m).2 in
      if String.eqb filename "run.Dockerfile" then
        processMatches extID buildArgs runArgs rest
          (dockerfiles ++ [{| ExtensionID := extID; Path := m; Type_ := "run";
                              Args := runArgs |}])
      else if String.eqb filename "build.Dockerfile" then
        processMatches extID buildArgs runArgs rest
          (dockerfiles ++ [{| ExtensionID := extID; Path := m; Type_ := "build";
                              Args := buildArgs |}])
      else if String.eqb filename "Dockerfile" then
        processMatches extID buildArgs runArgs rest
          (dockerfiles ++ [{| ExtensionID := extID; Path := m; Type_ := "run";
                              Args := runArgs |};
                           {| ExtensionID := extID; Path := m; Type_ := "build";
                              Args := buildArgs |}])
      else
        (* ignore other glob matches e.g., some-random.Dockerfile *)
        processMatches extID buildArgs runArgs rest dockerfiles
  end.

Definition processDockerfiles (bpOutputDir extID : string)
    (buildArgs runArgs : list DockerfileArg) : error + list Dockerfile :=
  let dockerfileGlob := filepath_Join bpOutputDir "*Dockerfile" in
  match filepath_Glob dockerfileGlob with
  | inl err => inl err
  | inr matches => inr (processMatches extID buildArgs runArgs matches [])
  end.

End WithHost.

End buildpack.

Module DockerfileScenario.
Import buildpack.

(** The output directory of an extension with the three recognised files
    and one that is not. *)
Definition Glob (pattern : string) : error + list string :=
  if String.eqb pattern "/out/*Dockerfile"
  then inr ["/out/Dockerfile"; "/out/build.Dockerfile"; "/out/other.Dockerfile";
            "/out/run.Dockerfile"]
  else inr [].

Definition slash : Ascii.ascii := Ascii.ascii_of_nat 47.

Fixpoint has_slash (s : string) : bool :=
  match s with
  | EmptyString => false
  | String c rest => Ascii.eqb c slash || has_slash rest
  end.

(** The part after the last slash. *)
Fixpoint file_part (s : string) : string :=
  match s with
  | EmptyString => EmptyString
  | String c rest =>
      if has_slash rest then file_part rest
      else if Ascii.eqb c slash then rest
      else String c rest
  end.

Definition Split (p : string) : string * string := ("", file_part p).

Definition build_args : list DockerfileArg := [{| Key := "base"; Value := "build" |}].
Definition run_args : list DockerfileArg := [{| Key := "base"; Value := "run" |}].

End DockerfileScenario.

Module MoreExportScenario.
Import Lifecycle ExportScenario.

(** An image that is read-only for [CNB_PLATFORM_API]. *)
Definition image_refuses_platform_api : Image :=
  λ _ c,
    match c with
    | SetEnv key _ =>
        if String.eqb key EnvPlatformAPI
        then {| reply_err := Some (Foreign "read-only"); reply_value := "";
                reply_report := ImageReport.zero |}
        else image_ok [] c
    | _ => image_ok [] c
    end.

Definition opts_refused : ExportOptions :=
  {| LayersDir := "/layers"; AppDir := "/workspace";
     WorkingImage := image_refuses_platform_api;
     RunImageRef := "run"; OrigMetadata := orig; AdditionalNames := [];
     Launcher := {| Path := "/tmp/launcher"; Metadata := "" |};
     Stack := ""; Project := ""; DefaultProcessType := "" |}.

(** Build metadata with a label from a buildpack. *)
Definition buildMD_labelled : BuildMetadata.t :=
  {| BuildMetadata.BOM := [];
     BuildMetadata.Labels := [{| Label.Key := "maintainer"; Label.Value := "me" |}];
     BuildMetadata.Launcher := ""; BuildMetadata.Processes := [web];
     BuildMetadata.Slices := []; BuildMetadata.BuildpackDefaultProcessType := "" |}.

(** A layers directory with one launch layer and one malformed layer. *)
Definition bpDir_malformed : bpLayersDir.t :=
  {| bpLayersDir.store := ""; bpLayersDir.launchLayers := [l1];
     bpLayersDir.malformedLayers := [l3] |}.

Definition read_dir_malformed (_ : string) (_ : GroupBuildpack.t)
    : error + bpLayersDir.t := inr bpDir_malformed.

(** The previous image had the app layer. *)
Definition opts_app_known : ExportOptions :=
  {| LayersDir := "/layers"; AppDir := "/workspace"; WorkingImage := image_ok;
     RunImageRef := "run";
     OrigMetadata :=
       LayersMetadata.with_App [{| LayerMetadata.SHA := "sha256:app" |}] orig;
     AdditionalNames := [];
     Launcher := {| Path := "/tmp/launcher"; Metadata := "" |};
     Stack := ""; Project := ""; DefaultProcessType := "" |}.

(** An image whose save reports a manifest of 527 bytes. *)
Definition image_sized : Image :=
  λ _ _, {| reply_err := None; reply_value := "/usr/bin";
            reply_report := ImageReport.with_ManifestSize 527 ImageReport.zero |}.

Definition opts_sized : ExportOptions :=
  {| LayersDir := "/layers"; AppDir := "/workspace"; WorkingImage := image_sized;
     RunImageRef := "run"; OrigMetadata := orig; AdditionalNames := ["registry/app"];
     Launcher := {| Path := "/tmp/launcher"; Metadata := "" |};
     Stack := ""; Project := ""; DefaultProcessType := "" |}.

Definition Export_sized : E (error + ExportReport.t) :=
  Export Abs ":" decode_buildMD decode_report (read_dir [l1; l2]) marshal marshal marshal
    "/cnb/lifecycle/launcher" "/cnb/process" "/cnb/lifecycle" ProcessPath EscapeID
    WithBuildpack MustParse exporter opts_sized.

End MoreExportScenario.
(** * Properties *)

(** An equation between closed terms, checked by evaluation: the proof
    is [eq_refl] under a cast, so it does not carry the normal forms. *)
Ltac vm_refl :=
  lazymatch goal with
  | |- ?x = ?y => exact (@eq_refl _ x <: x = y)
  | |- _ => vm_compute; reflexivity
  end.

(** ** Path names *)


Lemma app_string_nil (b : string) : "" +:+ b = b.
Proof. done. Qed.

Lemma app_string_cons ch (a b : string) : String ch a +:+ b = String ch (a +:+ b).
Proof. done. Qed.

Lemma app_string_assoc (a b c : string) : (a +:+ b) +:+ c = a +:+ b +:+ c.
Proof.
  induction a as [|ch a IH]; [done|].
  rewrite !app_string_cons. by rewrite IH.
Qed.

Lemma app_string_inv_l (a b c : string) : a +:+ b = a +:+ c → b = c.
Proof.
  induction a as [|ch a IH]; [done|].
  rewrite !app_string_cons. intros [= H]. by apply IH.
Qed.

Lemma app_string_empty (a b : string) : a +:+ b = "" → a = "" ∧ b = "".
Proof. destruct a; [done|]. by rewrite app_string_cons. Qed.

Lemma has_char_app ch (a b : string) :
  has_char ch (a +:+ b) = has_char ch a || has_char ch b.
Proof.
  induction a as [|c a IH]; [done|].
  rewrite app_string_cons. simpl. rewrite IH. by rewrite orb_assoc.
Qed.

Lemma split_path_slash rest : split_path (String slash rest) = "" :: split_path rest.
Proof. done. Qed.

Lemma split_path_ne p : split_path p ≠ [].
Proof.
  destruct p as [|ch p]; simpl; [done|].
  destruct (Ascii.eqb ch slash); [done|]. by destruct (split_path p).
Qed.

Lemma split_path_app (a b : string) :
  split_path (a +:+ String slash b) = split_path a ++ split_path b.
Proof.
  induction a as [|ch a IH]; [done|].
  rewrite app_string_cons. simpl. rewrite IH.
  destruct (Ascii.eqb ch slash); [done|].
  pose proof (split_path_ne a). by destruct (split_path a).
Qed.

Lemma split_path_plain n : has_char slash n = false → split_path n = [n].
Proof.
  induction n as [|ch n IH]; [done|]. simpl.
  intros [H1 H2]%orb_false_iff. rewrite H1, (IH H2). done.
Qed.

Lemma split_path_slash_free p : Forall (λ e, has_char slash e = false) (split_path p).
Proof.
  induction p as [|ch p IH]; simpl; [by repeat constructor|].
  destruct (Ascii.eqb ch slash) eqn:E; [by constructor|].
  destruct (split_path p) as [|e es]; [by repeat constructor; simpl; rewrite E|].
  apply Forall_cons in IH as [He Hes]. constructor; [|done]. simpl. by rewrite E.
Qed.

Lemma concat_cons2 (e e' : string) l :
  String.concat "/" (e :: e' :: l) = e +:+ String slash (String.concat "/" (e' :: l)).
Proof. done. Qed.

Lemma split_path_concat l :
  l ≠ [] → Forall (λ e, has_char slash e = false) l →
  split_path (String.concat "/" l) = l.
Proof.
  induction l as [|e l IH]; [done|]. intros _ [He Hl]%Forall_cons.
  destruct l as [|e' l]; [by apply split_path_plain|].
  rewrite concat_cons2, split_path_app, split_path_plain by done.
  by rewrite IH.
Qed.

Lemma plain_name_slash_free n : plain_name n = true → has_char slash n = false.
Proof. unfold plain_name. intros [H _]%andb_true_iff. by apply negb_true_iff. Qed.

Lemma clean_step_plain r out n : plain_name n = true → clean_step r out n = n :: out.
Proof.
  unfold plain_name, clean_step. intros [_ H]%andb_true_iff.
  apply negb_true_iff in H. apply orb_false_iff in H as [H H3].
  rewrite H, H3. done.
Qed.

Lemma clean_step_kept r out e :
  has_char slash e = false → kept r out → kept r (clean_step r out e).
Proof.
  intros He (names & k & -> & Hn & Hk). unfold clean_step.
  destruct (String.eqb e "" || String.eqb e ".") eqn:E1; [by exists names, k|].
  destruct (String.eqb e "..") eqn:E2.
  - apply String.eqb_eq in E2 as ->.
    destruct names as [|n names]; simpl.
    + destruct k as [|k]; simpl.
      * destruct r; [by exists [], 0|]. exists [], 1. by split_and!.
      * exists [], (S (S k)). split_and!; [done|done|]. intros ->. by specialize (Hk eq_refl).
    + apply Forall_cons in Hn as [Hn Hns].
      assert (String.eqb n ".." = false) as ->.
      { unfold plain_name in Hn. apply andb_true_iff in Hn as [_ Hn].
        apply negb_true_iff, orb_false_iff in Hn as [_ Hn]. done. }
      by exists names, k.
  - exists (e :: names), k. split_and!; [done| |done]. constructor; [|done].
    unfold plain_name. rewrite He. apply orb_false_iff in E1 as [-> ->]. by rewrite E2.
Qed.

Lemma fold_clean_kept r elems out :
  Forall (λ e, has_char slash e = false) elems → kept r out →
  kept r (fold_left (clean_step r) elems out).
Proof.
  revert out. induction elems as [|e elems IH]; intros out; simpl; [done|].
  intros [He Hes]%Forall_cons Hk. apply IH; [done|]. by apply clean_step_kept.
Qed.

Lemma kept_nil r : kept r [].
Proof. by exists [], 0. Qed.

Lemma fold_clean_stable r out :
  kept r out → fold_left (clean_step r) (rev out) [] = out.
Proof.
  intros (names & k & -> & Hn & Hk). rewrite rev_app_distr, fold_left_app.
  assert (fold_left (clean_step r) (rev (replicate k "..")) [] = replicate k "..") as ->.
  { destruct r; [by rewrite (Hk eq_refl)|]. clear Hk.
    assert (rev (replicate k "..") = replicate k "..") as ->.
    { induction k as [|k IH]; [done|]. simpl. rewrite IH.
      clear IH. induction k as [|k IH]; [done|]. simpl. by rewrite IH. }
    assert (∀ j, fold_left (clean_step false) (replicate k "..") (replicate j "..")
                 = replicate (k + j) "..") as H.
    { induction k as [|k IH]; intros j; [done|]. simpl.
      replace (clean_step false (replicate j "..") "..") with (replicate (S j) "..")
        by (by destruct j).
      rewrite IH. by rewrite Nat.add_succ_r. }
    specialize (H 0). simpl in H. by rewrite H, Nat.add_0_r. }
  induction Hn as [|n names Hn Hns IH]; [done|].
  simpl. rewrite fold_left_app, IH. simpl. by apply clean_step_plain.
Qed.

Lemma kept_slash_free r out : kept r out → Forall (λ e, has_char slash e = false) out.
Proof.
  intros (names & k & -> & Hn & _). apply Forall_app. split.
  - eapply Forall_impl; [done|]. apply plain_name_slash_free.
  - by apply Forall_replicate.
Qed.

Lemma kept_nonempty r out : kept r out → Forall (λ e, e ≠ "") out.
Proof.
  intros (names & k & -> & Hn & _). apply Forall_app. split.
  - eapply Forall_impl; [done|]. intros n Hp ->. done.
  - by apply Forall_replicate.
Qed.

Lemma is_rooted_render r elems :
  Forall (λ e, has_char slash e = false) elems → Forall (λ e, e ≠ "") elems →
  is_rooted (render_path r elems) = r.
Proof.
  intros Hs Hn. unfold render_path. destruct r; [done|].
  destruct elems as [|e elems]; [done|].
  apply Forall_cons in Hs as [Hs _]. apply Forall_cons in Hn as [Hn _].
  assert (is_rooted e = false) as He.
  { destruct e as [|ch e]; [done|]. simpl in *. by apply orb_false_iff in Hs as [-> _]. }
  destruct elems as [|e' elems]; [done|].
  rewrite concat_cons2. destruct e; [done|]. done.
Qed.

Lemma split_path_render r elems :
  Forall (λ e, has_char slash e = false) elems →
  split_path (render_path r elems)
  = if r then "" :: (match elems with [] => [""] | _ => elems end)
    else match elems with [] => ["."] | _ => elems end.
Proof.
  intros Hs. unfold render_path. destruct r.
  - change ("/" +:+ ?x) with (String slash x). rewrite split_path_slash.
    destruct elems; [done|]. by rewrite split_path_concat.
  - destruct elems; [done|]. by rewrite split_path_concat.
Qed.

(** [filepath.Clean] is idempotent. *)
Lemma filepath_Clean_idem p : filepath_Clean (filepath_Clean p) = filepath_Clean p.
Proof.
  unfold filepath_Clean at 2 3. unfold clean_elems.
  set (r := is_rooted p).
  assert (kept r (fold_left (clean_step r) (split_path p) [])) as Hk.
  { apply fold_clean_kept; [apply split_path_slash_free|apply kept_nil]. }
  set (out := fold_left (clean_step r) (split_path p) []) in *.
  assert (Forall (λ e, has_char slash e = false) (rev out)) as Hs.
  { apply Forall_rev. by eapply kept_slash_free. }
  assert (Forall (λ e, e ≠ "") (rev out)) as Hn.
  { apply Forall_rev. by eapply kept_nonempty. }
  unfold filepath_Clean. rewrite is_rooted_render by done.
  f_equal. unfold clean_elems. rewrite split_path_render by done. f_equal.
  pose proof (fold_clean_stable r out Hk) as Hst.
  pose proof (rev_involutive out) as Hrev. clearbody out.
  destruct r; destruct (rev out) as [|e es]; simpl in *; by subst.
Qed.

Lemma file_path_render r elems n :
  Forall (λ e, has_char slash e = false) elems → Forall (λ e, e ≠ "") elems →
  plain_name n = true →
  file_path (render_path r (elems ++ [n])) = FilePath (render_path r elems) n.
Proof.
  intros Hs Hne Hn. pose proof (plain_name_slash_free n Hn) as Hsn.
  assert (Forall (λ e, has_char slash e = false) (elems ++ [n])) as Hs'.
  { apply Forall_app. split; [done|by constructor]. }
  assert (Forall (λ e, e ≠ "") (elems ++ [n])) as Hne'.
  { apply Forall_app. split; [done|]. constructor; [|done]. by intros ->. }
  unfold file_path. rewrite is_rooted_render, split_path_render by done.
  assert (∀ l : list string, match l ++ [n] with [] => l | _ => l ++ [n] end = l ++ [n]) as E
    by (by intros []).
  destruct r.
  - destruct (elems ++ [n]) as [|x l] eqn:El; [by destruct elems|]. rewrite <- El.
    change ("" :: elems ++ [n]) with (("" :: elems) ++ [n]).
    rewrite removelast_last, last_snoc. simpl.
    destruct elems as [|e elems]; [done|].
    rewrite app_string_nil.
    change ("/" +:+ ?x) with (String slash x). done.
  - destruct (elems ++ [n]) as [|x l] eqn:El; [by destruct elems|]. rewrite <- El.
    rewrite removelast_last, last_snoc. simpl.
    destruct elems as [|e elems]; [done|]. unfold render_path.
    apply Forall_cons in Hne as [He _].
    assert (String.concat "/" (e :: elems) ≠ "") as Hc.
    { destruct elems; [done|]. rewrite concat_cons2. by destruct e. }
    apply String.eqb_neq in Hc. by rewrite Hc.
Qed.

Lemma is_rooted_app a b : a ≠ "" → is_rooted (a +:+ b) = is_rooted a.
Proof. by destruct a. Qed.

Lemma clean_elems_snoc r elems n :
  plain_name n = true → clean_elems r (elems ++ [n]) = clean_elems r elems ++ [n].
Proof.
  intros Hn. unfold clean_elems. rewrite fold_left_app. simpl.
  by rewrite clean_step_plain.
Qed.

Lemma clean_elems_ok r p :
  Forall (λ e, has_char slash e = false) (clean_elems r (split_path p)) ∧
  Forall (λ e, e ≠ "") (clean_elems r (split_path p)).
Proof.
  assert (kept r (fold_left (clean_step r) (split_path p) [])) as Hk.
  { apply fold_clean_kept; [apply split_path_slash_free|apply kept_nil]. }
  unfold clean_elems. split; apply Forall_rev.
  - by eapply kept_slash_free.
  - by eapply kept_nonempty.
Qed.

(** Joining a plain name to a directory gives the entry of that name in
    the cleaned directory. *)
Lemma file_path_Join base n :
  plain_name n = true →
  file_path (filepath_Join base n) = FilePath (filepath_Clean base) n.
Proof.
  intros Hn. pose proof (plain_name_slash_free n Hn) as Hsn.
  unfold filepath_Join.
  destruct (String.eqb base "") eqn:Eb.
  - apply String.eqb_eq in Eb as ->.
    assert (String.eqb n "" = false) as ->.
    { unfold plain_name in Hn. apply andb_true_iff in Hn as [_ Hn].
      apply negb_true_iff in Hn. by apply orb_false_iff in Hn as [[? _]%orb_false_iff _]. }
    unfold filepath_Clean.
    assert (is_rooted n = false) as ->.
    { destruct n as [|ch n]; [done|]. simpl in *. by apply orb_false_iff in Hsn as [-> _]. }
    rewrite split_path_plain by done.
    change [n] with ([] ++ [n]). rewrite clean_elems_snoc by done.
    by rewrite file_path_render.
  - apply String.eqb_neq in Eb. unfold filepath_Clean.
    rewrite is_rooted_app by done.
    change ("/" +:+ n) with (String slash n).
    rewrite split_path_app, (split_path_plain n), clean_elems_snoc by done.
    destruct (clean_elems_ok (is_rooted base) base).
    by rewrite file_path_render.
Qed.

Lemma file_path_Join_cleaned base n :
  cleaned base → plain_name n = true →
  file_path (filepath_Join base n) = FilePath base n.
Proof. intros Hc Hn. rewrite file_path_Join by done. by rewrite Hc. Qed.

Lemma filepath_Join_cleaned base n : n ≠ "" → cleaned (filepath_Join base n).
Proof.
  intros Hn. unfold cleaned, filepath_Join.
  apply String.eqb_neq in Hn. rewrite Hn.
  destruct (String.eqb base ""); apply filepath_Clean_idem.
Qed.

Lemma filepath_Join_inj base a b :
  plain_name a = true → plain_name b = true →
  filepath_Join base a = filepath_Join base b → a = b.
Proof.
  intros Ha Hb H%(f_equal file_path). rewrite !file_path_Join in H by done.
  by injection H.
Qed.

Lemma length_append (a b : string) :
  String.length (a +:+ b) = String.length a + String.length b.
Proof.
  induction a as [|ch a IH]; [done|].
  rewrite app_string_cons. simpl. by rewrite IH.
Qed.

Lemma plain_diffID_tar d : plain_diffID d = true → plain_name (d +:+ ".tar") = true.
Proof.
  unfold plain_diffID, plain_name. intros [H _]%andb_true_iff.
  apply negb_true_iff in H. rewrite has_char_app, H. simpl.
  assert (∀ x, String.length x < 4 → String.eqb (d +:+ ".tar") x = false) as Hx.
  { intros x Hlen. apply String.eqb_neq. intros E%(f_equal String.length).
    rewrite length_append in E. simpl in E. lia. }
  rewrite !Hx; simpl; [done|lia..].
Qed.

(** ** System calls *)

Lemma lookup_ino_tick p w : lookup_ino p (tick w) = lookup_ino p w.
Proof. by destruct p. Qed.

Lemma path_exists_tick p w : path_exists p (tick w) = path_exists p w.
Proof. by destruct p. Qed.

Ltac run_syscall w :=
  unfold os_Stat, os_MkdirAll, os_RemoveAll, os_Rename, os_Link, os_Create, os_Open,
    file_ReadAll, syscall, bind, next_fault, ret;
  destruct (pending w) eqn:?; simpl;
  rewrite ?path_exists_tick, ?lookup_ino_tick.

Lemma os_Rename_inv old new w e w1 :
  os_Rename old new w = (e, w1) →
  inodes w1 = inodes w ∧
  ((is_Some e ∧ dirs w1 = dirs w) ∨
   (e = None ∧ ∃ entries, dirs w !! old = Some entries ∧
      ((old = new ∧ dirs w1 = dirs w) ∨
       (old ≠ new ∧ (dirs w !! new = None ∨ dirs w !! new = Some ∅) ∧
        dirs w1 = <[new := entries]> (delete old (dirs w)))))).
Proof.
  run_syscall w; intros H;
    repeat (case_match; simplify_eq/=); simplify_eq/=; eauto 10.
Qed.

Lemma os_RemoveAll_inv d w e w1 :
  os_RemoveAll d w = (e, w1) →
  inodes w1 = inodes w ∧
  ((is_Some e ∧ dirs w1 = dirs w) ∨ (e = None ∧ dirs w1 = delete d (dirs w))).
Proof.
  run_syscall w; intros H; simplify_eq/=; eauto.
Qed.

Lemma os_MkdirAll_inv d w e w1 :
  os_MkdirAll d w = (e, w1) →
  inodes w1 = inodes w ∧
  ((is_Some e ∧ dirs w1 = dirs w) ∨
   (e = None ∧ ((is_Some (dirs w !! d) ∧ dirs w1 = dirs w) ∨
                (dirs w !! d = None ∧ dirs w1 = <[d := ∅]> (dirs w))))).
Proof.
  run_syscall w; intros H;
    repeat (case_match; simplify_eq/=); simplify_eq/=; eauto 10.
Qed.

Lemma os_Stat_inv p w e w1 :
  os_Stat p w = (e, w1) →
  w1 = tick w ∧
  (e = None → path_exists p w = true) ∧
  (pending w = None → path_exists p w = true → e = None).
Proof.
  run_syscall w; intros H;
    repeat (case_match; simplify_eq/=); simplify_eq/=; eauto;
    split_and!; intros; simplify_eq; try done; try congruence.
Qed.

Lemma os_Open_inv p w r w1 :
  os_Open p w = (r, w1) →
  w1 = tick w ∧
  match r with
  | inl err => err = ENOENT → path_exists p w = false
  | inr (RegularFile i) => lookup_ino p w = Some i
  | inr (Directory d) => p = DirPath d ∧ is_Some (dirs w !! d)
  end.
Proof.
  unfold os_Open, syscall, bind, next_fault, ret.
  destruct (pending w) eqn:Hp; simpl; [by intros [= <- <-]|].
  destruct p as [d|d name].
  - change (dirs (tick w)) with (dirs w).
    destruct (dirs w !! d) as [entries|] eqn:Hd; intros [= <- <-]; (split; [done|]).
    + rewrite Hd. eauto.
    + intros _. simpl. rewrite Hd. by apply bool_decide_eq_false_2, is_Some_None.
  - rewrite lookup_ino_tick.
    destruct (lookup_ino (FilePath d name) w) as [i|] eqn:Hl;
      intros [= <- <-]; (split; [done|]); [done|].
    intros _. unfold path_exists. rewrite Hl.
    by apply bool_decide_eq_false_2, is_Some_None.
Qed.

Lemma os_Stat_exists d name w :
  pending w = None → is_Some (lookup_ino (FilePath d name) w) →
  os_Stat (FilePath d name) w = (None, tick w).
Proof.
  intros Hp Hl. unfold os_Stat, syscall, bind, next_fault, ret. rewrite Hp.
  rewrite path_exists_tick. unfold path_exists. by rewrite bool_decide_true.
Qed.

Lemma os_Open_absent d name w :
  pending w = None → lookup_ino (FilePath d name) w = None →
  os_Open (FilePath d name) w = (inl ENOENT, tick w).
Proof.
  intros Hp Hl. unfold os_Open, syscall, bind, next_fault, ret. rewrite Hp.
  simpl. change (dirs (tick w)) with (dirs w). simpl in Hl. by rewrite Hl.
Qed.

Lemma os_Create_inv p w r w1 :
  os_Create p w = (r, w1) →
  match r with
  | inl _ => dirs w1 = dirs w ∧ inodes w1 = inodes w
  | inr fh =>
      ∃ d name entries,
        p = FilePath d name ∧ dirs w !! d = Some entries ∧
        dirs w1 = <[d := <[name := fh]> entries]> (dirs w) ∧
        inodes w1 = <[fh := []]> (inodes w) ∧
        (entries !! name = Some fh ∨
         (entries !! name = None ∧ fh = fresh (dom (inodes w))))
  end.
Proof.
  run_syscall w; intros H;
    repeat (case_match; simplify_eq/=); simplify_eq/=; eauto.
  - exists d, name, g. split_and!; eauto.
    by rewrite (insert_id g), insert_id.
  - exists d, name, g. split_and!; eauto.
Qed.

Lemma os_Link_inv old new w e w1 :
  os_Link old new w = (e, w1) →
  inodes w1 = inodes w ∧
  match e with
  | Some err =>
      dirs w1 = dirs w ∧ err ≠ ENOTEMPTY ∧
      (err = EEXIST →
       is_Some (lookup_ino old w) ∧
       ∀ d name, new = FilePath d name → is_Some (lookup_ino new w))
  | None =>
      ∃ i d name entries,
        lookup_ino old w = Some i ∧ new = FilePath d name ∧
        dirs w !! d = Some entries ∧ entries !! name = None ∧
        dirs w1 = <[d := <[name := i]> entries]> (dirs w)
  end.
Proof.
  run_syscall w; intros H;
    repeat (case_match; simplify_eq/=); simplify_eq/=; eauto 10.
  all: split_and!; try done; intros; simplify_eq/=; eauto.
Qed.

Lemma file_Write_inv fh data w e w1 :
  file_Write fh data w = (e, w1) →
  dirs w1 = dirs w ∧
  ∃ n, inodes w1 = <[fh := default [] (inodes w !! fh) ++ take n data]> (inodes w) ∧
       (e = None → take n data = data).
Proof.
  unfold file_Write, bind, next_fault. destruct (pending w) as [flt|]; simpl;
    intros H; simplify_eq/=; (split; [done|]).
  - by exists (f_done flt).
  - exists (length data). by rewrite firstn_all.
Qed.

Lemma io_Copy_frame dst src w e w1 :
  io_Copy dst src w = (e, w1) →
  dirs w1 = dirs w ∧ ∀ i, i ≠ dst → inodes w1 !! i = inodes w !! i.
Proof.
  destruct src as [data|[i|d]]; simpl.
  1,2: intros (Hd & n & Hi & _)%file_Write_inv; split; [done|];
       intros j Hne; by rewrite Hi, lookup_insert_ne.
  unfold bind, next_fault, ret. by destruct (pending w); intros [= <- <-].
Qed.

Lemma io_Copy_ok dst src w w1 :
  io_Copy dst src w = (None, w1) →
  dirs w1 = dirs w ∧
  inodes w1 = <[dst := default [] (inodes w !! dst) ++ reader_bytes src w]> (inodes w).
Proof.
  destruct src as [data|[i|d]]; simpl.
  1,2: intros (Hd & n & Hi & Hn)%file_Write_inv; split; [done|];
       by rewrite Hi, (Hn eq_refl).
  unfold bind, next_fault, ret. by destruct (pending w).
Qed.


(** ** Volume cache *)

Module CacheProofs.
Import Cache.

Lemma constructed_distinct c :
  constructed c →
  stagingDir c ≠ committedDir c ∧ backupDir c ≠ committedDir c ∧
  backupDir c ≠ stagingDir c.
Proof.
  intros (-> & -> & ->).
  repeat split; intros H%filepath_Join_inj; done.
Qed.

Lemma constructed_cleaned c :
  constructed c →
  cleaned (stagingDir c) ∧ cleaned (committedDir c) ∧ cleaned (backupDir c).
Proof. intros (-> & -> & ->). repeat split; by apply filepath_Join_cleaned. Qed.

Lemma metadata_path_Join c :
  constructed c →
  file_path (filepath_Join (stagingDir c) MetadataLabel)
  = FilePath (stagingDir c) MetadataLabel ∧
  file_path (filepath_Join (committedDir c) MetadataLabel)
  = FilePath (committedDir c) MetadataLabel.
Proof.
  intros (Hs & Hc & _)%constructed_cleaned.
  split; by apply file_path_Join_cleaned.
Qed.

Lemma Commit_ok_inv c w c' w' :
  constructed c →
  Commit c w = (None, c', w') →
  dirs w' !! stagingDir c = None ∧
  is_Some (dirs w !! stagingDir c) ∧
  dirs w' !! committedDir c = dirs w !! stagingDir c ∧
  (∀ name, file_content (FilePath (committedDir c) name) w'
           = file_content (FilePath (stagingDir c) name) w) ∧
  ∀ w2, Commit c' w2 = (Some errCacheCommitted, c', w2).
Proof.
  intros Hc HC. destruct (constructed_distinct c Hc) as (Hsc & Hbc & Hbs).
  unfold Commit in HC. destruct (committed c) eqn:Hcm; [discriminate|].
  unfold bind in HC; simpl in HC.
  destruct (os_Rename (committedDir c) (backupDir c) w) as [e0 w0] eqn:H0.
  destruct e0 as [err|]; [discriminate|].
  destruct (os_Rename (stagingDir c) (committedDir c) w0) as [e1 w1] eqn:H1.
  destruct e1 as [err1|].
  { destruct (os_Rename (backupDir c) (committedDir c) w1) as [[?|] wr];
      unfold ret in HC; simpl in HC;
      destruct (os_RemoveAll (backupDir c) wr); discriminate. }
  unfold ret in HC; simpl in HC.
  destruct (os_RemoveAll (backupDir c) w1) as [e2 w2] eqn:H2. simplify_eq.
  apply os_Rename_inv in H0 as (Hi0 & [[[] _]|(_ & d0 & Hd0 & Hmv0)]); [done|].
  apply os_Rename_inv in H1 as (Hi1 & [[[] _]|(_ & d1 & Hd1 & Hmv1)]); [done|].
  apply os_RemoveAll_inv in H2 as (Hi2 & Hrm).
  destruct Hmv0 as [[? _]|(_ & _ & Hw0)]; [congruence|].
  destruct Hmv1 as [[? _]|(_ & _ & Hw1)]; [congruence|].
  assert (Hst : dirs w !! stagingDir c = Some d1).
  { rewrite Hw0 in Hd1. by rewrite lookup_insert_ne, lookup_delete_ne in Hd1. }
  assert (Hfin : dirs w' !! stagingDir c = None ∧
                 dirs w' !! committedDir c = Some d1).
  { destruct Hrm as [[_ ->]|[_ ->]]; rewrite Hw1.
    - by rewrite lookup_insert_ne, lookup_delete_eq, lookup_insert_eq.
    - rewrite !lookup_delete_ne by done.
      by rewrite lookup_insert_ne, lookup_delete_eq, lookup_insert_eq. }
  destruct Hfin as [Hf1 Hf2]. split_and!; eauto.
  - by rewrite Hf2.
  - intros name. unfold file_content, lookup_ino. rewrite Hf2, Hst. simpl.
    by rewrite Hi2, Hi1, Hi0.
Qed.

(** C2, as the code has it: when the rename of [staging/] fails, the
    rename of the backup back to [committed/] is attempted.  If it
    succeeds the error is the one of the staging rename and [committed/]
    and [staging/] are as they were; if it fails the error is the one of
    the rollback, [committed/] is absent, and the deferred removal of the
    backup still runs: the backup survives only when that removal fails. *)
Theorem Commit_staging_rename_failure c w w0 err1 w1 e2 w2 :
  constructed c →
  committed c = false →
  os_Rename (committedDir c) (backupDir c) w = (None, w0) →
  os_Rename (stagingDir c) (committedDir c) w0 = (Some err1, w1) →
  os_Rename (backupDir c) (committedDir c) w1 = (e2, w2) →
  ∃ e3 w',
    os_RemoveAll (backupDir c) w2 = (e3, w') ∧
    match e2 with
    | None =>
        Commit c w = (Some (Wrap "committing cache" (SysErr err1)), mark_committed c, w') ∧
        dirs w' !! committedDir c = dirs w !! committedDir c ∧
        dirs w' !! stagingDir c = dirs w !! stagingDir c ∧
        dirs w' !! backupDir c = None
    | Some err2 =>
        Commit c w = (Some (Wrap "rolling back cache" (SysErr err2)), mark_committed c, w') ∧
        dirs w' !! committedDir c = None ∧
        dirs w' !! backupDir c =
          match e3 with None => None | Some _ => dirs w !! committedDir c end
    end.
Proof.
  intros Hc Hcm H0 H1 H2. destruct (constructed_distinct c Hc) as (Hsc & Hbc & Hbs).
  destruct (os_RemoveAll (backupDir c) w2) as [e3 w'] eqn:H3.
  exists e3, w'. split; [done|].
  assert (HC : Commit c w =
    (Some (match e2 with
           | None => Wrap "committing cache" (SysErr err1)
           | Some err2 => Wrap "rolling back cache" (SysErr err2)
           end), mark_committed c, w')).
  { unfold Commit. rewrite Hcm. unfold bind; simpl. rewrite H0, H1, H2.
    destruct e2; unfold ret; simpl; by rewrite H3. }
  apply os_Rename_inv in H0 as (Hi0 & [[[] _]|(_ & d0 & Hd0 & Hmv0)]); [done|].
  destruct Hmv0 as [[? _]|(_ & Hb0 & Hw0)]; [congruence|].
  apply os_Rename_inv in H1 as (Hi1 & [[_ Hw1]|[? _]]); [|done].
  apply os_Rename_inv in H2 as (Hi2 & Hmv2).
  apply os_RemoveAll_inv in H3 as (Hi3 & Hrm).
  destruct e2 as [err2|].
  - destruct Hmv2 as [[_ Hw2]|[? _]]; [|done]. split; [done|].
    assert (dirs w2 = <[backupDir c:=d0]> (delete (committedDir c) (dirs w)))
      as Hw2' by congruence.
    destruct Hrm as [[[x ->] ->]|[-> ->]]; rewrite Hw2'.
    + by rewrite lookup_insert_ne, lookup_delete_eq, lookup_insert_eq.
    + rewrite lookup_delete_ne by done.
      by rewrite lookup_insert_ne, !lookup_delete_eq.
  - destruct Hmv2 as [[[] _]|(_ & d2 & Hd2 & Hmv2)]; [done|]. split; [done|].
    destruct Hmv2 as [[? _]|(_ & _ & Hw2)]; [congruence|].
    rewrite Hw1, Hw0 in Hd2. rewrite lookup_insert_eq in Hd2. simplify_eq.
    rewrite Hw1, Hw0 in Hw2.
    assert (Hfin : dirs w' !! committedDir c = Some d2 ∧
                   dirs w' !! stagingDir c = dirs w !! stagingDir c ∧
                   dirs w' !! backupDir c = None).
    { destruct Hrm as [[_ ->]|[_ ->]]; rewrite Hw2.
      - rewrite lookup_insert_eq, !lookup_insert_ne, lookup_delete_ne by done.
        rewrite lookup_insert_ne, lookup_delete_ne, lookup_delete_eq by done. done.
      - rewrite lookup_delete_eq, !lookup_delete_ne by done.
        rewrite lookup_insert_eq, !lookup_insert_ne, lookup_delete_ne by done.
        rewrite lookup_insert_ne, lookup_delete_ne by done. done. }
    destruct Hfin as (-> & -> & ->). by rewrite Hd0.
Qed.

Example fresh_construction :
  Cache.NewVolumeCache "/cache" Scenario.world_fresh = (inr Scenario.cache0, Scenario.world0).
Proof. vm_compute. reflexivity. Qed.

Example staged_session :
  dirs Scenario.world_staged !! "/cache/staging"
  = Some {[ "sha256:A.tar" := 1; "sha256:B.tar" := fresh (dom (inodes Scenario.world0)) ]}.
Proof. vm_compute. reflexivity. Qed.

(** C2, as the claim has it, fails: both renames fail, the rollback error
    is reported, and on return the backup directory has been removed along
    with the generation it held. *)
Lemma Commit_rollback_failure_removes_backup :
  (Commit Scenario.cache0 Scenario.world_rollback_fails).1
    = (Some (Wrap "rolling back cache" (SysErr (EENV EIO))),
       mark_committed Scenario.cache0) ∧
  is_Some (dirs Scenario.world_rollback_fails !! "/cache/committed") ∧
  dirs (Commit Scenario.cache0 Scenario.world_rollback_fails).2
    !! "/cache/committed-backup" = None ∧
  dirs (Commit Scenario.cache0 Scenario.world_rollback_fails).2
    !! "/cache/committed" = None.
Proof. vm_compute. split_and!; eauto. Qed.

Lemma Commit_staging_rename_failure_witness :
  ∃ e3 w',
    os_RemoveAll "/cache/committed-backup"
      (os_Rename "/cache/committed-backup" "/cache/committed"
         (os_Rename "/cache/staging" "/cache/committed"
            (os_Rename "/cache/committed" "/cache/committed-backup"
               Scenario.world_rollback_ok).2).2).2 = (e3, w') ∧
    Commit Scenario.cache0 Scenario.world_rollback_ok
      = (Some (Wrap "committing cache" (SysErr (EENV EIO))),
         mark_committed Scenario.cache0, w') ∧
    dirs w' !! "/cache/committed" = dirs Scenario.world_rollback_ok !! "/cache/committed" ∧
    dirs w' !! "/cache/staging" = dirs Scenario.world_rollback_ok !! "/cache/staging" ∧
    dirs w' !! "/cache/committed-backup" = None.
Proof.
  apply (Commit_staging_rename_failure Scenario.cache0 Scenario.world_rollback_ok
           (os_Rename "/cache/committed" "/cache/committed-backup"
              Scenario.world_rollback_ok).2
           (EENV EIO)
           (os_Rename "/cache/staging" "/cache/committed"
              (os_Rename "/cache/committed" "/cache/committed-backup"
                 Scenario.world_rollback_ok).2).2
           None).
  - repeat split.
  - reflexivity.
  - vm_compute. reflexivity.
  - vm_compute. reflexivity.
  - vm_compute. reflexivity.
Defined.

End CacheProofs.

(** ** System calls in a calm world *)

Lemma calm_pending w : calm w → pending w = None.
Proof. unfold calm, pending. by intros ->. Qed.

Lemma calm_tick w : calm w → tick w = w.
Proof. unfold calm, tick. destruct w as [d i o]; simpl. by intros ->. Qed.

Lemma syscall_calm {A} (body : World → errno + (A * World)) w :
  calm w →
  syscall body w = match body w with
                   | inl e => (inl e, w)
                   | inr (a, w1) => (inr a, w1)
                   end.
Proof.
  intros Hc. unfold syscall, bind, next_fault. by rewrite calm_pending, calm_tick.
Qed.

Lemma os_Stat_calm p w :
  calm w → os_Stat p w = (if path_exists p w then None else Some ENOENT, w).
Proof.
  intros Hc. unfold os_Stat, bind, ret. rewrite syscall_calm by done.
  by destruct (path_exists p w).
Qed.

Lemma os_RemoveAll_calm d w :
  calm w → os_RemoveAll d w = (None, set_dirs (delete d) w).
Proof. intros Hc. unfold os_RemoveAll, bind, ret. by rewrite syscall_calm. Qed.

Lemma os_Rename_calm old new entries w :
  calm w → old ≠ new → dirs w !! old = Some entries → dirs w !! new = None →
  os_Rename old new w = (None, set_dirs (λ ds, <[new := entries]> (delete old ds)) w).
Proof.
  intros Hc Hne Ho Hn. unfold os_Rename, bind, ret. rewrite syscall_calm by done.
  rewrite Ho, Hn. by rewrite decide_False.
Qed.

Lemma os_Open_calm p w :
  calm w →
  os_Open p w
  = (match p with
     | DirPath d =>
         match dirs w !! d with Some _ => inr (Directory d) | None => inl ENOENT end
     | FilePath _ _ =>
         match lookup_ino p w with Some i => inr (RegularFile i) | None => inl ENOENT end
     end, w).
Proof.
  intros Hc. unfold os_Open. rewrite syscall_calm by done.
  destruct p as [d|d name]; [by destruct (dirs w !! d)|].
  by destruct (lookup_ino (FilePath d name) w).
Qed.

Lemma file_ReadAll_calm f w :
  calm w →
  file_ReadAll f w
  = (match f with
     | RegularFile i => inr (default [] (inodes w !! i))
     | Directory _ => inl EISDIR
     end, w).
Proof. intros Hc. unfold file_ReadAll. rewrite syscall_calm by done. by destruct f. Qed.

Lemma file_Write_calm fh data w :
  calm w → file_Write fh data w = (None, append_ino fh data w).
Proof.
  intros Hc. unfold file_Write, bind, next_fault. by rewrite calm_pending, calm_tick.
Qed.

Lemma io_Copy_calm dst src w :
  calm w →
  io_Copy dst src w
  = match src with
    | FileReader (Directory _) => (Some EISDIR, w)
    | _ => (None, append_ino dst (reader_bytes src w) w)
    end.
Proof.
  intros Hc. destruct src as [data|[i|d]]; simpl; [by apply file_Write_calm..|].
  unfold bind, next_fault, ret. by rewrite calm_pending, calm_tick.
Qed.

Lemma os_Link_calm old d name w :
  calm w →
  os_Link old (FilePath d name) w
  = match lookup_ino old w, dirs w !! d with
    | None, _ | _, None => (Some ENOENT, w)
    | Some i, Some entries =>
        match entries !! name with
        | Some _ => (Some EEXIST, w)
        | None => (None, set_dirs (insert d (<[name := i]> entries)) w)
        end
    end.
Proof.
  intros Hc. unfold os_Link, bind, ret. rewrite syscall_calm by done.
  destruct (lookup_ino old w); [|done].
  destruct (dirs w !! d) as [entries|]; [|done]. by destruct (entries !! name).
Qed.

Lemma os_Create_calm d name entries w :
  calm w → dirs w !! d = Some entries →
  ∃ fh w1,
    os_Create (FilePath d name) w = (inr fh, w1) ∧ calm w1 ∧
    dirs w1 = <[d := <[name := fh]> entries]> (dirs w) ∧
    inodes w1 = <[fh := []]> (inodes w) ∧
    (entries !! name = None → inodes w !! fh = None).
Proof.
  intros Hc Hd. unfold os_Create. rewrite syscall_calm by done. rewrite Hd.
  destruct (entries !! name) as [i|] eqn:Hn.
  - eexists _, _. split_and!; try done. simpl.
    by rewrite (insert_id entries), insert_id.
  - eexists _, _. split_and!; try done. intros _.
    apply not_elem_of_dom, is_fresh.
Qed.

Lemma append_inj_r (a b t : string) : a +:+ t = b +:+ t → a = b.
Proof.
  revert b. induction a as [|ch a IH]; intros [|ch' b] H.
  - done.
  - apply (f_equal String.length) in H.
    rewrite !length_append in H. simpl in H. lia.
  - apply (f_equal String.length) in H.
    rewrite !length_append in H. simpl in H. lia.
  - change (String ch (a +:+ t) = String ch' (b +:+ t)) in H.
    injection H as -> H. f_equal. by apply IH.
Qed.

(** ** The operations of a session *)

Module CacheOps.
Import Cache.

Section WithPlatform.

Variable GOOS : string.
Variable CacheMetadata : Type.
Variable CacheMetadata_zero : CacheMetadata.
Variable json_Marshal : CacheMetadata → error + bytes.
Variable json_Unmarshal : bytes → option CacheMetadata.

Local Abbreviation diffIDPath := (Cache.diffIDPath GOOS).
Local Abbreviation AddLayerFile := (Cache.AddLayerFile GOOS).
Local Abbreviation AddLayer := (Cache.AddLayer GOOS).
Local Abbreviation ReuseLayer := (Cache.ReuseLayer GOOS).
Local Abbreviation SetMetadata := (Cache.SetMetadata CacheMetadata json_Marshal).
Local Abbreviation RetrieveMetadata :=
  (Cache.RetrieveMetadata CacheMetadata CacheMetadata_zero json_Unmarshal).
Local Abbreviation mutate := (Cache.mutate GOOS CacheMetadata json_Marshal).

(** *** The path of a layer *)

Lemma strip_prefix_app p s t : strip_prefix p s = Some t → s = p +:+ t.
Proof.
  revert s. induction p as [|a p IH]; intros [|b s]; simpl; try done.
  - by intros [= <-].
  - by intros [= <-].
  - destruct (Ascii.eqb_spec a b) as [->|]; [|done].
    intros H%IH. by rewrite H.
Qed.

Lemma plain_diffID_trim d p :
  plain_diffID d = true → plain_diffID (strings_TrimPrefix d p) = true.
Proof.
  unfold strings_TrimPrefix. destruct (strip_prefix p d) as [t|] eqn:H; [|done].
  apply strip_prefix_app in H as ->. unfold plain_diffID.
  rewrite !has_char_app, !negb_orb.
  intros [[_ H1]%andb_true_iff [_ H2]%andb_true_iff]%andb_true_iff.
  simpl. by rewrite H1, H2.
Qed.

Lemma diffIDPath_path base diffID :
  ∃ d name, diffIDPath base diffID = FilePath d name.
Proof. unfold Cache.diffIDPath, file_path. eauto. Qed.

(** A diffID that is a plain name is a file of the base directory,
    under the same name whatever the base. *)
Lemma diffIDPath_file diffID :
  plain_diffID diffID = true →
  ∃ name, file_name (diffIDPath "" diffID) = name ∧
          ∀ base, cleaned base → diffIDPath base diffID = FilePath base name.
Proof.
  intros Hpl. unfold Cache.diffIDPath.
  set (d := if String.eqb GOOS "windows" then _ else _).
  assert (plain_name (d +:+ ".tar") = true) as Hn.
  { apply plain_diffID_tar. unfold d. destruct (String.eqb GOOS "windows"); [|done].
    by apply plain_diffID_trim. }
  exists (d +:+ ".tar"). split.
  - by rewrite file_path_Join.
  - intros base Hb. by rewrite file_path_Join, Hb.
Qed.

Lemma create_lookup d name w fh w1 :
  os_Create (FilePath d name) w = (inr fh, w1) →
  lookup_ino (FilePath d name) w1 = Some fh.
Proof.
  intros (d' & name' & entries & [= <- <-] & Hent & Hd & _)%os_Create_inv.
  simpl. by rewrite Hd, lookup_insert_eq; simpl; rewrite lookup_insert_eq.
Qed.

(** *** Frame lemmas *)

Lemma wts_same c w w' :
  dirs w' = dirs w → inodes w' = inodes w → writes_through_staging c w w'.
Proof. intros Hd Hi. split; [by rewrite Hd|]. intros i. by rewrite Hi. Qed.

Lemma wts_create c name w r w1 :
  os_Create (FilePath (stagingDir c) name) w = (r, w1) →
  writes_through_staging c w w1 ∧
  ∀ fh, r = inr fh → lookup_ino (FilePath (stagingDir c) name) w1 = Some fh.
Proof.
  intros H%os_Create_inv. destruct r as [err|fh].
  - destruct H as [Hd Hi]. split; [by apply wts_same|done].
  - destruct H as (d & name' & entries & [= <- <-] & Hent & Hd & Hi & _).
    assert (lookup_ino (FilePath (stagingDir c) name) w1 = Some fh) as Hl.
    { simpl. by rewrite Hd, lookup_insert_eq; simpl; rewrite lookup_insert_eq. }
    split; [split|].
    + intros d' Hne. by rewrite Hd, lookup_insert_ne.
    + intros i Hi'. exists name. destruct (decide (i = fh)) as [->|Hne]; [done|].
      rewrite Hi, lookup_insert_ne in Hi'; done.
    + by intros ? [= <-].
Qed.

Lemma wts_write c w w1 w2 fh name :
  writes_through_staging c w w1 →
  lookup_ino (FilePath (stagingDir c) name) w1 = Some fh →
  dirs w2 = dirs w1 →
  (∀ i, i ≠ fh → inodes w2 !! i = inodes w1 !! i) →
  writes_through_staging c w w2.
Proof.
  intros [Hd Hi] Hl Hd2 Hi2. split.
  - intros d Hne. rewrite Hd2. by apply Hd.
  - intros i Hne. simpl in *. rewrite Hd2.
    destruct (decide (i = fh)) as [->|Hfh]; [eauto|].
    apply Hi. by rewrite Hi2 in Hne.
Qed.

Lemma file_Write_frame fh data w e w1 :
  file_Write fh data w = (e, w1) →
  dirs w1 = dirs w ∧ ∀ i, i ≠ fh → inodes w1 !! i = inodes w !! i.
Proof.
  intros (Hd & n & Hi & _)%file_Write_inv. split; [done|].
  intros i Hne. by rewrite Hi, lookup_insert_ne.
Qed.

Lemma wts_link c old name w e w1 :
  os_Link old (FilePath (stagingDir c) name) w = (e, w1) →
  writes_through_staging c w w1.
Proof.
  intros [Hi H]%os_Link_inv. destruct e as [err|].
  - destruct H as [Hd _]. by apply wts_same.
  - destruct H as (i & d & name' & entries & _ & [= <- <-] & _ & _ & Hd).
    split; [|by rewrite Hi]. intros d Hne. by rewrite Hd, lookup_insert_ne.
Qed.

Lemma wts_tick c w w' : writes_through_staging c (tick w) w' → writes_through_staging c w w'.
Proof. done. Qed.

(** *** What a mutation touches *)

Lemma Commit_marks c w r c' w' : Commit c w = (r, c', w') → committed c' = true.
Proof.
  unfold Commit. destruct (committed c) eqn:Hcm.
  - by intros [= <- <- <-].
  - unfold bind, ret; simpl.
    repeat (match goal with
            | |- context [os_Rename ?a ?b ?x] => destruct (os_Rename a b x) as [[?|] ?]
            | |- context [os_RemoveAll ?a ?x] => destruct (os_RemoveAll a x) as [? ?]
            end; simpl); by intros [= <- <- <-].
Qed.

Lemma mutate_committed c op w :
  committed c = true → mutate c op w = (Some errCacheCommitted, w).
Proof.
  intros Hcm. destruct op; simpl;
    unfold Cache.SetMetadata, Cache.AddLayerFile, Cache.AddLayer, Cache.ReuseLayer;
    by rewrite Hcm.
Qed.

Lemma mutate_writes_through_staging c op w r w' :
  committed c = false → cleaned (stagingDir c) → plain_op CacheMetadata op = true →
  mutate c op w = (r, w') → writes_through_staging c w w'.
Proof.
  intros Hcm Hcl Hpl.
  destruct op as [metadata|tarPath diffID|rc diffID|diffID]; unfold Cache.mutate.
  - unfold Cache.SetMetadata. rewrite Hcm. unfold bind, ret.
    destruct (os_Create _ w) as [[err|fh] w1] eqn:Hc;
      pose proof Hc as Hc'; apply wts_create in Hc as [Hw Hl].
    { by intros [= <- <-]. }
    destruct (json_Marshal metadata) as [err|data].
    { by intros [= <- <-]. }
    destruct (file_Write fh data w1) as [e w2] eqn:Hwr.
    apply file_Write_frame in Hwr as [Hd2 Hi2].
    intros Hr. assert (w' = w2) as -> by (destruct e; simpl in Hr; by simplify_eq).
    eapply wts_write; eauto.
  - unfold Cache.AddLayerFile. rewrite Hcm.
    destruct (diffIDPath_file diffID Hpl) as (name & _ & Hp). rewrite (Hp _ Hcl).
    unfold bind, ret.
    destruct (os_Stat _ w) as [e w1] eqn:Hs. apply os_Stat_inv in Hs as (-> & _).
    destruct e as [err|]; [|intros [= <- <-]; by apply wts_same].
    unfold copyFile, bind, ret.
    destruct (os_Open tarPath (tick w)) as [[err1|in_] w1] eqn:Ho;
      apply os_Open_inv in Ho as (-> & _).
    { intros [= <- <-]. by apply wts_same. }
    destruct (os_Create _ (tick (tick w))) as [[err2|out] w1] eqn:Hc;
      apply wts_create in Hc as [Hw Hl].
    { intros [= <- <-]. by apply wts_tick, wts_tick. }
    destruct (io_Copy out (FileReader in_) w1) as [e w2] eqn:Hwr.
    apply io_Copy_frame in Hwr as [Hd2 Hi2].
    intros Hr. assert (w' = w2) as -> by (destruct e; simpl in Hr; by simplify_eq).
    apply wts_tick, wts_tick. eapply wts_write; eauto.
  - unfold Cache.AddLayer. rewrite Hcm.
    destruct (diffIDPath_file diffID Hpl) as (name & _ & Hp). rewrite (Hp _ Hcl).
    unfold bind, ret.
    destruct (os_Create _ w) as [[err|fh] w1] eqn:Hc;
      apply wts_create in Hc as [Hw Hl].
    { by intros [= <- <-]. }
    destruct (io_Copy fh rc w1) as [e w2] eqn:Hwr.
    apply io_Copy_frame in Hwr as [Hd2 Hi2].
    intros Hr. assert (w' = w2) as -> by (destruct e; simpl in Hr; by simplify_eq).
    eapply wts_write; eauto.
  - unfold Cache.ReuseLayer. rewrite Hcm.
    destruct (diffIDPath_file diffID Hpl) as (name & _ & Hp). rewrite (Hp _ Hcl).
    unfold bind, ret.
    destruct (os_Link _ _ w) as [e w1] eqn:Hl. apply wts_link in Hl.
    intros Hr. assert (w' = w1) as ->; [|done].
    destruct e as [err|]; [destruct (negb _)|]; by simplify_eq.
Qed.

(** C3, as the code has it: on an instance that went through [Commit],
    whatever [Commit] returned, a mutating operation returns
    [errCacheCommitted] and leaves the world as it is; before commit a
    mutating operation whose diffID is a plain name (no path separator
    in it; [SetMetadata] has none), on an instance whose staging
    directory is a cleaned path as [NewVolumeCache] makes it, changes the
    entries of [staging/] only, and the bytes only of files that have a
    name in [staging/]. *)
Theorem mutation_contract c op w r w' :
  mutate c op w = (r, w') →
  (∀ c0 w0 r0 w1, Commit c0 w0 = (r0, c, w1) → committed c = true) ∧
  (if committed c
   then r = Some errCacheCommitted ∧ w' = w
   else cleaned (stagingDir c) → plain_op CacheMetadata op = true →
        writes_through_staging c w w').
Proof.
  intros Hm. split.
  - intros c0 w0 r0 w1. apply Commit_marks.
  - destruct (committed c) eqn:Hcm.
    + rewrite (mutate_committed c op w Hcm) in Hm. by simplify_eq.
    + intros Hcl Hpl. by eapply mutate_writes_through_staging.
Qed.

(** *** A whole session *)

Lemma NewVolumeCache_inv root w c w1 :
  NewVolumeCache root w = (inr c, w1) →
  constructed c ∧ committed c = false ∧ dirs w1 !! stagingDir c = Some ∅.
Proof.
  unfold NewVolumeCache, setupStagingDir, bind, ret.
  destruct (os_Stat _ w) as [[?|] wa]; [done|]. simpl.
  destruct (os_RemoveAll _ wa) as [[?|] wb] eqn:H1; [done|].
  destruct (os_MkdirAll _ wb) as [[?|] wc] eqn:H2; [done|].
  destruct (os_RemoveAll _ wc) as [[?|] wd] eqn:H3; [done|].
  destruct (os_MkdirAll _ wd) as [[?|] we] eqn:H4; [done|].
  intros [= <- <-]. split; [done|]. split; [done|]. simpl.
  apply os_RemoveAll_inv in H1 as (_ & [[[] _]|[_ Hb]]); [done|].
  apply os_MkdirAll_inv in H2 as (_ & [[[] _]|[_ Hc]]); [done|].
  apply os_RemoveAll_inv in H3 as (_ & [[[] _]|[_ Hd]]); [done|].
  apply os_MkdirAll_inv in H4 as (_ & [[[] _]|[_ He]]); [done|].
  assert (dirs wc !! filepath_Join root "staging" = Some ∅) as Hst.
  { destruct Hc as [[[x Hx] _]|[_ ->]]; [|by rewrite lookup_insert_eq].
    by rewrite Hb, lookup_delete_eq in Hx. }
  assert (dirs wd !! filepath_Join root "staging" = Some ∅) as Hst'.
  { rewrite Hd, lookup_delete_ne; [done|].
    intros H%filepath_Join_inj; done. }
  destruct He as [[_ ->]|[_ ->]]; [done|].
  rewrite lookup_insert_ne; [done|].
  intros H%filepath_Join_inj; done.
Qed.

Lemma create_staged c name w r w1 entries :
  os_Create (FilePath (stagingDir c) name) w = (r, w1) →
  dirs w !! stagingDir c = Some entries →
  ∃ entries', dirs w1 !! stagingDir c = Some entries' ∧
    (entries' = entries ∨ ∃ i, entries' = <[name := i]> entries) ∧
    (∀ fh, r = inr fh → is_Some (entries' !! name)).
Proof.
  intros H%os_Create_inv Hent. destruct r as [err|fh].
  - destruct H as [Hd _]. exists entries. rewrite Hd. split_and!; [done|by left|done].
  - destruct H as (d & name' & entries0 & [= <- <-] & Hent0 & Hd & _).
    assert (entries0 = entries) as -> by congruence.
    exists (<[name := fh]> entries). rewrite Hd, lookup_insert_eq.
    split_and!; eauto. intros _ _. rewrite lookup_insert_eq. eauto.
Qed.

Lemma mutate_staged c op w r w' entries :
  committed c = false → cleaned (stagingDir c) → plain_op CacheMetadata op = true →
  mutate c op w = (r, w') →
  dirs w !! stagingDir c = Some entries →
  ∃ entries', dirs w' !! stagingDir c = Some entries' ∧
    (entries' = entries ∨ ∃ i, entries' = <[staged_name GOOS CacheMetadata op := i]> entries) ∧
    (r = None → is_Some (entries' !! staged_name GOOS CacheMetadata op)).
Proof.
  intros Hcm Hcl Hpl Hm Hent.
  destruct op as [metadata|tarPath diffID|rc diffID|diffID];
    unfold Cache.mutate in Hm; unfold Cache.staged_name.
  - unfold Cache.SetMetadata in Hm. rewrite Hcm in Hm. unfold bind, ret in Hm.
    destruct (os_Create _ w) as [[err|fh] w1] eqn:Hc;
      eapply create_staged in Hc as (entries' & Hd1 & Hshape & Hex); eauto.
    { simplify_eq. exists entries'. split_and!; [done|done|done]. }
    destruct (json_Marshal metadata) as [err|data].
    { simplify_eq. exists entries'. split_and!; [done|done|done]. }
    destruct (file_Write fh data w1) as [e w2] eqn:Hwr.
    apply file_Write_inv in Hwr as [Hd2 _].
    assert (w' = w2) as -> by (destruct e; by simplify_eq).
    exists entries'. rewrite Hd2. split_and!; [done|done|intros _; eauto].
  - unfold Cache.AddLayerFile in Hm. rewrite Hcm in Hm. unfold bind, ret in Hm.
    destruct (diffIDPath_file diffID Hpl) as (name & -> & Hp). rewrite (Hp _ Hcl) in Hm.
    destruct (os_Stat _ w) as [e w0] eqn:Hs. apply os_Stat_inv in Hs as (-> & Hex & _).
    destruct e as [err|].
    2:{ simplify_eq. exists entries. split_and!; eauto. intros _.
        specialize (Hex eq_refl). simpl in Hex. apply bool_decide_eq_true in Hex.
        by rewrite Hent in Hex. }
    unfold copyFile, bind, ret in Hm.
    destruct (os_Open tarPath (tick w)) as [[err1|in_] w0] eqn:Ho;
      apply os_Open_inv in Ho as (-> & _).
    { simplify_eq. exists entries. split_and!; [done|by left|done]. }
    destruct (os_Create _ (tick (tick w))) as [[err2|out] w1] eqn:Hc;
      eapply create_staged in Hc as (entries' & Hd1 & Hshape & Hex'); eauto.
    { simplify_eq. exists entries'. split_and!; [done|done|done]. }
    destruct (io_Copy out (FileReader in_) w1) as [e w2] eqn:Hwr.
    apply io_Copy_frame in Hwr as [Hd2 _].
    assert (w' = w2) as -> by (destruct e; simpl in Hm; by simplify_eq).
    exists entries'. rewrite Hd2. split_and!; [done|done|intros _; eauto].
  - unfold Cache.AddLayer in Hm. rewrite Hcm in Hm. unfold bind, ret in Hm.
    destruct (diffIDPath_file diffID Hpl) as (name & -> & Hp). rewrite (Hp _ Hcl) in Hm.
    destruct (os_Create _ w) as [[err|fh] w1] eqn:Hc;
      eapply create_staged in Hc as (entries' & Hd1 & Hshape & Hex); eauto.
    { simplify_eq. exists entries'. split_and!; [done|done|done]. }
    destruct (io_Copy fh rc w1) as [e w2] eqn:Hwr.
    apply io_Copy_frame in Hwr as [Hd2 _].
    assert (w' = w2) as -> by (destruct e; by simplify_eq).
    exists entries'. rewrite Hd2. split_and!; [done|done|intros _; eauto].
  - unfold Cache.ReuseLayer in Hm. rewrite Hcm in Hm. unfold bind, ret in Hm.
    destruct (diffIDPath_file diffID Hpl) as (name & -> & Hp). rewrite !(Hp _ Hcl) in Hm.
    destruct (os_Link _ _ w) as [e w1] eqn:Hl. apply os_Link_inv in Hl as [_ Hl].
    assert (w' = w1) as ->
      by (destruct e as [err|]; [destruct (negb _)|]; by simplify_eq).
    destruct e as [err|].
    + destruct Hl as (Hd & Hne & Hex). exists entries. rewrite Hd.
      split_and!; eauto. intros ->.
      assert (err = EEXIST) as ->.
      { destruct err as [| | |?|]; simpl in Hm; try done. }
      destruct (Hex eq_refl) as [_ H2]. specialize (H2 _ _ eq_refl).
      simpl in H2. by rewrite Hent in H2.
    + destruct Hl as (i & d & name' & entries0 & _ & [= <- <-] & Hent0 & _ & Hd).
      assert (entries0 = entries) as -> by congruence.
      exists (<[name := i]> entries).
      rewrite Hd, lookup_insert_eq. split_and!; eauto.
      intros _. rewrite lookup_insert_eq. eauto.
Qed.

Lemma session_staged c ops :
  committed c = false → cleaned (stagingDir c) →
  Forall (λ op, plain_op CacheMetadata op = true) ops →
  ∀ w names w' entries,
    session GOOS CacheMetadata json_Marshal c ops w = (names, w') →
    dirs w !! stagingDir c = Some entries →
    ∃ entries', dirs w' !! stagingDir c = Some entries' ∧
      (∀ name, is_Some (entries !! name) → is_Some (entries' !! name)) ∧
      (∀ name, name ∈ names → is_Some (entries' !! name)) ∧
      (∀ name, is_Some (entries' !! name) →
               is_Some (entries !! name) ∨
               name ∈ map (staged_name GOOS CacheMetadata) ops).
Proof.
  intros Hcm Hcl Hpl.
  induction Hpl as [|op ops Hop Hpl IH]; intros w names w' entries; simpl.
  - intros [= <- <-] Hent. exists entries. split_and!; eauto.
    intros ? ?%elem_of_nil. done.
  - unfold bind, ret.
    destruct (mutate c op w) as [r w1] eqn:Hm.
    destruct (session _ _ _ c ops w1) as [names1 w2] eqn:Hs.
    intros [= <- <-] Hent.
    destruct (mutate_staged _ _ _ _ _ _ Hcm Hcl Hop Hm Hent) as (e1 & Hd1 & Hshape & Hok).
    destruct (IH _ _ _ _ Hs Hd1) as (e2 & Hd2 & Hkeep & Hnames & Hfrom).
    assert (Hmono : ∀ name, is_Some (entries !! name) → is_Some (e1 !! name)).
    { intros name Hn. destruct Hshape as [->|[i ->]]; [done|].
      destruct (decide (staged_name GOOS CacheMetadata op = name)) as [->|Hne].
      - rewrite lookup_insert_eq. eauto.
      - by rewrite lookup_insert_ne. }
    exists e2. split_and!; eauto.
    + intros name Hin. destruct r as [err|]; [by apply Hnames|].
      apply elem_of_cons in Hin as [->|Hin]; [|by apply Hnames].
      apply Hkeep. by apply Hok.
    + intros name Hn. destruct (Hfrom name Hn) as [H1|H1].
      * destruct Hshape as [->|[i ->]]; [by left|].
        destruct (decide (staged_name GOOS CacheMetadata op = name)) as [->|Hne].
        -- right. apply elem_of_cons. by left.
        -- left. by rewrite lookup_insert_ne in H1.
      * right. apply elem_of_cons. by right.
Qed.

(** C1, as the code has it: after a session on a freshly constructed
    cache whose operations take plain names as diffIDs (no path
    separator), when [Commit] returns success [staging/] is gone and
    [committed/] is the directory that [staging/] was when [Commit] was
    called, with the same files.  So it holds every file whose operation
    returned nil, and nothing but files that an operation of the session
    wrote, failed ones included; what was committed before and is not
    staged is gone.  Every later [Commit] on the instance fails with
    [errCacheCommitted]. *)
Theorem Commit_success root w0 c w1 ops names w2 c' w3 :
  NewVolumeCache root w0 = (inr c, w1) →
  Forall (λ op, plain_op CacheMetadata op = true) ops →
  session GOOS CacheMetadata json_Marshal c ops w1 = (names, w2) →
  Commit c w2 = (None, c', w3) →
  dirs w3 !! stagingDir c = None ∧
  dirs w3 !! committedDir c = dirs w2 !! stagingDir c ∧
  (∀ name, file_content (FilePath (committedDir c) name) w3
           = file_content (FilePath (stagingDir c) name) w2) ∧
  (∀ name, name ∈ names →
           is_Some (lookup_ino (FilePath (committedDir c) name) w3)) ∧
  (∀ name, is_Some (lookup_ino (FilePath (committedDir c) name) w3) →
           name ∈ map (staged_name GOOS CacheMetadata) ops) ∧
  ∀ w, Commit c' w = (Some errCacheCommitted, c', w).
Proof.
  intros (Hc & Hcm & Hempty)%NewVolumeCache_inv Hpl Hs HC.
  destruct (CacheProofs.constructed_cleaned c Hc) as (Hcl & _ & _).
  destruct (session_staged c ops Hcm Hcl Hpl _ _ _ _ Hs Hempty)
    as (entries & Hd2 & _ & Hnames & Hfrom).
  destruct (CacheProofs.Commit_ok_inv c w2 c' w3 Hc HC) as (Hgone & _ & Hcd & Hfc & Hagain).
  split_and!; try done.
  - intros name Hin. simpl. rewrite Hcd, Hd2. simpl. by apply Hnames.
  - intros name. simpl. rewrite Hcd, Hd2. simpl. intros Hn.
    destruct (Hfrom name Hn) as [H|H]; [|done].
    rewrite lookup_empty in H. by destruct H.
Qed.

(** *** Reading the metadata *)

(** C8: [RetrieveMetadata] returns the empty record and no error when the
    metadata file is absent and when its bytes cannot be read or decoded;
    it returns an error exactly when the open fails for another reason. *)
Theorem RetrieveMetadata_lenient c w md e w' :
  RetrieveMetadata c w = (md, e, w') →
  let metadataPath := FilePath (committedDir c) MetadataLabel in
  (lookup_ino metadataPath w = None → pending w = None →
     md = CacheMetadata_zero ∧ e = None) ∧
  (∀ w1, os_Open metadataPath w = (inl ENOENT, w1) →
     md = CacheMetadata_zero ∧ e = None) ∧
  (∀ file w1 r w2,
     os_Open metadataPath w = (inr file, w1) →
     file_ReadAll file w1 = (r, w2) →
     match r with
     | inl _ => md = CacheMetadata_zero ∧ e = None
     | inr data =>
         e = None ∧
         match json_Unmarshal data with
         | None => md = CacheMetadata_zero
         | Some metadata => md = metadata
         end
     end) ∧
  (is_Some e ↔ ∃ err w1, os_Open metadataPath w = (inl err, w1) ∧ err ≠ ENOENT).
Proof.
  intros H metadataPath. unfold Cache.RetrieveMetadata, bind, ret in H.
  fold metadataPath in H.
  destruct (os_Open metadataPath w) as [[err|file] w1] eqn:Ho.
  - assert (Hres : md = CacheMetadata_zero ∧
                   (e = None ↔ err = ENOENT)).
    { destruct err; simpl in H; simplify_eq; split; done. }
    destruct Hres as [-> He]. split_and!.
    + intros Hl Hp. split; [done|]. apply He.
      unfold metadataPath in Ho, Hl.
      rewrite (os_Open_absent _ _ _ Hp Hl) in Ho. by simplify_eq.
    + intros w2 [= -> _]. split; [done|]. by apply He.
    + intros ???? [=].
    + split.
      * intros Hs. exists err, w1. split; [done|]. intros Herr%He.
        rewrite Herr in Hs. by destruct Hs.
      * intros (err' & w2 & Heq & Hne). destruct e; [eauto|]. exfalso.
        apply Hne. simplify_eq. by apply He.
  - destruct (file_ReadAll file w1) as [[rerr|data] w2] eqn:Hr.
    + simplify_eq. split_and!.
      * intros Hl _. apply os_Open_inv in Ho as [_ Ho].
        destruct file; [congruence|by destruct Ho].
      * intros ? [=].
      * intros ???? [= <- <-]. rewrite Hr. by intros [= <- _].
      * split; [by intros []|]. by intros (? & ? & [=] & _).
    + assert (e = None ∧ match json_Unmarshal data with
                         | None => md = CacheMetadata_zero
                         | Some metadata => md = metadata
                         end) as [-> Hmd].
      { destruct (json_Unmarshal data); by simplify_eq. }
      split_and!.
      * intros Hl _. apply os_Open_inv in Ho as [_ Ho].
        destruct file; [congruence|by destruct Ho].
      * intros ? [=].
      * intros ???? [= <- <-]. rewrite Hr. by intros [= <- _].
      * split; [by intros []|]. by intros (? & ? & [=] & _).
Qed.

(** *** Adding and reusing twice *)

Lemma AddLayerFile_staged c tarPath diffID w :
  committed c = false →
  pending w = None →
  is_Some (lookup_ino (diffIDPath (stagingDir c) diffID) w) →
  AddLayerFile c tarPath diffID w = (None, tick w).
Proof.
  intros Hcm Hp Hl. unfold Cache.AddLayerFile. rewrite Hcm.
  destruct (diffIDPath_path (stagingDir c) diffID) as (d & name & Hn).
  rewrite Hn in *. unfold bind, ret. by rewrite os_Stat_exists.
Qed.

Lemma AddLayerFile_ok_staged c tarPath diffID w w1 :
  committed c = false →
  AddLayerFile c tarPath diffID w = (None, w1) →
  is_Some (lookup_ino (diffIDPath (stagingDir c) diffID) w1).
Proof.
  intros Hcm. unfold Cache.AddLayerFile. rewrite Hcm.
  destruct (diffIDPath_path (stagingDir c) diffID) as (d & name & ->).
  unfold bind, ret.
  destruct (os_Stat _ w) as [e w0] eqn:Hs. apply os_Stat_inv in Hs as (-> & Hex & _).
  destruct e as [err|].
  - unfold copyFile, bind, ret.
    destruct (os_Open tarPath (tick w)) as [[err1|in_] w0]; [done|].
    destruct (os_Create _ w0) as [[err2|out] w2] eqn:Hc; [done|].
    apply create_lookup in Hc.
    destruct (io_Copy out (FileReader in_) w2) as [e w3] eqn:Hwr.
    apply io_Copy_frame in Hwr as [Hd _].
    destruct e; simpl; [done|]. intros [= <-].
    simpl in *. rewrite Hd. eauto.
  - intros [= <-]. specialize (Hex eq_refl). simpl in Hex.
    by apply bool_decide_eq_true in Hex.
Qed.

(** The first [AddLayerFile] of a layer, without environmental failure:
    the file is created under the layer's path and holds the bytes of
    the tarball. *)
Lemma AddLayerFile_fresh c tarPath diffID w dir name entries data :
  committed c = false → calm w →
  diffIDPath (stagingDir c) diffID = FilePath dir name →
  dirs w !! dir = Some entries → entries !! name = None →
  file_content tarPath w = Some data →
  ∃ fh w1,
    AddLayerFile c tarPath diffID w = (None, w1) ∧ calm w1 ∧
    dirs w1 = <[dir := <[name := fh]> entries]> (dirs w) ∧
    inodes w1 = <[fh := data]> (inodes w) ∧ inodes w !! fh = None.
Proof.
  intros Hcm Hc Hp Hd Hn Hsrc. unfold Cache.AddLayerFile. rewrite Hcm, Hp.
  unfold bind, ret. rewrite os_Stat_calm by done.
  assert (path_exists (FilePath dir name) w = false) as ->.
  { simpl. rewrite Hd. simpl. rewrite Hn. by apply bool_decide_eq_false_2, is_Some_None. }
  unfold copyFile, bind, ret. rewrite os_Open_calm by done.
  unfold file_content in Hsrc.
  destruct (lookup_ino tarPath w) as [i|] eqn:Hi; [|done]. simpl in Hsrc.
  destruct tarPath as [?|d0 n0]; [done|].
  destruct (os_Create_calm dir name entries w Hc Hd) as (fh & w1 & -> & Hc1 & Hd1 & Hi1 & Hfr).
  specialize (Hfr Hn). rewrite io_Copy_calm by done. simpl.
  exists fh, (append_ino fh (default [] (inodes w1 !! i)) w1).
  assert (i ≠ fh) as Hne by (intros ->; congruence).
  split_and!; try done.
  simpl. rewrite Hi1, lookup_insert_eq, lookup_insert_ne, Hsrc by done. simpl.
  by rewrite insert_insert_eq.
Qed.

Lemma AddLayerFile_copies c tarPath diffID data w w1 :
  committed c = false →
  lookup_ino (diffIDPath (stagingDir c) diffID) w = None →
  file_content tarPath w = Some data →
  AddLayerFile c tarPath diffID w = (None, w1) →
  file_content (diffIDPath (stagingDir c) diffID) w1 = Some data.
Proof.
  intros Hcm Hnew Hsrc. unfold Cache.AddLayerFile. rewrite Hcm.
  destruct (diffIDPath_path (stagingDir c) diffID) as (dir & name & Hp).
  rewrite Hp in *. unfold bind, ret.
  destruct (os_Stat _ w) as [e w0] eqn:Hs. apply os_Stat_inv in Hs as (-> & Hex & _).
  destruct e as [err|].
  2:{ specialize (Hex eq_refl). simpl in Hex. apply bool_decide_eq_true in Hex.
      simpl in Hnew. rewrite Hnew in Hex. by destruct Hex. }
  unfold copyFile, bind, ret.
  destruct (os_Open tarPath (tick w)) as [[err1|in_] w0] eqn:Ho; [done|].
  apply os_Open_inv in Ho as (-> & Hin).
  destruct in_ as [in_|d0].
  2:{ destruct Hin as [-> _]. done. }
  rewrite lookup_ino_tick in Hin.
  destruct (os_Create _ (tick (tick w))) as [[err2|out] w2] eqn:Hc; [done|].
  apply os_Create_inv in Hc as (d & name' & entries & [= <- <-] & Hent & Hd & Hi & Hcase).
  simpl in Hent, Hd, Hi, Hcase.
  destruct Hcase as [Hold|[_ ->]].
  { simpl in Hnew. rewrite Hent in Hnew. simpl in Hnew. congruence. }
  unfold file_content in Hsrc. rewrite Hin in Hsrc. simpl in Hsrc.
  assert (in_ ≠ fresh (dom (inodes w))) as Hne.
  { intros ->. apply (is_fresh (dom (inodes w))). apply elem_of_dom. eauto. }
  destruct (io_Copy _ (FileReader (RegularFile in_)) w2) as [e w3] eqn:Hwr.
  destruct e; simpl; [done|]. apply io_Copy_ok in Hwr as (Hd3 & Hi3).
  intros [= <-].
  unfold file_content. simpl. rewrite Hd3, Hd, lookup_insert_eq. simpl.
  rewrite lookup_insert_eq. simpl. rewrite Hi3, lookup_insert_eq. simpl.
  by rewrite Hi, lookup_insert_eq, lookup_insert_ne, Hsrc.
Qed.

Lemma os_Link_exists old d name w :
  pending w = None →
  is_Some (lookup_ino old w) →
  is_Some (lookup_ino (FilePath d name) w) →
  os_Link old (FilePath d name) w = (Some EEXIST, tick w).
Proof.
  intros Hp [i Ho] [j Hn]. unfold os_Link, syscall, bind, next_fault, ret.
  rewrite Hp; simpl. rewrite lookup_ino_tick, Ho. simpl in *.
  destruct (dirs w !! d) as [entries|]; [|done]. simpl in Hn. by rewrite Hn.
Qed.

Lemma ReuseLayer_again c diffID w w1 :
  committed c = false →
  ReuseLayer c diffID w = (None, w1) →
  pending w1 = None →
  ReuseLayer c diffID w1 = (None, tick w1).
Proof.
  intros Hcm. unfold Cache.ReuseLayer. rewrite Hcm.
  destruct (diffIDPath_path (stagingDir c) diffID) as (ds & ns & ->).
  destruct (diffIDPath_path (committedDir c) diffID) as (dc & nc & ->).
  unfold bind, ret.
  destruct (os_Link _ _ w) as [e w0] eqn:Hl. apply os_Link_inv in Hl as [Hi Hl].
  intros Hr Hp.
  assert (w0 = w1) as -> by (destruct e as [err|]; [destruct (negb _)|]; by simplify_eq).
  assert (is_Some (lookup_ino (FilePath dc nc) w1) ∧
          is_Some (lookup_ino (FilePath ds ns) w1)) as [Hold Hnew].
  { destruct e as [err|].
    - destruct Hl as (Hd & Hne & Hex).
      assert (err = EEXIST) as ->.
      { destruct err as [| | |?|]; simpl in Hr; try done. }
      destruct (Hex eq_refl) as [H1 H2]. specialize (H2 _ _ eq_refl).
      simpl in *. by rewrite Hd.
    - destruct Hl as (i & d & name' & entries & Ho & [= <- <-] & Hent & Hnone & Hd).
      simpl in *. rewrite Hd. split.
      + destruct (decide (ds = dc)) as [Heq|Hne].
        * subst dc. rewrite lookup_insert_eq. simpl. rewrite Hent in Ho. simpl in Ho.
          destruct (decide (ns = nc)) as [->|Hn]; [congruence|].
          rewrite lookup_insert_ne by done. eauto.
        * rewrite lookup_insert_ne by done. eauto.
      + rewrite lookup_insert_eq. simpl. rewrite lookup_insert_eq. eauto. }
  by rewrite (os_Link_exists _ _ _ w1 Hp Hold Hnew).
Qed.

(** The first [ReuseLayer] of a committed layer, without environmental
    failure: the layer's path becomes a second name of the committed
    file. *)
Lemma ReuseLayer_fresh c diffID w dir name entries i :
  committed c = false → calm w →
  diffIDPath (stagingDir c) diffID = FilePath dir name →
  dirs w !! dir = Some entries → entries !! name = None →
  lookup_ino (diffIDPath (committedDir c) diffID) w = Some i →
  ReuseLayer c diffID w
  = (None, set_dirs (insert dir (<[name := i]> entries)) w).
Proof.
  intros Hcm Hc Hp Hd Hn Hi. unfold Cache.ReuseLayer. rewrite Hcm, Hp.
  unfold bind, ret. rewrite os_Link_calm by done. by rewrite Hi, Hd, Hn.
Qed.

(** C9: in an uncommitted session without environmental failure, take a
    layer whose path [diffIDPath stagingDir diffID] (the file
    [staging/<diffID>.tar] for a diffID that is a plain name) is in an
    existing directory and does not exist yet.  The first [AddLayerFile]
    of a tarball returns nil, enters exactly this one file and gives it
    the bytes of the tarball, leaving all other files as they were; a
    second [AddLayerFile] with the same diffID, whatever its tarball,
    returns nil and leaves the world exactly as the first call left it.
    When the layer is committed, the first [ReuseLayer] returns nil and
    makes the path a second name of the committed file; the second
    returns nil and changes nothing. *)
Theorem staging_idempotent c diffID w dir name entries :
  committed c = false →
  calm w →
  diffIDPath (stagingDir c) diffID = FilePath dir name →
  dirs w !! dir = Some entries →
  entries !! name = None →
  (plain_diffID diffID = true → cleaned (stagingDir c) → dir = stagingDir c) ∧
  (∀ tarPath tarPath' data,
     file_content tarPath w = Some data →
     ∃ fh w1,
       AddLayerFile c tarPath diffID w = (None, w1) ∧
       dirs w1 = <[dir := <[name := fh]> entries]> (dirs w) ∧
       inodes w1 = <[fh := data]> (inodes w) ∧ inodes w !! fh = None ∧
       file_content (diffIDPath (stagingDir c) diffID) w1 = Some data ∧
       AddLayerFile c tarPath' diffID w1 = (None, w1)) ∧
  (∀ i,
     lookup_ino (diffIDPath (committedDir c) diffID) w = Some i →
     ∃ w1,
       ReuseLayer c diffID w = (None, w1) ∧
       dirs w1 = <[dir := <[name := i]> entries]> (dirs w) ∧
       inodes w1 = inodes w ∧
       lookup_ino (diffIDPath (stagingDir c) diffID) w1 = Some i ∧
       ReuseLayer c diffID w1 = (None, w1)).
Proof.
  intros Hcm Hc Hp Hd Hn. split_and!.
  - intros Hpl Hcl. destruct (diffIDPath_file diffID Hpl) as (n & _ & Hf).
    rewrite (Hf _ Hcl) in Hp. congruence.
  - intros tarPath tarPath' data Hsrc.
    destruct (AddLayerFile_fresh c tarPath diffID w dir name entries data
                Hcm Hc Hp Hd Hn Hsrc) as (fh & w1 & H1 & Hc1 & Hd1 & Hi1 & Hfr).
    assert (lookup_ino (FilePath dir name) w1 = Some fh) as Hl.
    { simpl. rewrite Hd1, lookup_insert_eq. simpl. by rewrite lookup_insert_eq. }
    exists fh, w1. split_and!; try done.
    + rewrite Hp. unfold file_content. rewrite Hl. simpl.
      by rewrite Hi1, lookup_insert_eq.
    + rewrite <- (calm_tick w1 Hc1) at 2.
      apply AddLayerFile_staged; [done|by apply calm_pending|].
      rewrite Hp, Hl. eauto.
  - intros i Hi. eexists. split; [by eapply ReuseLayer_fresh|].
    set (w1 := set_dirs _ w).
    assert (calm w1) as Hc1 by done.
    split_and!; try done.
    + rewrite Hp. simpl. rewrite lookup_insert_eq. simpl. by rewrite lookup_insert_eq.
    + rewrite <- (calm_tick w1 Hc1) at 2.
      apply (ReuseLayer_again c diffID w); [done| |by apply calm_pending].
      by eapply ReuseLayer_fresh.
Qed.

(** *** A stream that fails half way *)


End WithPlatform.

End CacheOps.

(** ** The operations on the scenarios *)

Module CacheExamples.
Import Cache Scenario.

Lemma Commit_success_witness :
  let ops := [DoReuseLayer Doc "sha256:A";
              DoAddLayerFile Doc (FilePath "/tmp" "b.tar") "sha256:B"] in
  let w2 := (session "linux" Doc Doc_Marshal cache0 ops world0).2 in
  let w3 := (Commit cache0 w2).2 in
  dirs w3 !! "/cache/staging" = None ∧
  dirs w3 !! "/cache/committed" = dirs w2 !! "/cache/staging" ∧
  (∀ name, file_content (FilePath "/cache/committed" name) w3
           = file_content (FilePath "/cache/staging" name) w2) ∧
  (∀ name, name ∈ ["sha256:A.tar"; "sha256:B.tar"] →
           is_Some (lookup_ino (FilePath "/cache/committed" name) w3)) ∧
  (∀ name, is_Some (lookup_ino (FilePath "/cache/committed" name) w3) →
           name ∈ map (staged_name "linux" Doc) ops) ∧
  ∀ w, Commit (mark_committed cache0) w
       = (Some errCacheCommitted, mark_committed cache0, w).
Proof.
  apply (CacheOps.Commit_success "linux" Doc Doc_Marshal "/cache" world_fresh cache0 world0).
  - vm_refl.
  - repeat constructor.
  - vm_refl.
  - vm_refl.
Defined.

(** Why the diffIDs of C1 are plain names: [filepath.Join] cleans the
    path, so a diffID that climbs out of [staging/] names a file of
    another directory.  The [AddLayer] below returns nil and writes
    [committed/Z.tar]; [staging/] stays empty, and the commit that
    follows succeeds and leaves [committed/] empty. *)
Example AddLayer_outside_staging_lost_by_Commit :
  let ops := [DoAddLayer Doc (Stream layerB) "../committed/Z"] in
  let w2 := (AddLayer "linux" cache0 (Stream layerB) "../committed/Z" world0).2 in
  NewVolumeCache "/cache" world_fresh = (inr cache0, world0) ∧
  diffIDPath "linux" "/cache/staging" "../committed/Z" = FilePath "/cache/committed" "Z.tar" ∧
  session "linux" Doc Doc_Marshal cache0 ops world0 = (["Z.tar"], w2) ∧
  dirs w2 !! "/cache/staging" = Some ∅ ∧
  file_content (FilePath "/cache/committed" "Z.tar") w2 = Some layerB ∧
  (Commit cache0 w2).1 = (None, mark_committed cache0) ∧
  dirs (Commit cache0 w2).2 !! "/cache/committed" = Some ∅.
Proof. cbv zeta. split_and!; vm_refl. Qed.

(** C1, as the claim has it, fails: the only operation of the session
    returns an error, so no file was successfully placed in [staging/],
    and after the commit [committed/] holds the file that the failed
    operation left behind. *)
Lemma Commit_promotes_file_of_failed_AddLayer :
  let ops := [DoAddLayer Doc (Stream layerB) "sha256:B"] in
  let w2 := (session "linux" Doc Doc_Marshal cache0 ops world_copy_fails).2 in
  NewVolumeCache "/cache" world_fresh_copy_fails = (inr cache0, world_copy_fails) ∧
  (AddLayer "linux" cache0 (Stream layerB) "sha256:B" world_copy_fails).1
    = Some (Wrap "copying layer to tar file" (SysErr (EENV EIO))) ∧
  session "linux" Doc Doc_Marshal cache0 ops world_copy_fails = ([], w2) ∧
  (Commit cache0 w2).1 = (None, mark_committed cache0) ∧
  dirs (Commit cache0 w2).2 !! "/cache/committed"
    = Some {[ "sha256:B.tar" := fresh (dom (inodes world0)) ]} ∧
  file_content (FilePath "/cache/committed" "sha256:B.tar") (Commit cache0 w2).2
    = Some (take 7 layerB).
Proof. cbv zeta. split_and!; vm_refl. Qed.

Lemma mutation_contract_witness :
  let op := DoAddLayer Doc (Stream layerB) "sha256:B" in
  let w' := (mutate "linux" Doc Doc_Marshal cache0 op world0).2 in
  let c1 := (Commit cache0 world_rollback_fails).1.2 in
  let w1 := (Commit cache0 world_rollback_fails).2 in
  writes_through_staging cache0 world0 w' ∧
  committed c1 = true ∧
  (mutate "linux" Doc Doc_Marshal c1 op w1).1 = Some errCacheCommitted ∧
  (mutate "linux" Doc Doc_Marshal c1 op w1).2 = w1.
Proof.
  intros op w' c1 w1.
  assert (mutate "linux" Doc Doc_Marshal cache0 op world0 = (None, w')) as H0 by vm_refl.
  assert (cleaned (stagingDir cache0)) as Hcl by (unfold cleaned; vm_refl).
  assert (mutate "linux" Doc Doc_Marshal c1 op w1
          = ((mutate "linux" Doc Doc_Marshal c1 op w1).1,
             (mutate "linux" Doc Doc_Marshal c1 op w1).2)) as H1 by vm_refl.
  assert (Commit cache0 world_rollback_fails
          = ((Commit cache0 world_rollback_fails).1.1, c1, w1)) as HC by vm_refl.
  assert (committed c1 = true) as Hcm by vm_refl.
  pose proof (CacheOps.mutation_contract "linux" Doc Doc_Marshal cache0 op world0 None w' H0)
    as [_ Hw].
  pose proof (CacheOps.mutation_contract "linux" Doc Doc_Marshal c1 op w1 _ _ H1)
    as [Hm Hr].
  rewrite Hcm in Hr. destruct Hr as [Hr Hs].
  split_and!.
  - exact (Hw Hcl eq_refl).
  - exact (Hm _ _ _ _ HC).
  - exact Hr.
  - exact Hs.
Defined.

(** Why the diffID of C3 is a plain name: an [AddLayer] whose diffID
    climbs out of [staging/] returns nil and enters a file in
    [committed/] before any commit. *)
Example AddLayer_outside_staging :
  let w' := (AddLayer "linux" cache0 (Stream layerB) "../committed/Z" world0).2 in
  plain_diffID "../committed/Z" = false ∧
  AddLayer "linux" cache0 (Stream layerB) "../committed/Z" world0 = (None, w') ∧
  dirs world0 !! "/cache/committed" = Some {[ "sha256:A.tar" := 1 ]} ∧
  dirs w' !! "/cache/committed"
    = Some {[ "sha256:A.tar" := 1; "Z.tar" := fresh (dom (inodes world0)) ]} ∧
  ¬ writes_through_staging cache0 world0 w'.
Proof.
  cbv zeta. split_and!; [vm_refl..|].
  intros [H _]. specialize (H "/cache/committed").
  assert ("/cache/committed" ≠ stagingDir cache0) as Hne by (by vm_compute).
  specialize (H Hne).
  assert ((dirs world0 !! "/cache/committed") ≫= (.!! "Z.tar") = None) as H0 by vm_refl.
  rewrite <- H in H0.
  assert ((dirs (AddLayer "linux" cache0 (Stream layerB) "../committed/Z" world0).2
             !! "/cache/committed") ≫= (.!! "Z.tar")
          = Some (fresh (dom (inodes world0)))) as H1 by vm_refl.
  rewrite H1 in H0. discriminate.
Qed.

Example mutation_after_failed_commit :
  let c1 := (Commit cache0 world_rollback_fails).1.2 in
  let w1 := (Commit cache0 world_rollback_fails).2 in
  is_Some (Commit cache0 world_rollback_fails).1.1 ∧
  SetMetadata Doc Doc_Marshal c1 layerA w1 = (Some errCacheCommitted, w1) ∧
  AddLayerFile "linux" c1 (FilePath "/tmp" "b.tar") "sha256:B" w1
    = (Some errCacheCommitted, w1) ∧
  AddLayer "linux" c1 (Stream layerB) "sha256:B" w1 = (Some errCacheCommitted, w1) ∧
  ReuseLayer "linux" c1 "sha256:A" w1 = (Some errCacheCommitted, w1).
Proof. vm_compute. split_and!; eauto. Qed.

(** C3, as the claim has it, fails: a layer reused from [committed/] is
    one file under two names, and an [AddLayer] with the same digest
    truncates and rewrites it through its staging name, so the file in
    [committed/] reads differently before any commit. *)
Lemma AddLayer_rewrites_reused_committed_layer :
  let w1 := (ReuseLayer "linux" cache0 "sha256:A" world0).2 in
  let w2 := (AddLayer "linux" cache0 (Stream layerB) "sha256:A" w1).2 in
  committed cache0 = false ∧
  (ReuseLayer "linux" cache0 "sha256:A" world0).1 = None ∧
  (AddLayer "linux" cache0 (Stream layerB) "sha256:A" w1).1 = None ∧
  file_content (FilePath "/cache/committed" "sha256:A.tar") w1 = Some layerA ∧
  file_content (FilePath "/cache/committed" "sha256:A.tar") w2 = Some layerB ∧
  ¬ writes_only_into_staging cache0 w1 w2.
Proof.
  cbv zeta. split_and!; [vm_refl..|].
  intros H. specialize (H "/cache/committed" "sha256:A.tar").
  assert ("/cache/committed" ≠ stagingDir cache0) as Hne by (by vm_compute).
  specialize (H Hne).
  assert (file_content (FilePath "/cache/committed" "sha256:A.tar")
            (ReuseLayer "linux" cache0 "sha256:A" world0).2 = Some layerA) as H1 by vm_refl.
  assert (file_content (FilePath "/cache/committed" "sha256:A.tar")
            (AddLayer "linux" cache0 (Stream layerB) "sha256:A"
               (ReuseLayer "linux" cache0 "sha256:A" world0).2).2 = Some layerB)
    as H2 by vm_refl.
  rewrite H1, H2 in H. vm_compute in H. discriminate.
Qed.

Lemma RetrieveMetadata_lenient_witness :
  let metadataPath := FilePath "/cache/committed" MetadataLabel in
  (lookup_ino metadataPath world0 = None → pending world0 = None →
     Doc_zero = Doc_zero ∧ @None error = None) ∧
  (∀ w1, os_Open metadataPath world0 = (inl ENOENT, w1) →
     Doc_zero = Doc_zero ∧ @None error = None) ∧
  (∀ file w1 r w2,
     os_Open metadataPath world0 = (inr file, w1) →
     file_ReadAll file w1 = (r, w2) →
     match r with
     | inl _ => Doc_zero = Doc_zero ∧ @None error = None
     | inr data =>
         @None error = None ∧
         match Doc_Unmarshal data with
         | None => Doc_zero = Doc_zero
         | Some metadata => Doc_zero = metadata
         end
     end) ∧
  (is_Some (@None error) ↔
   ∃ err w1, os_Open metadataPath world0 = (inl err, w1) ∧ err ≠ ENOENT).
Proof.
  apply (CacheOps.RetrieveMetadata_lenient Doc Doc_zero Doc_Unmarshal cache0 world0
           Doc_zero None (tick world0)).
  vm_compute. reflexivity.
Defined.

Lemma staging_idempotent_witness :
  "/cache/staging" = stagingDir cache0 ∧
  (∃ fh w1,
     AddLayerFile "linux" cache0 (FilePath "/tmp" "b.tar") "sha256:A" world0 = (None, w1) ∧
     dirs w1 = <["/cache/staging" := <["sha256:A.tar" := fh]> ∅]> (dirs world0) ∧
     inodes w1 = <[fh := layerB]> (inodes world0) ∧ inodes world0 !! fh = None ∧
     file_content (diffIDPath "linux" (stagingDir cache0) "sha256:A") w1 = Some layerB ∧
     AddLayerFile "linux" cache0 (FilePath "/cache/committed" "sha256:A.tar") "sha256:A" w1
     = (None, w1)) ∧
  (∃ w1,
     ReuseLayer "linux" cache0 "sha256:A" world0 = (None, w1) ∧
     dirs w1 = <["/cache/staging" := <["sha256:A.tar" := 1]> ∅]> (dirs world0) ∧
     inodes w1 = inodes world0 ∧
     lookup_ino (diffIDPath "linux" (stagingDir cache0) "sha256:A") w1 = Some 1 ∧
     ReuseLayer "linux" cache0 "sha256:A" w1 = (None, w1)).
Proof.
  assert (diffIDPath "linux" (stagingDir cache0) "sha256:A"
          = FilePath "/cache/staging" "sha256:A.tar") as Hp by vm_refl.
  assert (dirs world0 !! "/cache/staging" = Some (∅ : gmap string nat)) as Hd
    by vm_refl.
  assert ((∅ : gmap string nat) !! "sha256:A.tar" = None) as Hn by vm_refl.
  assert (cleaned (stagingDir cache0)) as Hcl by (unfold cleaned; vm_refl).
  assert (file_content (FilePath "/tmp" "b.tar") world0 = Some layerB) as Hsrc
    by vm_refl.
  assert (lookup_ino (diffIDPath "linux" (committedDir cache0) "sha256:A") world0 = Some 1)
    as Hl by vm_refl.
  pose proof (CacheOps.staging_idempotent "linux" cache0 "sha256:A" world0
                "/cache/staging" "sha256:A.tar" ∅ eq_refl eq_refl Hp Hd Hn)
    as (H1 & H2 & H3).
  split_and!.
  - exact (H1 eq_refl Hcl).
  - exact (H2 (FilePath "/tmp" "b.tar") (FilePath "/cache/committed" "sha256:A.tar")
              layerB Hsrc).
  - exact (H3 1 Hl).
Defined.

(** The same on a diffID that climbs out of [staging/]: the one file is
    entered in [committed/], and the second call still changes nothing. *)
Example AddLayerFile_twice_outside_staging :
  let w1 := (AddLayerFile "linux" cache0 (FilePath "/tmp" "b.tar") "../committed/Z" world0).2 in
  diffIDPath "linux" (stagingDir cache0) "../committed/Z" = FilePath "/cache/committed" "Z.tar" ∧
  AddLayerFile "linux" cache0 (FilePath "/tmp" "b.tar") "../committed/Z" world0 = (None, w1) ∧
  AddLayerFile "linux" cache0 (FilePath "/tmp" "b.tar") "../committed/Z" w1 = (None, w1) ∧
  dirs w1 !! "/cache/staging" = Some ∅ ∧
  file_content (FilePath "/cache/committed" "Z.tar") w1 = Some layerB.
Proof. cbv zeta. split_and!; vm_refl. Qed.

Example AddLayerFile_twice :
  let w1 := (AddLayerFile "linux" cache0 (FilePath "/tmp" "b.tar") "sha256:B" world0).2 in
  AddLayerFile "linux" cache0 (FilePath "/tmp" "b.tar") "sha256:B" world0 = (None, w1) ∧
  AddLayerFile "linux" cache0 (FilePath "/cache/committed" "sha256:A.tar") "sha256:B" w1
    = (None, tick w1) ∧
  file_content (FilePath "/cache/staging" "sha256:B.tar") (tick w1) = Some layerB.
Proof. cbv zeta. split_and!; vm_refl. Qed.

Example ReuseLayer_twice :
  let w1 := (ReuseLayer "linux" cache0 "sha256:A" world0).2 in
  ReuseLayer "linux" cache0 "sha256:A" world0 = (None, w1) ∧
  ReuseLayer "linux" cache0 "sha256:A" w1 = (None, tick w1) ∧
  file_content (FilePath "/cache/staging" "sha256:A.tar") (tick w1) = Some layerA.
Proof. cbv zeta. split_and!; vm_refl. Qed.



Example partial_layer_committed :
  let w2 := (AddLayer "linux" cache0 (Stream layerB) "sha256:B" world_copy_fails).2 in
  let w3 := (AddLayerFile "linux" cache0 (FilePath "/tmp" "b.tar") "sha256:B" w2).2 in
  AddLayerFile "linux" cache0 (FilePath "/tmp" "b.tar") "sha256:B" w2 = (None, w3) ∧
  (Commit cache0 w3).1 = (None, mark_committed cache0) ∧
  file_content (FilePath "/cache/committed" "sha256:B.tar") (Commit cache0 w3).2
    = Some (take 7 layerB).
Proof. cbv zeta. split_and!; vm_refl. Qed.

End CacheExamples.

(** ** Exporter *)

Module ExporterProofs.
Import Lifecycle.

Lemma append_assoc (a b c : string) : (a +:+ b) +:+ c = a +:+ b +:+ c.
Proof.
  induction a as [|ch a IH]; [done|].
  change (String ch ((a +:+ b) +:+ c) = String ch (a +:+ b +:+ c)). by rewrite IH.
Qed.

Lemma contains_intro (before sub after s : string) :
  s = before +:+ sub +:+ after → contains s sub.
Proof. intros ->. by exists before, after. Qed.

Lemma bind_inv {S A B} (c : ST S A) (k : A → ST S B) s r s' :
  bind c k s = (r, s') → ∃ a s1, c s = (a, s1) ∧ k a s1 = (r, s').
Proof. unfold bind. destruct (c s) as [a s1]. eauto. Qed.

Lemma emits_nil st : emits st st [].
Proof. unfold emits. by rewrite app_nil_r. Qed.

Lemma emits_trans st st1 st2 a b :
  emits st st1 a → emits st1 st2 b → emits st st2 (a ++ b).
Proof. unfold emits. intros H1 H2. by rewrite H2, H1, app_assoc. Qed.

Lemma emits_log lvl msg st u st' : log lvl msg st = (u, st') → emits st st' [].
Proof. intros [= <- <-]. unfold emits. simpl. by rewrite app_nil_r. Qed.

Lemma emits_call image c st r st' :
  call image c st = (r, st') → emits st st' [c] ∧ r = image (calls st) c.
Proof. by intros [= <- <-]. Qed.

Lemma quiet_refl st : quiet st st.
Proof. exists []. split; [apply emits_nil|done]. Qed.

Lemma quiet_trans st st1 st2 : quiet st st1 → quiet st1 st2 → quiet st st2.
Proof.
  intros (a & Ha & Hla) (b & Hb & Hlb). exists (a ++ b). split.
  - by eapply emits_trans.
  - unfold layer_calls in *. by rewrite List.filter_app, Hla, Hlb.
Qed.

Lemma quiet_log lvl msg st u st' : log lvl msg st = (u, st') → quiet st st'.
Proof. intros H%emits_log. by exists []. Qed.

Lemma quiet_call image c st r st' :
  is_layer_call c = false → call image c st = (r, st') → quiet st st'.
Proof.
  intros Hc [H _]%emits_call. exists [c]. split; [done|].
  unfold layer_calls. simpl. by rewrite Hc.
Qed.

Ltac bind_in H a s1 Hc :=
  apply bind_inv in H as (a & s1 & Hc & H).

Ltac ret_in H := unfold ret in H; simplify_eq.

Section WithEnvironment.

Variable filepath_Abs : string → string * option error.
Variable os_PathListSeparator : string.
Variable toml_DecodeFile_BuildMetadata : string → BuildMetadata.t * option error.
Variable toml_DecodeFile_BuildReport : string → list string * option error.
Variable readBuildpackLayersDir : string → GroupBuildpack.t → error + bpLayersDir.t.
Variable json_Marshal_LayersMetadata : LayersMetadata.t → string * option error.
Variable json_Marshal_BuildMetadata : BuildMetadata.t → string * option error.
Variable json_Marshal_Project : string → string * option error.
Variable launch_LauncherPath : string.
Variable launch_ProcessDir : string.
Variable launch_LifecycleDir : string.
Variable launch_ProcessPath : string → string.
Variable launch_EscapeID : string → string.
Variable buildpack_WithBuildpack : GroupBuildpack.t → list string → list string.
Variable api_MustParse : string → api.Version.

Local Abbreviation entrypoint := (Lifecycle.entrypoint launch_LauncherPath launch_ProcessPath).
Local Abbreviation setLabels :=
  (Lifecycle.setLabels json_Marshal_LayersMetadata json_Marshal_BuildMetadata
     json_Marshal_Project).
Local Abbreviation setEnv :=
  (Lifecycle.setEnv os_PathListSeparator launch_ProcessDir launch_LifecycleDir).
Local Abbreviation makeBuildReport :=
  (Lifecycle.makeBuildReport toml_DecodeFile_BuildReport launch_EscapeID
     buildpack_WithBuildpack api_MustParse).
Local Abbreviation addBuildpackLayers_from :=
  (Lifecycle.addBuildpackLayers_from readBuildpackLayersDir).
Local Abbreviation addBuildpackLayers := (Lifecycle.addBuildpackLayers readBuildpackLayersDir).
Local Abbreviation buildpack_calls := (Lifecycle.buildpack_calls readBuildpackLayersDir).
Local Abbreviation Export :=
  (Lifecycle.Export filepath_Abs os_PathListSeparator toml_DecodeFile_BuildMetadata
     toml_DecodeFile_BuildReport readBuildpackLayersDir json_Marshal_LayersMetadata
     json_Marshal_BuildMetadata json_Marshal_Project launch_LauncherPath launch_ProcessDir
     launch_LifecycleDir launch_ProcessPath launch_EscapeID buildpack_WithBuildpack
     api_MustParse).

(** *** Add or reuse *)

(** C5, as the code has it: with the layer made again by the factory,
    equal digests give one call [ReuseLayer] of the previous digest, which
    is returned; different digests give one call [AddLayerWithDiffID] of
    the new tar path and digest, and the new digest is returned.  Nothing
    but the two strings decides, so an empty previous digest gives the add
    call whenever the digest of the layer is not empty. *)
Theorem addOrReuseLayer_by_digest e image layer previousSHA rebuilt st :
  DirLayer (Factory e) (Layer.ID layer) (Layer.TarPath layer) = (rebuilt, None) →
  (Layer.Digest rebuilt = previousSHA →
   ∃ st', addOrReuseLayer e image layer previousSHA st
          = ((previousSHA, reply_err (image (calls st) (ReuseLayer previousSHA))), st') ∧
          calls st' = calls st ++ [ReuseLayer previousSHA]) ∧
  (Layer.Digest rebuilt ≠ previousSHA →
   let add := AddLayerWithDiffID (Layer.TarPath rebuilt) (Layer.Digest rebuilt) in
   ∃ st', addOrReuseLayer e image layer previousSHA st
          = ((Layer.Digest rebuilt, reply_err (image (calls st) add)), st') ∧
          calls st' = calls st ++ [add]) ∧
  (previousSHA = "" → Layer.Digest rebuilt ≠ "" →
   ∃ st', (addOrReuseLayer e image layer previousSHA st).2 = st' ∧
          calls st' = calls st
                      ++ [AddLayerWithDiffID (Layer.TarPath rebuilt) (Layer.Digest rebuilt)]).
Proof.
  intros HD. unfold addOrReuseLayer. rewrite HD. split_and!.
  - intros <-. rewrite String.eqb_refl. unfold bind, ret, log, call; simpl. eauto.
  - intros Hne%String.eqb_neq. rewrite Hne. unfold bind, ret, log, call; simpl. eauto.
  - intros -> Hne%String.eqb_neq. rewrite Hne. unfold bind, ret, log, call; simpl. eauto.
Qed.

(** *** Entrypoint *)

Lemma find_existsb {A} (f : A → bool) (l : list A) :
  existsb f l = match find f l with Some _ => true | None => false end.
Proof. induction l as [|x l IH]; simpl; [done|]. by destruct (f x). Qed.

Lemma FindProcessType_type m t p :
  launch.FindProcessType m t = Some p → Process.Type_ p = t.
Proof.
  unfold launch.FindProcessType. intros [_ H]%find_some. by apply String.eqb_eq.
Qed.

Lemma AtLeast_LessThan v o : api.AtLeast v o = negb (api.LessThan v o).
Proof. unfold api.AtLeast, api.LessThan. by destruct (api.Compare v o). Qed.

(** C7: the entrypoint that the code computes is the one of the decision
    table read top to bottom: the launcher below platform API 0.4; the
    process of a user default that exists; for one that does not exist a
    warning and the launcher below 0.6, an error from 0.6 on; without a
    user default the single process below 0.6, else the buildpack default
    when there is one, else the launcher.  No image call is made. *)
Theorem entrypoint_decision_table e launchMD userDefault buildpackDefault st :
  ∃ r st',
    entrypoint e launchMD userDefault buildpackDefault st = (r, st') ∧
    calls st' = calls st ∧
    match entrypoint_table (PlatformAPI e) (launch.Processes launchMD)
            userDefault buildpackDefault with
    | UseLauncher =>
        r = (launch_LauncherPath, None) ∧
        ∀ msg, (WarnLevel, msg) ∈ logs st' → (WarnLevel, msg) ∈ logs st
    | UseProcess processType => r = (launch_ProcessPath processType, None)
    | WarnAndUseLauncher =>
        r = (launch_LauncherPath, None) ∧
        logs st' = logs st ++ [(WarnLevel, processTypeWarning launchMD userDefault)]
    | FailNoSuchProcess =>
        r = ("", Some (Errorf ("tried to set " +:+ userDefault
                               +:+ " to default but it doesn't exist")))
    end.
Proof.
  unfold Lifecycle.entrypoint, entrypoint_table, supportsMulticallLauncher.
  rewrite AtLeast_LessThan, negb_involutive.
  destruct (api.LessThan (PlatformAPI e) api.v0_4).
  { eexists _, _. split_and!; eauto. }
  rewrite find_existsb. fold (launch.FindProcessType launchMD userDefault).
  destruct (String.eqb userDefault "") eqn:Hu; simpl.
  - destruct (api.LessThan (PlatformAPI e) api.v0_6) eqn:H6.
    + destruct (launch.Processes launchMD) as [|p [|q ps]] eqn:Hps;
        try (unfold bind, ret, log; simpl; eexists _, _; split_and!; eauto; fail).
      all: destruct (String.eqb buildpackDefault "");
        unfold bind, ret, log; simpl; eexists _, _; split_and!; eauto.
      all: simpl; intros msg [?|Hin%list_elem_of_singleton]%elem_of_app;
        [done|discriminate].
    + destruct (String.eqb buildpackDefault "");
        unfold bind, ret, log; simpl; eexists _, _; split_and!; eauto.
      simpl; intros msg [?|Hin%list_elem_of_singleton]%elem_of_app;
        [done|discriminate].
  - assert (Hskip : ∀ (A : Type) (x y : A),
              match api.LessThan (PlatformAPI e) api.v0_6, launch.Processes launchMD with
              | true, [_] | _, _ => y
              end = y).
    { intros. destruct (api.LessThan _ _); [destruct (launch.Processes _) as [|? [|]]|];
        done. }
    destruct (launch.FindProcessType launchMD userDefault) as [p|] eqn:Hf; simpl.
    + apply FindProcessType_type in Hf as <-.
      unfold bind, ret, log; simpl. eexists _, _; split_and!; eauto.
    + destruct (api.LessThan (PlatformAPI e) api.v0_6);
        unfold bind, ret, log; simpl; eexists _, _; split_and!; eauto.
Qed.


(** *** The calls of each phase *)

Lemma addOrReuseLayer_ok e image layer previousSHA sha st st' :
  addOrReuseLayer e image layer previousSHA st = ((sha, None), st') →
  emits st st' [addOrReuse_call e layer previousSHA].
Proof.
  unfold addOrReuseLayer, addOrReuse_call.
  destruct (DirLayer _ _ _) as [rebuilt [err|]]; simpl.
  { intros H. ret_in H. }
  destruct (String.eqb _ _); intros H.
  all: bind_in H u1 s1 H1; bind_in H u2 s2 H2; bind_in H r s3 H3; ret_in H.
  all: apply emits_log in H1, H2; apply emits_call in H3 as [H3 _].
  all: apply (emits_trans _ _ _ [] _ H1), (emits_trans _ _ _ [] _ H2), H3.
Qed.

Lemma exportLaunchLayer_ok e opts bp fsLayer lmd st st' :
  exportLaunchLayer e opts bp fsLayer st = (inr lmd, st') →
  emits st st' [launch_layer_call e opts bp fsLayer].
Proof.
  unfold exportLaunchLayer, launch_layer_call.
  destruct (bpLayer.read fsLayer) as [err|lmd0]; [intros H; ret_in H|].
  destruct (bpLayer.hasLocalContents fsLayer).
  - destruct (DirLayer _ _ _) as [layer [err|]]; simpl; [intros H; ret_in H|].
    intros H. bind_in H r s1 H1. destruct r as [sha [err|]]; ret_in H.
    by apply addOrReuseLayer_ok in H1.
  - destruct (BuildpackLayerMetadata.Cache lmd0); [intros H; ret_in H|].
    destruct (_ !! _) as [orig|]; [|intros H; ret_in H]. simpl.
    intros H. bind_in H u1 s1 H1; bind_in H u2 s2 H2; bind_in H r s3 H3.
    destruct (reply_err r); ret_in H.
    apply emits_log in H1, H2; apply emits_call in H3 as [H3 _].
    apply (emits_trans _ _ _ [] _ H1), (emits_trans _ _ _ [] _ H2), H3.
Qed.

Lemma exportLaunchLayers_ok e opts bp fsLayers :
  ∀ bpMD bpMD' st st',
    exportLaunchLayers e opts bp fsLayers bpMD st = (inr bpMD', st') →
    emits st st' (map (launch_layer_call e opts bp) fsLayers).
Proof.
  induction fsLayers as [|fsLayer rest IH]; intros bpMD bpMD' st st' H; simpl in *.
  - ret_in H. apply emits_nil.
  - bind_in H r s1 H1. destruct r as [err|lmd]; [ret_in H|].
    apply exportLaunchLayer_ok in H1. apply IH in H.
    apply (emits_trans _ _ _ [_] _ H1 H).
Qed.

Lemma addBuildpackLayers_from_ok e opts bps :
  ∀ meta meta' st st',
    addBuildpackLayers_from e opts bps meta st = (inr meta', st') →
    emits st st' (flat_map (buildpack_calls e opts) bps).
Proof.
  induction bps as [|bp rest IH]; intros meta meta' st st' H; simpl in *.
  - ret_in H. apply emits_nil.
  - unfold Lifecycle.buildpack_calls at 1.
    destruct (readBuildpackLayersDir (LayersDir opts) bp) as [err|bpDir]; [ret_in H|].
    bind_in H r s1 H1. destruct r as [err|bpMD]; [ret_in H|].
    apply exportLaunchLayers_ok in H1.
    destruct (bpLayersDir.malformedLayers bpDir); [|ret_in H].
    apply IH in H. by eapply emits_trans.
Qed.

Lemma addSliceLayers_ok e opts sliceLayers :
  ∀ meta n r st st',
    addSliceLayers e opts sliceLayers meta n st = (inr r, st') →
    emits st st' (map (slice_call opts) sliceLayers).
Proof.
  induction sliceLayers as [|slice rest IH]; intros meta n r st st' H; simpl in *.
  - ret_in H. apply emits_nil.
  - bind_in H rep s1 H1. unfold slice_call at 1.
    destruct (reply_err rep); [ret_in H|].
    bind_in H u s2 H2. apply emits_log in H2. apply IH in H.
    assert (emits st s1 [if existsb
                (λ previous, String.eqb (Layer.Digest slice) (LayerMetadata.SHA previous))
                (LayersMetadata.App (OrigMetadata opts))
              then ReuseLayer (Layer.Digest slice)
              else AddLayerWithDiffID (Layer.TarPath slice) (Layer.Digest slice)]) as H1'.
    { destruct (existsb _ _); by apply emits_call in H1 as [H1 _]. }
    apply (emits_trans _ _ _ [_] _ H1'), (emits_trans _ _ _ [] _ H2), H.
Qed.

Lemma addAppLayers_ok e opts slices meta meta' st st' :
  addAppLayers e opts slices meta st = (inr meta', st') →
  emits st st' (map (slice_call opts) (SliceLayers (Factory e) (AppDir opts) slices).1).
Proof.
  unfold addAppLayers.
  destruct (SliceLayers _ _ _) as [sliceLayers [err|]]; simpl; [intros H; ret_in H|].
  intros H. bind_in H r s1 H1. destruct r as [err|[meta1 n]]; [ret_in H|].
  apply addSliceLayers_ok in H1.
  bind_in H u2 s2 H2. bind_in H u3 s3 H3. ret_in H.
  assert (emits s1 s2 []) as H2'.
  { destruct (0 <? n); [by apply emits_log in H2|]. ret_in H2. apply emits_nil. }
  assert (emits s2 st' []) as H3'.
  { destruct (negb _); [by apply emits_log in H3|]. ret_in H3. apply emits_nil. }
  pose proof (emits_trans _ _ _ _ _ H1 (emits_trans _ _ _ _ _ H2' H3')) as Hall.
  simpl in Hall. by rewrite app_nil_r in Hall.
Qed.

Lemma launcherConfig_ok e opts buildMD meta meta' st st' :
  launcherConfig e opts buildMD meta st = (inr meta', st') →
  emits st st' (process_types_calls e opts buildMD).
Proof.
  unfold launcherConfig, process_types_calls, supportsMulticallLauncher.
  destruct (api.AtLeast _ _); simpl; [|intros H; ret_in H; apply emits_nil].
  destruct (0 <? _); [|intros H; ret_in H; apply emits_nil].
  destruct (ProcessTypesLayer _ _) as [layer [err|]]; simpl; [intros H; ret_in H|].
  intros H. bind_in H r s1 H1. destruct r as [sha [err|]]; ret_in H.
  by apply addOrReuseLayer_ok in H1.
Qed.

Lemma addLauncherLayers_ok e opts buildMD meta meta' st st' :
  addLauncherLayers e opts buildMD meta st = (inr meta', st') →
  emits st st'
    ([launcher_call e opts; config_call e opts] ++ process_types_calls e opts buildMD).
Proof.
  unfold addLauncherLayers, launcher_call, config_call.
  destruct (LauncherLayer _ _) as [launcherLayer [err|]]; simpl; [intros H; ret_in H|].
  intros H. bind_in H r s1 H1. destruct r as [sha [err|]]; [ret_in H|].
  apply addOrReuseLayer_ok in H1.
  destruct (DirLayer _ _ _) as [configLayer [err|]]; simpl in *; [ret_in H|].
  bind_in H r s2 H2. destruct r as [sha2 [err|]]; [ret_in H|].
  apply addOrReuseLayer_ok in H2. apply launcherConfig_ok in H.
  apply (emits_trans _ _ _ [_] _ H1), (emits_trans _ _ _ [_] _ H2), H.
Qed.

Lemma setBuildpackLabels_quiet opts labels :
  ∀ r st st', setBuildpackLabels opts labels st = (r, st') → quiet st st'.
Proof.
  induction labels as [|label rest IH]; intros r st st' H; simpl in *.
  - ret_in H. apply quiet_refl.
  - bind_in H u s1 H1. bind_in H rep s2 H2.
    apply quiet_log in H1. apply quiet_call in H2; [|done].
    destruct (reply_err rep).
    + ret_in H. by eapply quiet_trans.
    + apply IH in H. eapply quiet_trans; [|done]. by eapply quiet_trans.
Qed.

Lemma setLabels_quiet e opts meta buildMD r st st' :
  setLabels e opts meta buildMD st = (r, st') → quiet st st'.
Proof.
  unfold Lifecycle.setLabels.
  destruct (json_Marshal_LayersMetadata meta) as [data [err|]];
    [intros H; ret_in H; apply quiet_refl|].
  intros H. bind_in H u1 s1 H1. bind_in H r1 s2 H2.
  apply quiet_log in H1. apply quiet_call in H2; [|done].
  pose proof (quiet_trans _ _ _ H1 H2) as Q2. clear H1 H2.
  destruct (reply_err r1); [by ret_in H|].
  destruct (json_Marshal_BuildMetadata _) as [buildJSON [err|]]; [by ret_in H|].
  bind_in H u3 s3 H3. bind_in H r3 s4 H4.
  apply quiet_log in H3. apply quiet_call in H4; [|done].
  pose proof (quiet_trans _ _ _ Q2 (quiet_trans _ _ _ H3 H4)) as Q4. clear H3 H4 Q2.
  destruct (reply_err r3); [by ret_in H|].
  destruct (json_Marshal_Project _) as [projectJSON [err|]]; [by ret_in H|].
  bind_in H u5 s5 H5. bind_in H r5 s6 H6.
  apply quiet_log in H5. apply quiet_call in H6; [|done].
  pose proof (quiet_trans _ _ _ Q4 (quiet_trans _ _ _ H5 H6)) as Q6. clear H5 H6 Q4.
  destruct (reply_err r5); [by ret_in H|].
  bind_in H r7 s7 H7. ret_in H. apply setBuildpackLabels_quiet in H7.
  by eapply quiet_trans.
Qed.

Lemma setEnvVar_quiet opts key value errName r st st' :
  setEnvVar opts key value errName st = (r, st') → quiet st st'.
Proof.
  unfold setEnvVar. intros H. bind_in H u1 s1 H1. bind_in H r1 s2 H2.
  apply quiet_log in H1. apply quiet_call in H2; [|done].
  assert (st' = s2) as -> by (destruct (reply_err r1); by ret_in H).
  by eapply quiet_trans.
Qed.

Lemma setEnv_quiet e opts launchMD r st st' :
  setEnv e opts launchMD st = (r, st') → quiet st st'.
Proof.
  unfold Lifecycle.setEnv. intros H.
  bind_in H r1 s1 H1. apply setEnvVar_quiet in H1.
  destruct r1; [by ret_in H|].
  bind_in H r2 s2 H2. apply setEnvVar_quiet in H2.
  pose proof (quiet_trans _ _ _ H1 H2) as Q2. clear H1 H2.
  destruct r2; [by ret_in H|].
  bind_in H r3 s3 H3. apply setEnvVar_quiet in H3.
  pose proof (quiet_trans _ _ _ Q2 H3) as Q3. clear Q2 H3.
  destruct r3; [by ret_in H|].
  bind_in H r4 s4 H4. apply setEnvVar_quiet in H4.
  pose proof (quiet_trans _ _ _ Q3 H4) as Q4. clear Q3 H4.
  destruct r4; [by ret_in H|].
  destruct (supportsMulticallLauncher e).
  - bind_in H r5 s5 H5. apply quiet_call in H5; [|done].
    pose proof (quiet_trans _ _ _ Q4 H5) as Q5.
    destruct (reply_err r5); [by ret_in H|].
    bind_in H u6 s6 H6. bind_in H r7 s7 H7.
    apply quiet_log in H6. apply quiet_call in H7; [|done].
    assert (st' = s7) as -> by (destruct (reply_err r7); by ret_in H).
    eapply quiet_trans; [done|]. by eapply quiet_trans.
  - destruct (negb _); [|by ret_in H].
    destruct (launch.FindProcessType _ _); [|by ret_in H].
    apply setEnvVar_quiet in H. by eapply quiet_trans.
Qed.

Lemma entrypoint_quiet e launchMD userDefault buildpackDefault r st st' :
  entrypoint e launchMD userDefault buildpackDefault st = (r, st') → quiet st st'.
Proof.
  intros H. exists []. split; [|done]. unfold emits. rewrite app_nil_r.
  revert H. unfold Lifecycle.entrypoint.
  repeat case_match; unfold bind, ret, log; simpl; by intros [= <- <-].
Qed.

(** *** The order of the layer calls *)

Lemma addOrReuse_call_layer e layer previousSHA :
  is_layer_call (addOrReuse_call e layer previousSHA) = true.
Proof. unfold addOrReuse_call. by destruct (String.eqb _ _). Qed.

Lemma launch_layer_call_layer e opts bp fsLayer :
  is_layer_call (launch_layer_call e opts bp fsLayer) = true.
Proof.
  unfold launch_layer_call. destruct (bpLayer.hasLocalContents _); [|done].
  apply addOrReuse_call_layer.
Qed.

Lemma slice_call_layer opts slice : is_layer_call (slice_call opts slice) = true.
Proof. unfold slice_call. by destruct (existsb _ _). Qed.

Lemma layer_calls_all cs :
  Forall (λ c, is_layer_call c = true) cs → layer_calls cs = cs.
Proof.
  unfold layer_calls. induction 1 as [|c cs Hc _ IH]; simpl; [done|].
  by rewrite Hc, IH.
Qed.

Lemma layer_calls_app a b : layer_calls (a ++ b) = layer_calls a ++ layer_calls b.
Proof. apply List.filter_app. Qed.

Lemma layer_calls_map {A} (f : A → ImageCall) (l : list A) :
  (∀ x, is_layer_call (f x) = true) → layer_calls (map f l) = map f l.
Proof.
  intros Hf. apply layer_calls_all, Forall_forall. intros c Hin%list_elem_of_In.
  apply in_map_iff in Hin as (x & <- & _). apply Hf.
Qed.

Lemma layer_calls_buildpacks e opts bps :
  layer_calls (flat_map (buildpack_calls e opts) bps)
  = flat_map (buildpack_calls e opts) bps.
Proof.
  induction bps as [|bp rest IH]; simpl; [done|].
  unfold layer_calls in *. rewrite List.filter_app, IH. f_equal.
  unfold Lifecycle.buildpack_calls. destruct (readBuildpackLayersDir _ _); [done|].
  apply layer_calls_map, launch_layer_call_layer.
Qed.

Lemma layer_calls_launcher e opts buildMD :
  layer_calls ([launcher_call e opts; config_call e opts]
               ++ process_types_calls e opts buildMD)
  = [launcher_call e opts; config_call e opts] ++ process_types_calls e opts buildMD.
Proof.
  apply layer_calls_all. repeat constructor; try apply addOrReuse_call_layer.
  unfold process_types_calls. destruct (_ && _); repeat constructor.
  apply addOrReuse_call_layer.
Qed.

(** C4: when [Export] succeeds, the layer calls that the working image
    received are, in this order: for each buildpack of the group, in group
    order, the calls for its launch layers in the order of its directory;
    the calls for the app slices in slice order; the launcher; the config
    layer; and the process-types layer, present exactly when the platform
    API is at least 0.4 and there is a process. *)
Theorem Export_layer_call_order e opts0 st report st' :
  Export e opts0 st = (inr report, st') →
  let opts :=
    with_dirs (filepath_Abs (LayersDir opts0)).1 (filepath_Abs (AppDir opts0)).1 opts0 in
  let buildMD :=
    (toml_DecodeFile_BuildMetadata
       (filepath_Join (filepath_Join (LayersDir opts) "config") "metadata.toml")).1 in
  ∃ cs,
    calls st' = calls st ++ cs ∧
    layer_calls cs
    = flat_map (buildpack_calls e opts) (Buildpacks e)
      ++ map (slice_call opts)
           (SliceLayers (Factory e) (AppDir opts) (BuildMetadata.Slices buildMD)).1
      ++ [launcher_call e opts; config_call e opts]
      ++ process_types_calls e opts buildMD.
Proof.
  intros H opts buildMD. subst opts buildMD. unfold Lifecycle.Export in H.
  destruct (filepath_Abs (LayersDir opts0)) as [layersDir [err|]]; [ret_in H|].
  destruct (filepath_Abs (AppDir opts0)) as [appDir [err|]]; [ret_in H|].
  simpl fst. set (opts := with_dirs layersDir appDir opts0) in *.
  bind_in H r0 s0 H0. apply emits_call in H0 as [H0 _].
  destruct (reply_err r0); [ret_in H|].
  destruct (toml_DecodeFile_BuildMetadata _) as [buildMD [err|]]; [ret_in H|].
  simpl fst.
  bind_in H r1 s1 H1. destruct r1 as [err|meta1]; [ret_in H|].
  apply addBuildpackLayers_from_ok in H1.
  bind_in H r2 s2 H2. destruct r2 as [err|meta2]; [ret_in H|].
  apply addAppLayers_ok in H2.
  bind_in H r3 s3 H3. destruct r3 as [err|meta3]; [ret_in H|].
  apply addLauncherLayers_ok in H3.
  bind_in H r4 s4 H4. apply setLabels_quiet in H4.
  destruct r4 as [[err|] buildMD']; [ret_in H|].
  bind_in H r5 s5 H5. apply setEnv_quiet in H5.
  destruct r5 as [err|]; [ret_in H|].
  bind_in H r6 s6 H6.
  assert (quiet s5 s6) as Q6.
  { destruct (api.AtLeast _ _); [|ret_in H6; apply quiet_refl].
    bind_in H6 u s H6a. apply quiet_log in H6a.
    unfold setWorkingDir in H6. bind_in H6 rw sw H6b. ret_in H6.
    apply quiet_call in H6b; [|done]. by eapply quiet_trans. }
  destruct r6 as [err|]; [ret_in H|].
  bind_in H r7 s7 H7. apply entrypoint_quiet in H7.
  destruct r7 as [ep [err|]]; [ret_in H|].
  bind_in H u8 s8 H8. apply quiet_log in H8.
  bind_in H r9 s9 H9. apply quiet_call in H9; [|done].
  destruct (reply_err r9); [ret_in H|].
  bind_in H r10 s10 H10. apply quiet_call in H10; [|done].
  destruct (reply_err r10); [ret_in H|].
  destruct (makeBuildReport e (LayersDir opts)) as [err|build]; [ret_in H|].
  bind_in H r11 s11 H11. unfold saveImage in H11.
  bind_in H11 rs ss H11a. ret_in H11. apply quiet_call in H11a; [|done].
  assert (st' = s11) as -> by (destruct (reply_err rs); by ret_in H).
  assert (quiet s3 s11) as (q & Hq & Hlq).
  { repeat (eapply quiet_trans; [eassumption|]). apply quiet_refl. }
  exists ([TopLayer] ++ flat_map (buildpack_calls e opts) (Buildpacks e)
          ++ map (slice_call opts)
               (SliceLayers (Factory e) (AppDir opts) (BuildMetadata.Slices buildMD)).1
          ++ ([launcher_call e opts; config_call e opts]
              ++ process_types_calls e opts buildMD)
          ++ q).
  split.
  - repeat (eapply emits_trans; [eassumption|]). done.
  - rewrite !layer_calls_app, Hlq, app_nil_r.
    rewrite layer_calls_buildpacks, (layer_calls_map _ _ (slice_call_layer opts)).
    rewrite <- (layer_calls_app [_; _]), layer_calls_launcher. done.
Qed.

(** *** Layers without local contents *)

Lemma exportLaunchLayers_app e opts bp before :
  ∀ after bpMD bpMD1 st0 st,
    exportLaunchLayers e opts bp before bpMD st0 = (inr bpMD1, st) →
    exportLaunchLayers e opts bp (before ++ after) bpMD st0
    = exportLaunchLayers e opts bp after bpMD1 st.
Proof.
  induction before as [|l before IH]; intros after bpMD bpMD1 st0 st H; simpl in *.
  - by ret_in H.
  - bind_in H r s1 H1. unfold bind at 1. rewrite H1.
    destruct r as [err|lmd]; [ret_in H|]. by apply IH.
Qed.

(** C6: at a launch layer without local contents, whose metadata was read
    and which the loop over the buildpack's layers has reached: with
    [cache=true] the export of the buildpack layers fails with
    [layer '<id>' is cache=true but has no contents]; otherwise, without
    an entry for the layer in the original metadata, it fails with
    [cannot reuse '<id>', previous image has no metadata for layer '<id>'];
    otherwise the image receives [ReuseLayer] with the original digest,
    and when the image accepts it the loop goes on with that digest
    recorded under the layer's name. *)
Theorem reuse_only_layer e opts bp bpDir fsLayer lmd before after rest meta bpMD st0 st :
  readBuildpackLayersDir (LayersDir opts) bp = inr bpDir →
  bpLayersDir.launchLayers bpDir = before ++ fsLayer :: after →
  bpLayer.read fsLayer = inr lmd →
  bpLayer.hasLocalContents fsLayer = false →
  let bpMD0 :=
    {| BuildpackLayersMetadata.ID := GroupBuildpack.ID bp;
       BuildpackLayersMetadata.Version := GroupBuildpack.Version bp;
       BuildpackLayersMetadata.Layers := ∅;
       BuildpackLayersMetadata.Store := bpLayersDir.store bpDir |} in
  exportLaunchLayers e opts bp before bpMD0 st0 = (inr bpMD, st) →
  let id := bpLayer.Identifier fsLayer in
  let original :=
    BuildpackLayersMetadata.Layers
      (LayersMetadata.MetadataForBuildpack (OrigMetadata opts) (GroupBuildpack.ID bp))
    !! bpLayer.name fsLayer in
  let export := addBuildpackLayers_from e opts (bp :: rest) meta st0 in
  match BuildpackLayerMetadata.Cache lmd, original with
  | true, _ =>
      export = (inl (Errorf ("layer '" +:+ id +:+ "' is cache=true but has no contents")), st) ∧
      contains ("layer '" +:+ id +:+ "' is cache=true but has no contents")
        "is cache=true but has no contents"
  | false, None =>
      let msg := "cannot reuse '" +:+ id
                 +:+ "', previous image has no metadata for layer '" +:+ id +:+ "'" in
      export = (inl (Errorf msg), st) ∧
      contains msg "cannot reuse" ∧
      contains msg "previous image has no metadata for layer"
  | false, Some orig =>
      let reuse := ReuseLayer (BuildpackLayerMetadata.SHA orig) in
      ∃ st',
        calls st' = calls st ++ [reuse] ∧
        match reply_err (WorkingImage opts (calls st) reuse) with
        | Some err => export = (inl (Wrap ("reusing layer: '" +:+ id +:+ "'") err), st')
        | None =>
            let recorded :=
              BuildpackLayersMetadata.set_layer (bpLayer.name fsLayer)
                (BuildpackLayerMetadata.with_SHA (BuildpackLayerMetadata.SHA orig) lmd)
                bpMD in
            exportLaunchLayers e opts bp (before ++ fsLayer :: after) bpMD0 st0
            = exportLaunchLayers e opts bp after recorded st' ∧
            BuildpackLayerMetadata.SHA
              <$> (BuildpackLayersMetadata.Layers recorded !! bpLayer.name fsLayer)
            = Some (BuildpackLayerMetadata.SHA orig)
        end
  end.
Proof.
  intros Hdir Hlayers Hread Hlocal bpMD0 Hbefore id original export.
  assert (Hloop : ∀ r st1,
            exportLaunchLayer e opts bp fsLayer st = (inl r, st1) →
            export = (inl r, st1)).
  { intros r st1 Hbody. subst export. simpl. rewrite Hdir, Hlayers.
    unfold bind at 1. fold bpMD0.
    rewrite (exportLaunchLayers_app _ _ _ _ _ _ _ _ _ Hbefore). simpl.
    unfold bind at 1. by rewrite Hbody. }
  assert (Hnext : ∀ r st1,
            exportLaunchLayer e opts bp fsLayer st = (inr r, st1) →
            exportLaunchLayers e opts bp (before ++ fsLayer :: after) bpMD0 st0
            = exportLaunchLayers e opts bp after
                (BuildpackLayersMetadata.set_layer (bpLayer.name fsLayer) r bpMD) st1).
  { intros r st1 Hbody.
    rewrite (exportLaunchLayers_app _ _ _ _ _ _ _ _ _ Hbefore). simpl.
    unfold bind at 1. by rewrite Hbody. }
  unfold exportLaunchLayer in Hloop, Hnext. rewrite Hread, Hlocal in Hloop, Hnext.
  fold original in Hloop, Hnext.
  destruct (BuildpackLayerMetadata.Cache lmd).
  - split; [by apply Hloop|].
    apply (contains_intro ("layer '" +:+ id +:+ "' ") _ "").
    by rewrite !append_assoc.
  - destruct original as [orig|].
    + eexists. split; [|].
      2:{ unfold bind, ret, log, call in Hloop, Hnext. simpl in Hloop, Hnext.
          destruct (reply_err _).
          - by apply Hloop.
          - split; [by apply Hnext|]. simpl. by rewrite lookup_insert_eq. }
      done.
    + split_and!; [by apply Hloop| |].
      * apply (contains_intro "" _
          (" '" +:+ id +:+ "', previous image has no metadata for layer '" +:+ id +:+ "'")).
        done.
      * apply (contains_intro ("cannot reuse '" +:+ id +:+ "', ") _
          (" '" +:+ id +:+ "'")).
        by rewrite !append_assoc.
Qed.

(** [Export] hands the error of the buildpack layers to its caller as it
    is. *)
Lemma Export_passes_buildpack_error e opts0 st layersDir appDir r0 st1 buildMD err st2 :
  filepath_Abs (LayersDir opts0) = (layersDir, None) →
  filepath_Abs (AppDir opts0) = (appDir, None) →
  call (WorkingImage opts0) TopLayer st = (r0, st1) →
  reply_err r0 = None →
  toml_DecodeFile_BuildMetadata
    (filepath_Join (filepath_Join layersDir "config") "metadata.toml") = (buildMD, None) →
  addBuildpackLayers e (with_dirs layersDir appDir opts0)
    {| LayersMetadata.App := []; LayersMetadata.Buildpacks := [];
       LayersMetadata.Config := LayerMetadata.zero;
       LayersMetadata.Launcher := LayerMetadata.zero;
       LayersMetadata.ProcessTypes := LayerMetadata.zero;
       LayersMetadata.RunImage :=
         {| RunImageMetadata.TopLayer := reply_value r0;
            RunImageMetadata.Reference := RunImageRef opts0 |};
       LayersMetadata.Stack := Stack opts0 |} st1 = (inl err, st2) →
  Export e opts0 st = (inl err, st2).
Proof.
  intros HA1 HA2 HT Hr0 HD HB. unfold Lifecycle.Export. rewrite HA1, HA2.
  unfold bind at 1. simpl WorkingImage. rewrite HT, Hr0.
  change (LayersDir (with_dirs layersDir appDir opts0)) with layersDir.
  rewrite HD. unfold bind at 1.
  change (RunImageRef (with_dirs layersDir appDir opts0)) with (RunImageRef opts0).
  change (Stack (with_dirs layersDir appDir opts0)) with (Stack opts0).
  by rewrite HB.
Qed.

End WithEnvironment.

End ExporterProofs.

(** ** The exporter on the scenario *)

Module ExporterExamples.
Import Lifecycle ExportScenario.

Example export_two_layers :
  (Export_with [l1; l2] st0).1
    = inr {| ExportReport.Build := []; ExportReport.Image := ImageReport.zero |} ∧
  layer_calls (calls (Export_with [l1; l2] st0).2)
    = [AddLayerWithDiffID "/layers/bp1/l1.tar.tar" "sha256:bp1:l1";
       ReuseLayer "sha256:old-l2";
       AddLayerWithDiffID "/workspace.tar" "sha256:app";
       AddLayerWithDiffID "/tmp/launcher.tar" "sha256:launcher";
       AddLayerWithDiffID "/layers/config.tar.tar" "sha256:config";
       AddLayerWithDiffID "/tmp/process-types.tar" "sha256:process-types"].
Proof. vm_compute. split; reflexivity. Qed.

Example export_cache_without_contents :
  (Export_with [l1; l3] st0).1
    = inl (Errorf "layer 'bp1:l3' is cache=true but has no contents").
Proof. vm_compute. reflexivity. Qed.

Example entrypoint_single_process :
  (entrypoint "/cnb/lifecycle/launcher" ProcessPath exporter
     {| launch.Processes := [web] |} "" "" st0).1 = ("/cnb/process/web", None).
Proof. vm_compute. reflexivity. Qed.

Example entrypoint_missing_default :
  (entrypoint "/cnb/lifecycle/launcher" ProcessPath
     {| Buildpacks := []; Factory := factory; PlatformAPI := api.v0_6 |}
     {| launch.Processes := [web] |} "bogus" "" st0).1
  = ("", Some (Errorf "tried to set bogus to default but it doesn't exist")).
Proof. vm_compute. reflexivity. Qed.

Lemma Export_layer_call_order_witness :
  let opts' := with_dirs (Abs (LayersDir opts)).1 (Abs (AppDir opts)).1 opts in
  let buildMD' :=
    (decode_buildMD
       (filepath_Join (filepath_Join (LayersDir opts') "config") "metadata.toml")).1 in
  ∃ cs,
    calls (Export_with [l1; l2] st0).2 = calls st0 ++ cs ∧
    layer_calls cs
    = flat_map (buildpack_calls (read_dir [l1; l2]) exporter opts') (Buildpacks exporter)
      ++ map (slice_call opts')
           (SliceLayers (Factory exporter) (AppDir opts') (BuildMetadata.Slices buildMD')).1
      ++ [launcher_call exporter opts'; config_call exporter opts']
      ++ process_types_calls exporter opts' buildMD'.
Proof.
  apply (ExporterProofs.Export_layer_call_order Abs ":" decode_buildMD decode_report
           (read_dir [l1; l2]) marshal marshal marshal "/cnb/lifecycle/launcher"
           "/cnb/process" "/cnb/lifecycle" ProcessPath EscapeID WithBuildpack MustParse
           exporter opts st0
           {| ExportReport.Build := []; ExportReport.Image := ImageReport.zero |}).
  vm_compute. reflexivity.
Defined.

Lemma addOrReuseLayer_by_digest_witness :
  (Layer.Digest launcher_rebuilt = "sha256:launcher" →
   ∃ st', addOrReuseLayer exporter image_ok launcher_in "sha256:launcher" st0
          = (("sha256:launcher",
              reply_err (image_ok (calls st0) (ReuseLayer "sha256:launcher"))), st') ∧
          calls st' = calls st0 ++ [ReuseLayer "sha256:launcher"]) ∧
  (Layer.Digest launcher_rebuilt ≠ "sha256:launcher" →
   let add := AddLayerWithDiffID (Layer.TarPath launcher_rebuilt)
                (Layer.Digest launcher_rebuilt) in
   ∃ st', addOrReuseLayer exporter image_ok launcher_in "sha256:launcher" st0
          = ((Layer.Digest launcher_rebuilt, reply_err (image_ok (calls st0) add)), st') ∧
          calls st' = calls st0 ++ [add]) ∧
  ("sha256:launcher" = "" → Layer.Digest launcher_rebuilt ≠ "" →
   ∃ st', (addOrReuseLayer exporter image_ok launcher_in "sha256:launcher" st0).2 = st' ∧
          calls st' = calls st0
                      ++ [AddLayerWithDiffID (Layer.TarPath launcher_rebuilt)
                            (Layer.Digest launcher_rebuilt)]).
Proof.
  apply (ExporterProofs.addOrReuseLayer_by_digest exporter image_ok launcher_in
           "sha256:launcher" launcher_rebuilt st0).
  reflexivity.
Defined.

(** C5, as the claim has it, fails: the factory hands back a layer without
    digest, the previous digest is empty, the two strings are equal, and
    the image receives [ReuseLayer] of the empty digest instead of an
    add. *)
Lemma addOrReuseLayer_empty_previous_digest_reused :
  DirLayer (Factory exporter_blank) (Layer.ID launcher_in) (Layer.TarPath launcher_in)
    = ({| Layer.ID := "launcher"; Layer.TarPath := "/tmp/launcher"; Layer.Digest := "" |},
       None) ∧
  (addOrReuseLayer exporter_blank image_ok launcher_in "" st0).1 = ("", None) ∧
  calls (addOrReuseLayer exporter_blank image_ok launcher_in "" st0).2 = [ReuseLayer ""].
Proof. vm_compute. split_and!; reflexivity. Qed.

Lemma reuse_only_layer_witness :
  let reuse := ReuseLayer "sha256:old-l2" in
  ∃ st',
    calls st' = calls after_l1 ++ [reuse] ∧
    exportLaunchLayers exporter opts bp1 ([l1] ++ l2 :: []) bpMD0 st0
    = exportLaunchLayers exporter opts bp1 []
        (BuildpackLayersMetadata.set_layer "l2"
           (BuildpackLayerMetadata.with_SHA "sha256:old-l2" (launch_md false)) bpMD_l1)
        st' ∧
    BuildpackLayerMetadata.SHA
      <$> (BuildpackLayersMetadata.Layers
             (BuildpackLayersMetadata.set_layer "l2"
                (BuildpackLayerMetadata.with_SHA "sha256:old-l2" (launch_md false))
                bpMD_l1)
           !! "l2")
    = Some "sha256:old-l2".
Proof.
  exact (ExporterProofs.reuse_only_layer (read_dir [l1; l2]) exporter opts bp1
           (bpDir [l1; l2]) l2 (launch_md false) [l1] [] [] LayersMetadata.zero bpMD_l1
           st0 after_l1 eq_refl eq_refl eq_refl eq_refl eq_refl).
Defined.

Example reuse_without_previous_metadata :
  (addBuildpackLayers (read_dir [l2]) exporter
     {| LayersDir := "/layers"; AppDir := "/workspace"; WorkingImage := image_ok;
        RunImageRef := "run"; OrigMetadata := LayersMetadata.zero; AdditionalNames := [];
        Launcher := {| Path := "/tmp/launcher"; Metadata := "" |};
        Stack := ""; Project := ""; DefaultProcessType := "" |}
     LayersMetadata.zero st0).1
  = inl (Errorf
      "cannot reuse 'bp1:l2', previous image has no metadata for layer 'bp1:l2'").
Proof. vm_compute. reflexivity. Qed.

End ExporterExamples.
(** ** More on the volume cache *)


Module CacheMore.
Import Cache.

Section WithPlatform.

Variable GOOS : string.
Variable CacheMetadata : Type.
Variable CacheMetadata_zero : CacheMetadata.
Variable json_Marshal : CacheMetadata → error + bytes.
Variable json_Unmarshal : bytes → option CacheMetadata.

Local Abbreviation diffIDPath := (Cache.diffIDPath GOOS).
Local Abbreviation AddLayerFile := (Cache.AddLayerFile GOOS).
Local Abbreviation AddLayer := (Cache.AddLayer GOOS).
Local Abbreviation ReuseLayer := (Cache.ReuseLayer GOOS).
Local Abbreviation HasLayer := (Cache.HasLayer GOOS).
Local Abbreviation RetrieveLayerFile := (Cache.RetrieveLayerFile GOOS).
Local Abbreviation RetrieveLayer := (Cache.RetrieveLayer GOOS).
Local Abbreviation SetMetadata := (Cache.SetMetadata CacheMetadata json_Marshal).
Local Abbreviation RetrieveMetadata :=
  (Cache.RetrieveMetadata CacheMetadata CacheMetadata_zero json_Unmarshal).
Local Abbreviation mutate := (Cache.mutate GOOS CacheMetadata json_Marshal).

(** *** Construction *)

(** X1: whatever the outcome, [NewVolumeCache] changes no file and leaves
    an existing [committed/] directory with the entries it had. *)
Theorem NewVolumeCache_keeps_committed root w :
  inodes (NewVolumeCache root w).2 = inodes w ∧
  ∀ entries, dirs w !! filepath_Join root "committed" = Some entries →
             dirs (NewVolumeCache root w).2 !! filepath_Join root "committed"
             = Some entries.
Proof.
  assert (Hsc : filepath_Join root "staging" ≠ filepath_Join root "committed").
  { intros H%filepath_Join_inj; done. }
  assert (Hbc : filepath_Join root "committed-backup" ≠ filepath_Join root "committed").
  { intros H%filepath_Join_inj; done. }
  unfold NewVolumeCache, setupStagingDir, bind, ret. simpl.
  destruct (os_Stat _ w) as [e0 wa] eqn:H0.
  apply os_Stat_inv in H0 as (-> & _).
  destruct e0; [done|].
  destruct (os_RemoveAll _ (tick w)) as [e1 wb] eqn:H1.
  apply os_RemoveAll_inv in H1 as (Hi1 & Hd1). simpl in Hi1, Hd1.
  assert (∀ entries, dirs w !! filepath_Join root "committed" = Some entries →
                     dirs wb !! filepath_Join root "committed" = Some entries) as K1.
  { intros entries He. destruct Hd1 as [[_ ->]|[_ ->]]; [done|].
    by rewrite lookup_delete_ne. }
  destruct e1; [by rewrite <- Hi1|].
  destruct (os_MkdirAll _ wb) as [e2 wc] eqn:H2.
  apply os_MkdirAll_inv in H2 as (Hi2 & Hd2).
  assert (∀ entries, dirs w !! filepath_Join root "committed" = Some entries →
                     dirs wc !! filepath_Join root "committed" = Some entries) as K2.
  { intros entries He%K1. destruct Hd2 as [[_ ->]|[_ [[_ ->]|[_ ->]]]]; try done.
    by rewrite lookup_insert_ne. }
  destruct e2; [simpl; split; [congruence|done]|].
  destruct (os_RemoveAll _ wc) as [e3 wd] eqn:H3.
  apply os_RemoveAll_inv in H3 as (Hi3 & Hd3).
  assert (∀ entries, dirs w !! filepath_Join root "committed" = Some entries →
                     dirs wd !! filepath_Join root "committed" = Some entries) as K3.
  { intros entries He%K2. destruct Hd3 as [[_ ->]|[_ ->]]; [done|].
    by rewrite lookup_delete_ne. }
  destruct e3; [simpl; split; [congruence|done]|].
  destruct (os_MkdirAll _ wd) as [e4 we] eqn:H4.
  apply os_MkdirAll_inv in H4 as (Hi4 & Hd4).
  assert (∀ entries, dirs w !! filepath_Join root "committed" = Some entries →
                     dirs we !! filepath_Join root "committed" = Some entries) as K4.
  { intros entries He%K3. destruct Hd4 as [[_ ->]|[_ [[_ ->]|[He' _]]]]; try done.
    congruence. }
  destruct e4; simpl; (split; [congruence|done]).
Qed.

(** X2: on a root that exists, and with nothing failing underneath,
    [NewVolumeCache] succeeds and opens a session: the instance is named
    after the root and not committed, [staging/] is empty whatever it held,
    the backup is gone whatever it held, [committed/] has the entries it
    had (none if it was missing), and every other directory is as before. *)
Theorem NewVolumeCache_opens_session root w :
  calm w →
  is_Some (dirs w !! root) →
  ∃ c w',
    NewVolumeCache root w = (inr c, w') ∧
    Name c = root ∧ committed c = false ∧ constructed c ∧
    calm w' ∧ in_session c w' ∧
    dirs w' !! stagingDir c = Some ∅ ∧
    dirs w' !! committedDir c = Some (default ∅ (dirs w !! committedDir c)) ∧
    (∀ d, d ≠ stagingDir c → d ≠ backupDir c → d ≠ committedDir c →
          dirs w' !! d = dirs w !! d).
Proof.
  intros Hc Hroot.
  assert (Hsc : filepath_Join root "staging" ≠ filepath_Join root "committed").
  { intros H%filepath_Join_inj; done. }
  assert (Hbc : filepath_Join root "committed-backup" ≠ filepath_Join root "committed").
  { intros H%filepath_Join_inj; done. }
  assert (Hbs : filepath_Join root "committed-backup" ≠ filepath_Join root "staging").
  { intros H%filepath_Join_inj; done. }
  unfold NewVolumeCache, setupStagingDir, bind, ret. simpl.
  rewrite os_Stat_calm by done. simpl. rewrite bool_decide_eq_true_2 by done.
  rewrite os_RemoveAll_calm by done.
  set (w1 := set_dirs (delete (filepath_Join root "staging")) w).
  unfold os_MkdirAll, bind, ret. rewrite (syscall_calm _ w1) by done.
  replace (dirs w1 !! filepath_Join root "staging") with (@None (gmap string nat))
    by (symmetry; apply lookup_delete_eq).
  simpl.
  set (w2 := set_dirs (insert (filepath_Join root "staging") ∅) w1).
  rewrite (os_RemoveAll_calm _ w2) by done.
  set (w3 := set_dirs (delete (filepath_Join root "committed-backup")) w2).
  rewrite (syscall_calm _ w3) by done.
  assert (dirs w3 !! filepath_Join root "committed"
          = dirs w !! filepath_Join root "committed") as Hcd.
  { simpl. by rewrite lookup_delete_ne, lookup_insert_ne, lookup_delete_ne. }
  assert (dirs w3 !! filepath_Join root "staging" = Some ∅) as Hsd.
  { simpl. by rewrite lookup_delete_ne, lookup_insert_eq. }
  assert (dirs w3 !! filepath_Join root "committed-backup" = None) as Hbd.
  { simpl. by rewrite lookup_delete_eq. }
  assert (∀ d, d ≠ filepath_Join root "staging" →
               d ≠ filepath_Join root "committed-backup" →
               dirs w3 !! d = dirs w !! d) as Hother.
  { intros d H1 H2. simpl. by rewrite lookup_delete_ne, lookup_insert_ne, lookup_delete_ne. }
  destruct (dirs w3 !! filepath_Join root "committed") as [entries|] eqn:He; simpl.
  - eexists _, _. split; [done|]. simpl. rewrite <- Hcd. simpl.
    split_and!; try done.
    intros d H1 H2 _. by apply Hother.
  - eexists _, _. split; [done|]. simpl. rewrite <- Hcd. simpl.
    split_and!; try done.
    + unfold in_session. cbn [stagingDir committedDir backupDir dirs set_dirs].
      rewrite lookup_insert_ne, lookup_insert_eq, lookup_insert_ne by done.
      split_and!; eauto.
    + by rewrite lookup_insert_ne.
    + by rewrite lookup_insert_eq.
    + intros d H1 H2 H3. rewrite lookup_insert_ne by done. by apply Hother.
Qed.

(** *** Metadata *)

Lemma SetMetadata_ok_content c m w w1 :
  SetMetadata c m w = (None, w1) →
  ∃ data, json_Marshal m = inr data ∧
          file_content (FilePath (stagingDir c) MetadataLabel) w1 = Some data.
Proof.
  unfold Cache.SetMetadata. destruct (committed c); [done|].
  unfold bind, ret.
  destruct (os_Create _ w) as [[err|fh] wa] eqn:Hc; [done|].
  apply os_Create_inv in Hc as (d & name & entries & [= <- <-] & Hent & Hd & Hi & _).
  destruct (json_Marshal m) as [err|data]; [done|].
  destruct (file_Write fh data wa) as [e wb] eqn:Hw.
  apply file_Write_inv in Hw as (Hd' & n & Hi' & Hfull).
  destruct e; [done|]. intros [= <-]. exists data. split; [done|].
  unfold file_content. simpl. rewrite Hd', Hd, lookup_insert_eq. simpl.
  rewrite lookup_insert_eq. simpl.
  by rewrite Hi', lookup_insert_eq, Hi, lookup_insert_eq, (Hfull eq_refl).
Qed.

Lemma RetrieveMetadata_calm c w data :
  calm w →
  file_content (FilePath (committedDir c) MetadataLabel) w = Some data →
  RetrieveMetadata c w
  = (match json_Unmarshal data with Some m => m | None => CacheMetadata_zero end,
     None, w).
Proof.
  intros Hc Hf. unfold Cache.RetrieveMetadata, bind, ret.
  rewrite os_Open_calm by done.
  unfold file_content in Hf.
  destruct (lookup_ino _ w) as [i|]; [|done]. simpl in Hf.
  rewrite file_ReadAll_calm by done. rewrite Hf. simpl.
  by destruct (json_Unmarshal data).
Qed.

(** X3: a document that the encoding takes there and back is read again
    after the commit: when [SetMetadata] and then [Commit] return nil,
    [RetrieveMetadata], on any instance over the same [committed/] and
    with nothing failing underneath, returns the document that was set. *)
Theorem metadata_round_trip c m data w w1 c' w2 c2 :
  constructed c →
  json_Marshal m = inr data →
  json_Unmarshal data = Some m →
  SetMetadata c m w = (None, w1) →
  Commit c w1 = (None, c', w2) →
  committedDir c2 = committedDir c →
  calm w2 →
  RetrieveMetadata c2 w2 = (m, None, w2).
Proof.
  intros Hc Hm Hu Hs HC Hdir Hcalm.
  apply SetMetadata_ok_content in Hs as (data' & Hm' & Hf).
  assert (data' = data) as -> by congruence.
  destruct (CacheProofs.Commit_ok_inv c w1 c' w2 Hc HC) as (_ & _ & _ & Hfc & _).
  rewrite (RetrieveMetadata_calm c2 w2 data); [by rewrite Hu|done|].
  by rewrite Hdir, Hfc.
Qed.

Lemma os_Create_pending d name entries w :
  pending w = None → dirs w !! d = Some entries →
  ∃ fh w1,
    os_Create (FilePath d name) w = (inr fh, w1) ∧
    dirs w1 = <[d := <[name := fh]> entries]> (dirs w) ∧
    inodes w1 = <[fh := []]> (inodes w) ∧
    oracle w1 = tail (oracle w) ∧
    (entries !! name = None → inodes w !! fh = None).
Proof.
  intros Hp Hd. unfold os_Create, syscall, bind, next_fault, ret. rewrite Hp. simpl.
  rewrite Hd. destruct (entries !! name) as [i|] eqn:Hn.
  - eexists _, _. split_and!; try done. simpl.
    by rewrite (insert_id entries), insert_id.
  - eexists _, _. split_and!; try done. intros _.
    apply not_elem_of_dom, is_fresh.
Qed.

(** X4: when the encoder refuses the document, [SetMetadata] has already
    created the metadata file: it returns the encoder's error wrapped as
    "marshalling metadata" and leaves an empty metadata file in
    [staging/], whatever the file held before. *)
Theorem SetMetadata_marshal_failure c m err w :
  committed c = false →
  json_Marshal m = inl err →
  pending w = None →
  is_Some (dirs w !! stagingDir c) →
  ∃ w1,
    SetMetadata c m w = (Some (Wrap "marshalling metadata" err), w1) ∧
    file_content (FilePath (stagingDir c) MetadataLabel) w1 = Some [].
Proof.
  intros Hcm Hm Hp [entries Hd]. unfold Cache.SetMetadata. rewrite Hcm.
  unfold bind, ret.
  destruct (os_Create_pending (stagingDir c) MetadataLabel entries w Hp Hd)
    as (fh & w1 & -> & Hd1 & Hi1 & _).
  rewrite Hm. eexists. split; [done|].
  unfold file_content. simpl. rewrite Hd1, lookup_insert_eq. simpl.
  rewrite lookup_insert_eq. simpl. by rewrite Hi1, lookup_insert_eq.
Qed.

(** *** Reading while a session is open *)

Lemma HasLayer_depends c d wa wb :
  cleaned (committedDir c) → plain_diffID d = true →
  pending wa = pending wb →
  dirs wa !! committedDir c = dirs wb !! committedDir c →
  (HasLayer c d wa).1 = (HasLayer c d wb).1 ∧
  (RetrieveLayerFile c d wa).1 = (RetrieveLayerFile c d wb).1 ∧
  (Exists c wa).1 = (Exists c wb).1.
Proof.
  intros Hcl Hpl Hp Hd.
  destruct (CacheOps.diffIDPath_file GOOS d Hpl) as (name & _ & Hf).
  unfold Cache.HasLayer, Cache.RetrieveLayerFile, Cache.Exists. rewrite (Hf _ Hcl).
  unfold os_Stat, syscall, bind, next_fault, ret.
  rewrite Hp. destruct (pending wb); simpl; [done|].
  rewrite Hd. split_and!; by destruct (bool_decide _).
Qed.

(** X5: what is staged is not seen by the reading side: diffIDs being
    plain names (no path separator), whatever a mutating operation does
    and returns, [HasLayer], [RetrieveLayerFile] and [Exists] answer
    afterwards as they would have before, under the same schedule of
    failures. *)
Theorem staged_layers_invisible c op w r w1 d o :
  constructed c →
  plain_op CacheMetadata op = true →
  plain_diffID d = true →
  mutate c op w = (r, w1) →
  (HasLayer c d (set_oracle o w1)).1 = (HasLayer c d (set_oracle o w)).1 ∧
  (RetrieveLayerFile c d (set_oracle o w1)).1
    = (RetrieveLayerFile c d (set_oracle o w)).1 ∧
  (Exists c (set_oracle o w1)).1 = (Exists c (set_oracle o w)).1.
Proof.
  intros Hc Hop Hpl Hm.
  destruct (CacheProofs.constructed_cleaned c Hc) as (Hcs & Hcc & _).
  apply HasLayer_depends; [done..|]. simpl.
  destruct (CacheProofs.constructed_distinct c Hc) as (Hsc & _ & _).
  destruct (committed c) eqn:Hcm.
  - rewrite (CacheOps.mutate_committed GOOS CacheMetadata json_Marshal c op w Hcm) in Hm.
    by simplify_eq.
  - apply CacheOps.mutate_writes_through_staging in Hm as [Hd _]; [|done..].
    apply Hd. congruence.
Qed.

(** X6: [HasLayer] and [RetrieveLayerFile] agree on every state: one says
    yes exactly when the other returns the path of the layer under
    [committed/]; a layer that is not there is "not found" for the one and
    a plain no for the other; any other failure is an error for both. *)
Theorem HasLayer_RetrieveLayerFile_agree c d w :
  match (HasLayer c d w).1, (RetrieveLayerFile c d w).1 with
  | (true, None), inr p => p = diffIDPath (committedDir c) d ∧ path_exists p w = true
  | (false, None), inl (Wrap msg (SysErr ENOENT)) =>
      msg = "layer with SHA '" +:+ d +:+ "' not found" ∧
      path_exists (diffIDPath (committedDir c) d) w = false
  | (false, Some e), inl e' =>
      e' = e ∧ ∃ io, e = Wrap ("retrieving layer with SHA '" +:+ d +:+ "'")
                              (SysErr (EENV io))
  | _, _ => False
  end.
Proof.
  unfold Cache.HasLayer, Cache.RetrieveLayerFile, os_Stat, syscall, bind, next_fault, ret.
  destruct (pending w) as [flt|]; [simpl; eauto|].
  cbn beta iota. rewrite !path_exists_tick.
  by destruct (path_exists _ w) eqn:He.
Qed.

(** *** Committing *)

Lemma Commit_calm c w staged kept :
  constructed c → committed c = false → calm w →
  dirs w !! stagingDir c = Some staged →
  dirs w !! committedDir c = Some kept →
  dirs w !! backupDir c = None →
  ∃ w',
    Commit c w = (None, mark_committed c, w') ∧ calm w' ∧
    inodes w' = inodes w ∧
    dirs w' = delete (backupDir c)
                (<[committedDir c := staged]>
                   (delete (stagingDir c)
                      (<[backupDir c := kept]> (delete (committedDir c) (dirs w))))).
Proof.
  intros Hc Hcm Hcalm Hs Hk Hb.
  destruct (CacheProofs.constructed_distinct c Hc) as (Hsc & Hbc & Hbs).
  unfold Commit. rewrite Hcm. unfold bind, ret. simpl.
  rewrite (os_Rename_calm _ _ kept w) by done.
  set (w0 := set_dirs _ w).
  rewrite (os_Rename_calm _ _ staged w0); try done.
  - rewrite os_RemoveAll_calm by done. eexists. split; [done|]. done.
  - simpl. by rewrite lookup_insert_ne, lookup_delete_ne.
  - simpl. by rewrite lookup_insert_ne, lookup_delete_eq.
Qed.

(** X7: in an open session and with nothing failing underneath, [Commit]
    returns nil: afterwards [committed/] is what [staging/] was, there is
    neither a staging nor a backup directory, no file has changed and
    every directory outside the cache root's three is as before. *)
Theorem Commit_succeeds c w :
  constructed c → committed c = false → calm w → in_session c w →
  ∃ w',
    Commit c w = (None, mark_committed c, w') ∧
    dirs w' !! committedDir c = dirs w !! stagingDir c ∧
    dirs w' !! stagingDir c = None ∧
    dirs w' !! backupDir c = None ∧
    inodes w' = inodes w ∧
    ∀ d, d ≠ stagingDir c → d ≠ backupDir c → d ≠ committedDir c →
         dirs w' !! d = dirs w !! d.
Proof.
  intros Hc Hcm Hcalm ([staged Hs] & [kept Hk] & Hb).
  destruct (CacheProofs.constructed_distinct c Hc) as (Hsc & Hbc & Hbs).
  destruct (Commit_calm c w staged kept) as (w' & -> & _ & Hi & Hd); try done.
  exists w'. rewrite Hd. split_and!; try done.
  - by rewrite lookup_delete_ne, lookup_insert_eq.
  - by rewrite lookup_delete_ne, lookup_insert_ne, lookup_delete_eq.
  - by rewrite lookup_delete_eq.
  - intros d H1 H2 H3.
    by rewrite lookup_delete_ne, lookup_insert_ne, lookup_delete_ne,
      lookup_insert_ne, lookup_delete_ne.
Qed.

(** X8: [Commit] does not create [committed/]: when the directory is
    missing the first rename fails, [Commit] returns "backing up cache",
    the file system is as it was, [staging/] included, and the instance
    is committed all the same. *)
Theorem Commit_without_committed_dir c w :
  committed c = false →
  dirs w !! committedDir c = None →
  ∃ err w',
    Commit c w = (Some (Wrap "backing up cache" (SysErr err)), mark_committed c, w') ∧
    dirs w' = dirs w ∧ inodes w' = inodes w ∧
    ∀ w2, Commit (mark_committed c) w2 = (Some errCacheCommitted, mark_committed c, w2).
Proof.
  intros Hcm Hnone. unfold Commit at 1. rewrite Hcm. unfold bind, ret. simpl.
  destruct (os_Rename _ _ w) as [e w0] eqn:Hr.
  apply os_Rename_inv in Hr as (Hi & [[[err ->] Hd]|(_ & entries & He & _)]).
  - eexists _, _. split_and!; done.
  - congruence.
Qed.

(** *** Layers *)

(** X9: a layer that [committed/] does not hold cannot be reused:
    [ReuseLayer] returns an error wrapped as "reusing layer (<diffID>)",
    which is never the tolerated "exists", and nothing changes. *)
Theorem ReuseLayer_missing c d w :
  committed c = false →
  lookup_ino (diffIDPath (committedDir c) d) w = None →
  ∃ err w1,
    ReuseLayer c d w = (Some (Wrap ("reusing layer (" +:+ d +:+ ")") (SysErr err)), w1) ∧
    os_IsExist (SysErr err) = false ∧
    dirs w1 = dirs w ∧ inodes w1 = inodes w.
Proof.
  intros Hcm Hnone. unfold Cache.ReuseLayer. rewrite Hcm. unfold bind, ret.
  destruct (os_Link _ _ w) as [e w1] eqn:Hl.
  apply os_Link_inv in Hl as (Hi & Hl). destruct e as [err|].
  - destruct Hl as (Hd & Hne & Hex).
    assert (os_IsExist (SysErr err) = false) as Hno.
    { destruct err; try done. destruct Hex as [[i Hi'] _]; [done|]. congruence. }
    rewrite Hno. simpl. eauto 10.
  - destruct Hl as (i & ? & ? & ? & Ho & _). congruence.
Qed.

(** X10: [AddLayerFile] with a tarball path that names nothing, for a
    layer that is not staged yet, returns an error wrapped as
    "caching layer (<diffID>)" and creates nothing. *)
Theorem AddLayerFile_missing_source c tarPath d w :
  committed c = false →
  path_exists tarPath w = false →
  lookup_ino (diffIDPath (stagingDir c) d) w = None →
  ∃ err w1,
    AddLayerFile c tarPath d w
    = (Some (Wrap ("caching layer (" +:+ d +:+ ")") (SysErr err)), w1) ∧
    dirs w1 = dirs w ∧ inodes w1 = inodes w.
Proof.
  intros Hcm Hsrc Hst. unfold Cache.AddLayerFile. rewrite Hcm. unfold bind, ret.
  destruct (os_Stat _ w) as [e w0] eqn:Hs.
  apply os_Stat_inv in Hs as (-> & Hex & _).
  destruct e as [err0|].
  2:{ specialize (Hex eq_refl).
      destruct (CacheOps.diffIDPath_path GOOS (stagingDir c) d) as (dir & name & Hp).
      rewrite Hp in *. apply bool_decide_eq_true in Hex.
      rewrite Hst in Hex. by destruct Hex. }
  unfold copyFile, bind, ret.
  destruct (os_Open tarPath (tick w)) as [[err|fh] w1] eqn:Ho.
  - apply os_Open_inv in Ho as [-> _]. eauto.
  - apply os_Open_inv in Ho as [_ Ho]. exfalso. destruct fh as [i|dir].
    + rewrite lookup_ino_tick in Ho. destruct tarPath as [?|dir name]; [done|].
      unfold path_exists in Hsrc. rewrite Ho in Hsrc.
      apply bool_decide_eq_false in Hsrc. apply Hsrc. eauto.
    + destruct Ho as [-> Ho]. simpl in Hsrc.
      apply bool_decide_eq_false in Hsrc. by apply Hsrc.
Qed.

(** X11: [AddLayer] replaces what is staged: when it returns nil for a
    stream, the staged file of the layer holds the bytes of the stream
    and nothing else, whatever it held before. *)
Theorem AddLayer_overwrites c data d w w1 :
  AddLayer c (Stream data) d w = (None, w1) →
  file_content (diffIDPath (stagingDir c) d) w1 = Some data.
Proof.
  unfold Cache.AddLayer. destruct (committed c); [done|]. unfold bind, ret.
  destruct (CacheOps.diffIDPath_path GOOS (stagingDir c) d) as (dir & name & ->).
  destruct (os_Create _ w) as [[err|fh] wa] eqn:Hc; [done|].
  apply os_Create_inv in Hc as (dir' & name' & entries & [= <- <-] & Hent & Hd & Hi & _).
  destruct (io_Copy fh (Stream data) wa) as [e wb] eqn:Hw.
  destruct e; [done|]. apply io_Copy_ok in Hw as (Hd' & Hi').
  intros [= <-].
  unfold file_content. simpl. rewrite Hd', Hd, lookup_insert_eq. simpl.
  rewrite lookup_insert_eq. simpl.
  by rewrite Hi', lookup_insert_eq, Hi, lookup_insert_eq.
Qed.

(** X12: a layer goes there and back: in an open session, with nothing
    failing underneath, [AddLayerFile] of a tarball for a layer that is
    not staged yet and whose diffID is a plain name (no path separator)
    returns nil, [Commit] returns nil, and then [HasLayer] says yes and
    [RetrieveLayer] opens a regular file that reads as the tarball did. *)
Theorem layer_round_trip c tarPath d data w :
  constructed c → committed c = false → calm w → in_session c w →
  plain_diffID d = true →
  lookup_ino (diffIDPath (stagingDir c) d) w = None →
  file_content tarPath w = Some data →
  ∃ w1 w2 fh,
    AddLayerFile c tarPath d w = (None, w1) ∧
    Commit c w1 = (None, mark_committed c, w2) ∧
    HasLayer c d w2 = (true, None, w2) ∧
    RetrieveLayer c d w2 = (inr (FileReader (RegularFile fh)), w2) ∧
    reader_bytes (FileReader (RegularFile fh)) w2 = data.
Proof.
  intros Hc Hcm Hcalm ([staged Hs] & [kept Hk] & Hb) Hpl Hnew Hsrc.
  destruct (CacheProofs.constructed_distinct c Hc) as (Hsc & Hbc & Hbs).
  destruct (CacheProofs.constructed_cleaned c Hc) as (Hcs & Hcc & _).
  destruct (CacheOps.diffIDPath_file GOOS d Hpl) as (name & _ & Hf).
  pose proof (Hf _ Hcs) as Hps. pose proof (Hf _ Hcc) as Hpc.
  assert (staged !! name = None) as Hn.
  { rewrite Hps in Hnew. simpl in Hnew. by rewrite Hs in Hnew. }
  destruct (CacheOps.AddLayerFile_fresh GOOS c tarPath d w _ _ staged data
              Hcm Hcalm Hps Hs Hn Hsrc) as (fh & w1 & HA & Hcalm1 & Hd1 & Hi1 & Hfr).
  destruct (Commit_calm c w1 (<[name := fh]> staged) kept) as (w2 & HC & Hcalm2 & Hi2 & Hd2);
    try done.
  { by rewrite Hd1, lookup_insert_eq. }
  { by rewrite Hd1, lookup_insert_ne. }
  { by rewrite Hd1, lookup_insert_ne. }
  assert (lookup_ino (FilePath (committedDir c) name) w2 = Some fh) as Hfh.
  { simpl. rewrite Hd2, lookup_delete_ne, lookup_insert_eq by done. simpl.
    by rewrite lookup_insert_eq. }
  exists w1, w2, fh. split_and!; try done.
  - unfold Cache.HasLayer, bind, ret. rewrite os_Stat_calm by done.
    rewrite Hpc. unfold path_exists. rewrite Hfh.
    by rewrite bool_decide_eq_true_2.
  - unfold Cache.RetrieveLayer, Cache.RetrieveLayerFile, bind, ret.
    rewrite os_Stat_calm by done.
    rewrite Hpc. unfold path_exists. rewrite Hfh.
    rewrite bool_decide_eq_true_2 by done. simpl.
    rewrite os_Open_calm by done. by rewrite Hfh.
  - simpl. by rewrite Hi2, Hi1, lookup_insert_eq.
Qed.

(** X13: reusing is linking, not copying: in an open session, with
    nothing failing underneath, [ReuseLayer] of a committed layer that is
    not staged yet and whose diffID is a plain name (no path separator),
    and then [Commit], return nil; the layer is in [committed/] again, it
    is the very file it was, and no file of the file system has changed. *)
Theorem ReuseLayer_carries_over c d i w :
  constructed c → committed c = false → calm w → in_session c w →
  plain_diffID d = true →
  lookup_ino (diffIDPath (committedDir c) d) w = Some i →
  lookup_ino (diffIDPath (stagingDir c) d) w = None →
  ∃ w1 w2,
    ReuseLayer c d w = (None, w1) ∧
    Commit c w1 = (None, mark_committed c, w2) ∧
    lookup_ino (diffIDPath (committedDir c) d) w2 = Some i ∧
    inodes w2 = inodes w.
Proof.
  intros Hc Hcm Hcalm ([staged Hs] & [kept Hk] & Hb) Hpl Hold Hnew.
  destruct (CacheProofs.constructed_distinct c Hc) as (Hsc & Hbc & Hbs).
  destruct (CacheProofs.constructed_cleaned c Hc) as (Hcs & Hcc & _).
  destruct (CacheOps.diffIDPath_file GOOS d Hpl) as (name & _ & Hf).
  pose proof (Hf _ Hcs) as Hps. pose proof (Hf _ Hcc) as Hpc.
  assert (staged !! name = None) as Hn.
  { rewrite Hps in Hnew. simpl in Hnew. by rewrite Hs in Hnew. }
  rewrite (CacheOps.ReuseLayer_fresh GOOS c d w _ _ staged i Hcm Hcalm Hps Hs Hn Hold).
  set (w1 := set_dirs _ w).
  destruct (Commit_calm c w1 (<[name := i]> staged) kept) as (w2 & HC & _ & Hi & Hd);
    try done.
  { simpl. by rewrite lookup_insert_eq. }
  { simpl. by rewrite lookup_insert_ne. }
  { simpl. by rewrite lookup_insert_ne. }
  exists w1, w2. split_and!; try done.
  rewrite Hpc. simpl. rewrite Hd, lookup_delete_ne, lookup_insert_eq by done. simpl.
  by rewrite lookup_insert_eq.
Qed.

(** *** File names *)

Lemma strip_prefix_append p s : strip_prefix p (p +:+ s) = Some s.
Proof.
  induction p as [|a p IH]; [done|].
  change (String a p +:+ s) with (String a (p +:+ s)). simpl.
  by rewrite Ascii.eqb_refl.
Qed.

(** X14: off Windows the file of a layer is named after the whole diffID,
    so two different diffIDs that are plain names (no path separator)
    never share a file. *)
Theorem diffIDPath_inj base d1 d2 :
  GOOS ≠ "windows" →
  plain_diffID d1 = true → plain_diffID d2 = true →
  d1 ≠ d2 →
  diffIDPath base d1 ≠ diffIDPath base d2.
Proof.
  intros HG%String.eqb_neq H1%plain_diffID_tar H2%plain_diffID_tar Hne.
  unfold Cache.diffIDPath. rewrite HG, !file_path_Join by done.
  intros [= H]. by apply append_inj_r in H.
Qed.

(** X15: on Windows a leading [sha256:] is dropped from the diffID, once,
    before the path is joined: the file of [sha256:<d>] is the one that
    [<d>.tar] names from the base, [<base>/<d>.tar] when [<d>] is a plain
    name and the base a cleaned path; it is also the file of the diffID
    [<d>] when that one has no such prefix itself. *)
Theorem diffIDPath_windows base d :
  GOOS = "windows" →
  diffIDPath base ("sha256:" +:+ d) = file_path (filepath_Join base (d +:+ ".tar")) ∧
  (plain_diffID d = true → cleaned base →
   diffIDPath base ("sha256:" +:+ d) = FilePath base (d +:+ ".tar")) ∧
  (strip_prefix "sha256:" d = None →
   diffIDPath base d = diffIDPath base ("sha256:" +:+ d)).
Proof.
  intros ->. unfold Cache.diffIDPath, strings_TrimPrefix.
  rewrite String.eqb_refl, strip_prefix_append. split_and!; [done| |by intros ->].
  intros Hpl%plain_diffID_tar Hcl. simpl. by rewrite file_path_Join, Hcl.
Qed.

End WithPlatform.

End CacheMore.

(** ** The volume cache on concrete file systems *)

Module CacheMoreExamples.
Import Cache Scenario MoreScenario CrashScenario.

Local Abbreviation linux := "linux"%string.

(** Construction over a populated root keeps the committed layer. *)
Lemma NewVolumeCache_keeps_committed_witness :
  dirs (NewVolumeCache "/cache" world_fresh).2 !! "/cache/committed"
  = Some {[ "sha256:A.tar" := 1 ]}.
Proof.
  exact (proj2 (CacheMore.NewVolumeCache_keeps_committed "/cache" world_fresh) _ eq_refl).
Defined.

(** After a commit that stopped half way the old generation is in the
    backup: the next construction removes it and starts from an empty
    [committed/]. *)
Lemma NewVolumeCache_opens_session_witness :
  ∃ c w',
    NewVolumeCache "/cache" world_crashed = (inr c, w') ∧
    Name c = "/cache" ∧ committed c = false ∧ constructed c ∧
    calm w' ∧ in_session c w' ∧
    dirs w' !! stagingDir c = Some ∅ ∧
    dirs w' !! committedDir c = Some (default ∅ (dirs world_crashed !! committedDir c)) ∧
    (∀ d, d ≠ stagingDir c → d ≠ backupDir c → d ≠ committedDir c →
          dirs w' !! d = dirs world_crashed !! d).
Proof.
  apply (CacheMore.NewVolumeCache_opens_session "/cache" world_crashed).
  - reflexivity.
  - eexists. vm_compute. reflexivity.
Defined.

Example construction_without_root :
  (NewVolumeCache "/cache" world_empty).1 = inl (SysErr ENOENT).
Proof. by vm_compute. Qed.

Example crashed_commit_loses_the_cache :
  dirs (NewVolumeCache "/cache" world_crashed).2 !! "/cache/committed" = Some ∅ ∧
  dirs (NewVolumeCache "/cache" world_crashed).2 !! "/cache/committed-backup" = None.
Proof. by vm_compute. Qed.

Lemma metadata_round_trip_witness :
  RetrieveMetadata Doc Doc_zero Doc_Unmarshal cache0
    (Commit cache0 (SetMetadata Doc Doc_Marshal cache0 doc world0).2).2
  = (doc, None, (Commit cache0 (SetMetadata Doc Doc_Marshal cache0 doc world0).2).2).
Proof.
  apply (CacheMore.metadata_round_trip Doc Doc_zero Doc_Marshal Doc_Unmarshal
           cache0 doc doc world0 (SetMetadata Doc Doc_Marshal cache0 doc world0).2
           (mark_committed cache0)
           (Commit cache0 (SetMetadata Doc Doc_Marshal cache0 doc world0).2).2 cache0).
  - repeat split.
  - reflexivity.
  - reflexivity.
  - vm_refl.
  - vm_refl.
  - reflexivity.
  - vm_refl.
Defined.

Lemma SetMetadata_marshal_failure_witness :
  ∃ w1,
    SetMetadata Doc Marshal_refuses cache0 doc world0
    = (Some (Wrap "marshalling metadata" (Foreign "json: unsupported value")), w1) ∧
    file_content (FilePath "/cache/staging" MetadataLabel) w1 = Some [].
Proof.
  apply (CacheMore.SetMetadata_marshal_failure Doc Marshal_refuses cache0 doc
           (Foreign "json: unsupported value") world0).
  - reflexivity.
  - reflexivity.
  - reflexivity.
  - eexists. vm_compute. reflexivity.
Defined.

Lemma staged_layers_invisible_witness :
  (HasLayer linux cache0 "sha256:B"
     (set_oracle [] (AddLayer linux cache0 (Stream layerB) "sha256:B" world0).2)).1
  = (HasLayer linux cache0 "sha256:B" (set_oracle [] world0)).1 ∧
  (RetrieveLayerFile linux cache0 "sha256:B"
     (set_oracle [] (AddLayer linux cache0 (Stream layerB) "sha256:B" world0).2)).1
  = (RetrieveLayerFile linux cache0 "sha256:B" (set_oracle [] world0)).1 ∧
  (Exists cache0 (set_oracle [] (AddLayer linux cache0 (Stream layerB) "sha256:B" world0).2)).1
  = (Exists cache0 (set_oracle [] world0)).1.
Proof.
  apply (CacheMore.staged_layers_invisible linux Doc Doc_Marshal cache0
           (DoAddLayer Doc (Stream layerB) "sha256:B") world0
           (AddLayer linux cache0 (Stream layerB) "sha256:B" world0).1).
  - repeat split.
  - reflexivity.
  - reflexivity.
  - vm_refl.
Defined.

(** A diffID that climbs out of [staging/] is seen at once: the
    [AddLayer] below writes [committed/sha256:Z.tar], and [HasLayer] of
    [sha256:Z] turns from no to yes before any commit. *)
Example layer_outside_staging_seen :
  let w1 := (AddLayer linux cache0 (Stream layerB) "../committed/sha256:Z" world0).2 in
  plain_diffID "../committed/sha256:Z" = false ∧
  (AddLayer linux cache0 (Stream layerB) "../committed/sha256:Z" world0).1 = None ∧
  (HasLayer linux cache0 "sha256:Z" world0).1 = (false, None) ∧
  (HasLayer linux cache0 "sha256:Z" w1).1 = (true, None).
Proof. cbv zeta. split_and!; vm_refl. Qed.

Example staged_layer_not_seen :
  is_Some (lookup_ino (FilePath "/cache/staging" "sha256:B.tar")
             (AddLayer linux cache0 (Stream layerB) "sha256:B" world0).2) ∧
  (HasLayer linux cache0 "sha256:B"
     (AddLayer linux cache0 (Stream layerB) "sha256:B" world0).2).1 = (false, None).
Proof. split; [eexists|]; by vm_compute. Qed.

Lemma Commit_succeeds_witness :
  ∃ w',
    Commit cache0 world_staged = (None, mark_committed cache0, w') ∧
    dirs w' !! "/cache/committed" = dirs world_staged !! "/cache/staging" ∧
    dirs w' !! "/cache/staging" = None ∧
    dirs w' !! "/cache/committed-backup" = None ∧
    inodes w' = inodes world_staged ∧
    ∀ d, d ≠ "/cache/staging" → d ≠ "/cache/committed-backup" → d ≠ "/cache/committed" →
         dirs w' !! d = dirs world_staged !! d.
Proof.
  apply (CacheMore.Commit_succeeds cache0 world_staged).
  - repeat split.
  - reflexivity.
  - vm_refl.
  - split_and!; [eexists; vm_compute; reflexivity..|vm_compute; reflexivity].
Defined.

Lemma Commit_without_committed_dir_witness :
  ∃ err w',
    Commit cache0 world_no_committed
    = (Some (Wrap "backing up cache" (SysErr err)), mark_committed cache0, w') ∧
    dirs w' = dirs world_no_committed ∧ inodes w' = inodes world_no_committed ∧
    ∀ w2, Commit (mark_committed cache0) w2
          = (Some errCacheCommitted, mark_committed cache0, w2).
Proof.
  apply (CacheMore.Commit_without_committed_dir cache0 world_no_committed).
  - reflexivity.
  - vm_refl.
Defined.

Lemma ReuseLayer_missing_witness :
  ∃ err w1,
    ReuseLayer linux cache0 "sha256:B" world0
    = (Some (Wrap "reusing layer (sha256:B)" (SysErr err)), w1) ∧
    os_IsExist (SysErr err) = false ∧
    dirs w1 = dirs world0 ∧ inodes w1 = inodes world0.
Proof.
  apply (CacheMore.ReuseLayer_missing linux cache0 "sha256:B" world0).
  - reflexivity.
  - vm_refl.
Defined.

Lemma AddLayerFile_missing_source_witness :
  ∃ err w1,
    AddLayerFile linux cache0 (FilePath "/tmp" "c.tar") "sha256:C" world0
    = (Some (Wrap "caching layer (sha256:C)" (SysErr err)), w1) ∧
    dirs w1 = dirs world0 ∧ inodes w1 = inodes world0.
Proof.
  apply (CacheMore.AddLayerFile_missing_source linux cache0
           (FilePath "/tmp" "c.tar") "sha256:C" world0).
  - reflexivity.
  - vm_refl.
  - vm_refl.
Defined.

(** A tarball path that names a directory is opened all the same: the
    staged file is created, the copy fails, and an empty file stays in
    [staging/]. *)
Example AddLayerFile_directory_source :
  let w1 := (AddLayerFile linux cache0 (DirPath "/tmp") "sha256:C" world0).2 in
  path_exists (DirPath "/tmp") world0 = true ∧
  (AddLayerFile linux cache0 (DirPath "/tmp") "sha256:C" world0).1
  = Some (Wrap "caching layer (sha256:C)" (SysErr EISDIR)) ∧
  file_content (FilePath "/cache/staging" "sha256:C.tar") w1 = Some [].
Proof. cbv zeta. split_and!; vm_refl. Qed.

(** The layer A is staged by a reuse and then given as a stream: the
    staged file holds the stream. *)
Lemma AddLayer_overwrites_witness :
  file_content (FilePath "/cache/staging" "sha256:A.tar")
    (AddLayer linux cache0 (Stream layerB) "sha256:A"
       (ReuseLayer linux cache0 "sha256:A" world0).2).2
  = Some layerB.
Proof.
  apply (CacheMore.AddLayer_overwrites linux cache0 layerB "sha256:A"
           (ReuseLayer linux cache0 "sha256:A" world0).2).
  vm_compute. reflexivity.
Defined.

Lemma layer_round_trip_witness :
  ∃ w1 w2 fh,
    AddLayerFile linux cache0 (FilePath "/tmp" "b.tar") "sha256:B" world0 = (None, w1) ∧
    Commit cache0 w1 = (None, mark_committed cache0, w2) ∧
    HasLayer linux cache0 "sha256:B" w2 = (true, None, w2) ∧
    RetrieveLayer linux cache0 "sha256:B" w2 = (inr (FileReader (RegularFile fh)), w2) ∧
    reader_bytes (FileReader (RegularFile fh)) w2 = layerB.
Proof.
  apply (CacheMore.layer_round_trip linux cache0 (FilePath "/tmp" "b.tar") "sha256:B"
           layerB world0).
  - repeat split.
  - reflexivity.
  - reflexivity.
  - split_and!; [eexists; vm_compute; reflexivity..|vm_refl].
  - reflexivity.
  - vm_refl.
  - vm_refl.
Defined.

(** A diffID with a path separator names a file below [staging/]: the
    directory is not there, and [AddLayerFile] fails in [os.Create]. *)
Example AddLayerFile_into_missing_subdirectory :
  plain_diffID "x/y" = false ∧
  diffIDPath linux "/cache/staging" "x/y" = FilePath "/cache/staging/x" "y.tar" ∧
  AddLayerFile linux cache0 (FilePath "/tmp" "b.tar") "x/y" world0
  = (Some (Wrap "caching layer (x/y)" (SysErr ENOENT)), world0).
Proof. split_and!; vm_refl. Qed.

Lemma ReuseLayer_carries_over_witness :
  ∃ w1 w2,
    ReuseLayer linux cache0 "sha256:A" world0 = (None, w1) ∧
    Commit cache0 w1 = (None, mark_committed cache0, w2) ∧
    lookup_ino (diffIDPath linux "/cache/committed" "sha256:A") w2 = Some 1 ∧
    inodes w2 = inodes world0.
Proof.
  apply (CacheMore.ReuseLayer_carries_over linux cache0 "sha256:A" 1 world0).
  - repeat split.
  - reflexivity.
  - reflexivity.
  - split_and!; [eexists; vm_compute; reflexivity..|vm_refl].
  - reflexivity.
  - vm_refl.
  - vm_refl.
Defined.

(** A layer kept in a subdirectory of [committed/] cannot be reused: its
    diffID has a path separator, the link goes into a subdirectory of
    [staging/] that nothing creates, and [ReuseLayer] fails although the
    layer is committed and not staged. *)
Example ReuseLayer_into_missing_subdirectory :
  let w := {| dirs := {[ "/cache" := ∅;
                         "/cache/committed" := ∅;
                         "/cache/committed/x" := {[ "y.tar" := 1 ]};
                         "/cache/staging" := ∅ ]};
              inodes := {[ 1 := layerA ]}; oracle := [] |} in
  in_session cache0 w ∧
  lookup_ino (diffIDPath linux "/cache/committed" "x/y") w = Some 1 ∧
  lookup_ino (diffIDPath linux "/cache/staging" "x/y") w = None ∧
  ReuseLayer linux cache0 "x/y" w
  = (Some (Wrap "reusing layer (x/y)" (SysErr ENOENT)), w).
Proof.
  cbv zeta. split_and!; [|vm_refl..].
  split_and!; [eexists; vm_compute; reflexivity..|vm_refl].
Qed.

Lemma diffIDPath_inj_witness :
  diffIDPath linux "/cache/committed" "sha256:A"
  ≠ diffIDPath linux "/cache/committed" "sha256:B".
Proof.
  apply (CacheMore.diffIDPath_inj linux "/cache/committed" "sha256:A" "sha256:B").
  - discriminate.
  - reflexivity.
  - reflexivity.
  - discriminate.
Defined.

(** Names that [filepath.Join] cleans to the same path share a file. *)
Example diffIDPath_shared_after_cleaning :
  diffIDPath linux "/cache/committed" "./a" = diffIDPath linux "/cache/committed" "a" ∧
  diffIDPath linux "/cache/committed" "b/../a" = diffIDPath linux "/cache/committed" "a".
Proof. split; vm_refl. Qed.

Lemma diffIDPath_windows_witness :
  diffIDPath "windows" "/cache/committed" "sha256:A"
  = file_path (filepath_Join "/cache/committed" "A.tar") ∧
  diffIDPath "windows" "/cache/committed" "sha256:A"
  = FilePath "/cache/committed" "A.tar" ∧
  diffIDPath "windows" "/cache/committed" "A"
  = diffIDPath "windows" "/cache/committed" "sha256:A".
Proof.
  destruct (CacheMore.diffIDPath_windows "windows" "/cache/committed" "A" eq_refl)
    as (H1 & H2 & H3).
  assert (cleaned "/cache/committed") as Hcl by (unfold cleaned; vm_refl).
  split_and!; [exact H1|exact (H2 eq_refl Hcl)|exact (H3 eq_refl)].
Defined.

Example diffIDPath_windows_outside_base :
  diffIDPath "windows" "/cache/committed" "sha256:../staging/x"
  = FilePath "/cache/staging" "x.tar".
Proof. vm_refl. Qed.

End CacheMoreExamples.

(** ** More on the exporter *)

Module ExporterMore.
Import Lifecycle Calls ExporterProofs.

(** *** Computations that send calls of one kind *)

Lemma sends_only_ret {A} P (a : A) : sends_only P (ret a).
Proof. intros st. exists []. by rewrite app_nil_r. Qed.

Lemma sends_only_log P lvl msg : sends_only P (log lvl msg).
Proof. intros st. exists []. by rewrite app_nil_r. Qed.

Lemma sends_only_call (P : ImageCall → bool) image c :
  P c = true → sends_only P (call image c).
Proof. intros HP st. exists [c]. split; [done|]. by constructor. Qed.

Lemma sends_only_bind {A B} P (c : E A) (k : A → E B) :
  sends_only P c → (∀ a, sends_only P (k a)) → sends_only P (bind c k).
Proof.
  intros Hc Hk st. unfold bind. destruct (Hc st) as (cs1 & E1 & F1).
  destruct (c st) as [a s1]. destruct (Hk a s1) as (cs2 & E2 & F2).
  exists (cs1 ++ cs2). simpl in *. rewrite E2, E1, app_assoc. split; [done|].
  by apply Forall_app.
Qed.

Lemma sends_only_weaken {A} (P Q : ImageCall → bool) (c : E A) :
  (∀ x, P x = true → Q x = true) → sends_only P c → sends_only Q c.
Proof.
  intros HPQ Hc st. destruct (Hc st) as (cs & E1 & F1). exists cs. split; [done|].
  eapply Forall_impl; [done|]. simpl. eauto.
Qed.

Lemma sends_only_run {A} P (c : E A) st a st' :
  sends_only P c → c st = (a, st') →
  ∃ cs, calls st' = calls st ++ cs ∧ Forall (λ x, P x = true) cs.
Proof. intros Hc Hr. destruct (Hc st) as (cs & E1 & F1). rewrite Hr in E1. eauto. Qed.

(** One step of a syntax-directed proof: the computation is a return, a
    log, a call of the right kind, a sequence, or a case analysis. *)
Ltac sends_step :=
  first
    [ apply sends_only_ret
    | apply sends_only_log
    | apply sends_only_call; reflexivity
    | solve [auto]
    | apply sends_only_bind; [|intros ?]
    | match goal with
      | |- sends_only _ (match ?x with _ => _ end) => destruct x
      | |- sends_only _ (if ?x then _ else _) => destruct x
      end ].

Ltac sends := repeat sends_step.

Section WithEnvironment.

Variable filepath_Abs : string → string * option error.
Variable os_PathListSeparator : string.
Variable toml_DecodeFile_BuildMetadata : string → BuildMetadata.t * option error.
Variable toml_DecodeFile_BuildReport : string → list string * option error.
Variable readBuildpackLayersDir : string → GroupBuildpack.t → error + bpLayersDir.t.
Variable json_Marshal_LayersMetadata : LayersMetadata.t → string * option error.
Variable json_Marshal_BuildMetadata : BuildMetadata.t → string * option error.
Variable json_Marshal_Project : string → string * option error.
Variable launch_LauncherPath : string.
Variable launch_ProcessDir : string.
Variable launch_LifecycleDir : string.
Variable launch_ProcessPath : string → string.
Variable launch_EscapeID : string → string.
Variable buildpack_WithBuildpack : GroupBuildpack.t → list string → list string.
Variable api_MustParse : string → api.Version.

Local Abbreviation entrypoint := (Lifecycle.entrypoint launch_LauncherPath launch_ProcessPath).
Local Abbreviation setLabels :=
  (Lifecycle.setLabels json_Marshal_LayersMetadata json_Marshal_BuildMetadata
     json_Marshal_Project).
Local Abbreviation setEnv :=
  (Lifecycle.setEnv os_PathListSeparator launch_ProcessDir launch_LifecycleDir).
Local Abbreviation buildReportEntries :=
  (Lifecycle.buildReportEntries toml_DecodeFile_BuildReport launch_EscapeID
     buildpack_WithBuildpack api_MustParse).
Local Abbreviation makeBuildReport :=
  (Lifecycle.makeBuildReport toml_DecodeFile_BuildReport launch_EscapeID
     buildpack_WithBuildpack api_MustParse).
Local Abbreviation addBuildpackLayers_from :=
  (Lifecycle.addBuildpackLayers_from readBuildpackLayersDir).
Local Abbreviation addBuildpackLayers := (Lifecycle.addBuildpackLayers readBuildpackLayersDir).
Local Abbreviation buildpack_calls := (Lifecycle.buildpack_calls readBuildpackLayersDir).
Local Abbreviation Export :=
  (Lifecycle.Export filepath_Abs os_PathListSeparator toml_DecodeFile_BuildMetadata
     toml_DecodeFile_BuildReport readBuildpackLayersDir json_Marshal_LayersMetadata
     json_Marshal_BuildMetadata json_Marshal_Project launch_LauncherPath launch_ProcessDir
     launch_LifecycleDir launch_ProcessPath launch_EscapeID buildpack_WithBuildpack
     api_MustParse).

Lemma addOrReuseLayer_sends e image layer previousSHA :
  sends_only is_layer_call (addOrReuseLayer e image layer previousSHA).
Proof. unfold addOrReuseLayer. sends. Qed.

Lemma exportLaunchLayer_sends e opts bp fsLayer :
  sends_only is_layer_call (exportLaunchLayer e opts bp fsLayer).
Proof.
  pose proof addOrReuseLayer_sends. unfold exportLaunchLayer. sends.
Qed.

Lemma exportLaunchLayers_sends e opts bp fsLayers :
  ∀ bpMD, sends_only is_layer_call (exportLaunchLayers e opts bp fsLayers bpMD).
Proof.
  pose proof exportLaunchLayer_sends.
  induction fsLayers as [|fsLayer rest IH]; intros bpMD; simpl; sends.
Qed.

Lemma addBuildpackLayers_from_sends e opts bps :
  ∀ meta, sends_only is_layer_call (addBuildpackLayers_from e opts bps meta).
Proof.
  pose proof exportLaunchLayers_sends.
  induction bps as [|bp rest IH]; intros meta; simpl; sends.
Qed.

Lemma addSliceLayers_sends e opts sliceLayers :
  ∀ meta n, sends_only is_layer_call (addSliceLayers e opts sliceLayers meta n).
Proof.
  induction sliceLayers as [|slice rest IH]; intros meta n; simpl; sends.
Qed.

Lemma addAppLayers_sends e opts slices meta :
  sends_only is_layer_call (addAppLayers e opts slices meta).
Proof. pose proof addSliceLayers_sends. unfold addAppLayers. sends. Qed.

Lemma launcherConfig_sends e opts buildMD meta :
  sends_only is_layer_call (launcherConfig e opts buildMD meta).
Proof. pose proof addOrReuseLayer_sends. unfold launcherConfig. sends. Qed.

Lemma addLauncherLayers_sends e opts buildMD meta :
  sends_only is_layer_call (addLauncherLayers e opts buildMD meta).
Proof.
  pose proof addOrReuseLayer_sends. pose proof launcherConfig_sends.
  unfold addLauncherLayers. sends.
Qed.

Lemma setBuildpackLabels_sends opts labels :
  sends_only is_label_call (setBuildpackLabels opts labels).
Proof. induction labels as [|label rest IH]; simpl; sends. Qed.

Lemma setLabels_sends e opts meta buildMD :
  sends_only is_label_call (setLabels e opts meta buildMD).
Proof. pose proof setBuildpackLabels_sends. unfold Lifecycle.setLabels. sends. Qed.

Lemma setEnvVar_sends opts key value errName :
  sends_only is_env_call (setEnvVar opts key value errName).
Proof. unfold setEnvVar. sends. Qed.

Lemma setEnv_sends e opts launchMD :
  sends_only is_env_call (setEnv e opts launchMD).
Proof. pose proof setEnvVar_sends. unfold Lifecycle.setEnv. sends. Qed.

Lemma entrypoint_sends e launchMD userDefault buildpackDefault :
  sends_only (λ _, false) (entrypoint e launchMD userDefault buildpackDefault).
Proof. unfold Lifecycle.entrypoint. sends. Qed.

(** *** Labels *)

Lemma setBuildpackLabels_ok opts labels :
  ∀ st st', setBuildpackLabels opts labels st = (None, st') →
            emits st st' (map (λ l, SetLabel (Label.Key l) (Label.Value l)) labels).
Proof.
  induction labels as [|label rest IH]; intros st st' H; simpl in *.
  - ret_in H. apply emits_nil.
  - bind_in H u s1 H1. bind_in H rep s2 H2.
    apply emits_log in H1. apply emits_call in H2 as [H2 _].
    destruct (reply_err rep); [ret_in H|]. apply IH in H.
    apply (emits_trans _ _ _ [] _ H1), (emits_trans _ _ _ [_] _ H2), H.
Qed.

(** X16: when [setLabels] returns nil the image has received, in this
    order, the layers metadata label, the build metadata label, the
    project metadata label, and then the labels the buildpacks provided,
    in their order; the build metadata was encoded after its launcher
    field had been set from the options, and goes back with that field. *)
Theorem setLabels_labels e opts meta buildMD buildMD' st st' :
  setLabels e opts meta buildMD st = (None, buildMD', st') →
  buildMD' = BuildMetadata.with_Launcher (Metadata (Launcher opts)) buildMD ∧
  calls st' = calls st
    ++ [SetLabel LayerMetadataLabel (json_Marshal_LayersMetadata meta).1;
        SetLabel BuildMetadataLabel (json_Marshal_BuildMetadata buildMD').1;
        SetLabel ProjectMetadataLabel (json_Marshal_Project (Project opts)).1]
    ++ map (λ l, SetLabel (Label.Key l) (Label.Value l)) (BuildMetadata.Labels buildMD).
Proof.
  unfold Lifecycle.setLabels.
  destruct (json_Marshal_LayersMetadata meta) as [data [err|]]; [intros H; ret_in H|].
  intros H. bind_in H u1 s1 H1. bind_in H r1 s2 H2.
  apply emits_log in H1. apply emits_call in H2 as [H2 _].
  destruct (reply_err r1); [ret_in H|].
  destruct (json_Marshal_BuildMetadata _) as [buildJSON [err|]] eqn:HB; [ret_in H|].
  bind_in H u3 s3 H3. bind_in H r3 s4 H4.
  apply emits_log in H3. apply emits_call in H4 as [H4 _].
  destruct (reply_err r3); [ret_in H|].
  destruct (json_Marshal_Project _) as [projectJSON [err|]]; [ret_in H|].
  bind_in H u5 s5 H5. bind_in H r5 s6 H6.
  apply emits_log in H5. apply emits_call in H6 as [H6 _].
  destruct (reply_err r5); [ret_in H|].
  bind_in H r7 s7 H7. ret_in H. apply setBuildpackLabels_ok in H7.
  split; [done|]. rewrite HB. simpl.
  unfold emits in *. rewrite H7, H6, H5, H4, H3, H2, H1.
  by rewrite !app_nil_r, <- !app_assoc.
Qed.

(** *** Environment *)

Lemma setEnvVar_ok opts key value errName st st' :
  setEnvVar opts key value errName st = (None, st') →
  emits st st' [SetEnv key value].
Proof.
  unfold setEnvVar. intros H. bind_in H u s1 H1. bind_in H r s2 H2.
  apply emits_log in H1. apply emits_call in H2 as [H2 _].
  destruct (reply_err r); ret_in H.
  apply (emits_trans _ _ _ [] _ H1 H2).
Qed.

(** X17: when [setEnv] returns nil the image has received the four fixed
    variables in order; from platform API 0.4 on they are followed by the
    reading of [PATH] and its setting with the process and lifecycle
    directories in front of what was read, and [CNB_PROCESS_TYPE] is not
    set; before 0.4 they are followed by [CNB_PROCESS_TYPE] exactly when a
    default process type was asked for, and then that type is one of the
    processes. *)
Theorem setEnv_variables e opts launchMD st st' :
  setEnv e opts launchMD st = (None, st') →
  let fixed :=
    [SetEnv EnvLayersDir (LayersDir opts);
     SetEnv EnvAppDir (AppDir opts);
     SetEnv EnvPlatformAPI (api.String (PlatformAPI e));
     SetEnv EnvDeprecationMode DeprecationModeQuiet] in
  if supportsMulticallLauncher e then
    calls st' = calls st ++ fixed
      ++ [Env "PATH";
          SetEnv "PATH"
            (String.concat os_PathListSeparator
               [launch_ProcessDir; launch_LifecycleDir;
                reply_value (WorkingImage opts (calls st ++ fixed) (Env "PATH"))])]
  else if String.eqb (DefaultProcessType opts) "" then
    calls st' = calls st ++ fixed
  else
    calls st' = calls st ++ fixed ++ [SetEnv EnvProcessType (DefaultProcessType opts)] ∧
    is_Some (launch.FindProcessType launchMD (DefaultProcessType opts)).
Proof.
  intros H fixed. unfold Lifecycle.setEnv in H.
  bind_in H r1 s1 H1. destruct r1; [ret_in H|]. apply setEnvVar_ok in H1.
  bind_in H r2 s2 H2. destruct r2; [ret_in H|]. apply setEnvVar_ok in H2.
  bind_in H r3 s3 H3. destruct r3; [ret_in H|]. apply setEnvVar_ok in H3.
  bind_in H r4 s4 H4. destruct r4; [ret_in H|]. apply setEnvVar_ok in H4.
  assert (calls s4 = calls st ++ fixed) as Hfixed.
  { unfold emits in *. rewrite H4, H3, H2, H1. by rewrite <- !app_assoc. }
  clear H1 H2 H3 H4.
  destruct (supportsMulticallLauncher e).
  - bind_in H r5 s5 H5. apply emits_call in H5 as [H5 ->].
    destruct (reply_err _); [ret_in H|].
    bind_in H u6 s6 H6. bind_in H r7 s7 H7.
    apply emits_log in H6. apply emits_call in H7 as [H7 _].
    destruct (reply_err r7); ret_in H.
    unfold emits in *. rewrite H7, H6, H5, Hfixed.
    by rewrite !app_nil_r, <- !app_assoc.
  - destruct (String.eqb (DefaultProcessType opts) ""); simpl in H.
    + by ret_in H.
    + destruct (launch.FindProcessType _ _) eqn:HF; [|ret_in H].
      apply setEnvVar_ok in H. unfold emits in H.
      rewrite H, Hfixed. by rewrite <- !app_assoc.
Qed.

Lemma setEnvVar_run opts key value errName r st st' :
  setEnvVar opts key value errName st = (r, st') →
  emits st st' [SetEnv key value] ∧
  r = (λ err, Wrap ("set app image env " +:+ errName) err)
        <$> reply_err (WorkingImage opts (calls st) (SetEnv key value)).
Proof.
  unfold setEnvVar. intros H. bind_in H u s1 H1. bind_in H rep s2 H2.
  assert (calls s1 = calls st) as Hs1 by (unfold log in H1; by simplify_eq).
  apply emits_log in H1. apply emits_call in H2 as [H2 ->]. rewrite Hs1 in H.
  destruct (reply_err _); ret_in H;
    (split; [apply (emits_trans _ _ _ [] _ H1 H2)|done]).
Qed.

(** X18: the error names of [setEnv]: when [setEnv] fails after three
    calls, the third one, which sets [CNB_PLATFORM_API], was refused by
    the image, and the error that comes back is the image's wrapped as a
    failure to set [CNB_APP_DIR]. *)
Theorem setEnv_platform_api_error_name e opts launchMD err st st' :
  setEnv e opts launchMD st = (Some err, st') →
  length (calls st') = length (calls st) + 3 →
  last (calls st') = Some (SetEnv EnvPlatformAPI (api.String (PlatformAPI e))) ∧
  ∃ cause,
    reply_err (WorkingImage opts (removelast (calls st'))
                 (SetEnv EnvPlatformAPI (api.String (PlatformAPI e)))) = Some cause ∧
    err = Wrap "set app image env CNB_APP_DIR" cause.
Proof.
  unfold Lifecycle.setEnv. intros H Hlen.
  bind_in H r1 s1 H1. apply setEnvVar_run in H1 as [H1 R1].
  destruct r1.
  { ret_in H. unfold emits in H1. rewrite H1, length_app in Hlen. simpl in Hlen. lia. }
  bind_in H r2 s2 H2. apply setEnvVar_run in H2 as [H2 R2].
  destruct r2.
  { ret_in H. unfold emits in *. rewrite H2, H1, !length_app in Hlen. simpl in Hlen. lia. }
  bind_in H r3 s3 H3. apply setEnvVar_run in H3 as [H3 R3].
  destruct r3 as [e3|].
  { ret_in H. unfold emits in *. rewrite H3. rewrite last_snoc, removelast_last.
    split; [done|].
    destruct (reply_err (WorkingImage opts (calls s2) _)) as [cause|];
      simpl in R3; [|done].
    simplify_eq. exists cause. split; reflexivity. }
  exfalso.
  bind_in H r4 s4 H4. apply setEnvVar_run in H4 as [H4 R4].
  assert (∃ cs, calls st' = calls s4 ++ cs) as [cs Hcs].
  { destruct (sends_only_run is_env_call
                (match r4 with
                 | Some err => ret (Some err)
                 | None =>
                     if supportsMulticallLauncher e
                     then r <- call (WorkingImage opts) (Env "PATH") ;;
                          match reply_err r with
                          | Some err => ret (Some (Wrap "failed to get PATH from app image" err))
                          | None =>
                              log DebugLevel ("Prepending " +:+ launch_ProcessDir +:+ " and "
                                              +:+ launch_LifecycleDir +:+ " to PATH") ;;;
                              r <- call (WorkingImage opts)
                                     (SetEnv "PATH"
                                        (String.concat os_PathListSeparator
                                           [launch_ProcessDir; launch_LifecycleDir;
                                            reply_value r])) ;;
                              match reply_err r with
                              | Some err => ret (Some (Wrap "set app image env PATH" err))
                              | None => ret None
                              end
                          end
                     else if negb (String.eqb (DefaultProcessType opts) "")
                          then match launch.FindProcessType launchMD (DefaultProcessType opts) with
                               | None => ret (Some (processTypeError launchMD
                                                      (DefaultProcessType opts)))
                               | Some _ => setEnvVar opts EnvProcessType
                                             (DefaultProcessType opts) EnvProcessType
                               end
                          else ret None
                 end) s4 (Some err) st') as (cs & Hcs & _); [|done|eauto].
    pose proof setEnvVar_sends. sends. }
  unfold emits in *. rewrite Hcs, H4, H3, H2, H1, !length_app in Hlen. simpl in Hlen. lia.
Qed.

(** *** What the layers metadata records *)

Lemma addSliceLayers_records e opts sliceLayers :
  ∀ meta n meta' n' st st',
    addSliceLayers e opts sliceLayers meta n st = (inr (meta', n'), st') →
    meta' = LayersMetadata.with_App
              (LayersMetadata.App meta
               ++ map (λ l, {| LayerMetadata.SHA := Layer.Digest l |}) sliceLayers) meta ∧
    n' = n + length (List.filter
                       (λ l, existsb (λ previous,
                                String.eqb (Layer.Digest l) (LayerMetadata.SHA previous))
                               (LayersMetadata.App (OrigMetadata opts))) sliceLayers) ∧
    logs st' = logs st
      ++ map (λ l, (DebugLevel, "Layer '" +:+ Layer.ID l +:+ "' SHA: "
                                +:+ Layer.Digest l +:+ nl)) sliceLayers.
Proof.
  induction sliceLayers as [|slice rest IH]; intros meta n meta' n' st st' H; simpl in *.
  - ret_in H. rewrite !app_nil_r. split_and!; [|lia|done].
    match goal with |- ?m = _ => by destruct m end.
  - bind_in H rep s1 H1.
    assert (logs s1 = logs st) as Hl1.
    { destruct (existsb _ _); unfold call in H1; by simplify_eq. }
    destruct (reply_err rep); [ret_in H|].
    bind_in H u s2 H2. unfold log in H2. simplify_eq.
    apply IH in H as (-> & -> & ->). simpl. rewrite Hl1.
    split_and!.
    + unfold LayersMetadata.with_App. simpl. by rewrite <- app_assoc.
    + destruct (existsb _ _); simpl; lia.
    + by rewrite <- app_assoc.
Qed.

(** X19: when [addAppLayers] returns nil, the metadata has one more app
    entry per slice layer of the factory, in order, each with the digest
    of its layer, and is otherwise as it was; the log has one debug line
    per layer and then the two counts, of the layers found among the app
    layers of the previous image and of the others, each only when it is
    not zero. *)
Theorem addAppLayers_records e opts slices meta meta' st st' :
  addAppLayers e opts slices meta st = (inr meta', st') →
  let sliceLayers := (SliceLayers (Factory e) (AppDir opts) slices).1 in
  let reused :=
    length (List.filter
              (λ l, existsb (λ previous,
                       String.eqb (Layer.Digest l) (LayerMetadata.SHA previous))
                      (LayersMetadata.App (OrigMetadata opts))) sliceLayers) in
  let total := length sliceLayers in
  meta' = LayersMetadata.with_App
            (LayersMetadata.App meta
             ++ map (λ l, {| LayerMetadata.SHA := Layer.Digest l |}) sliceLayers) meta ∧
  logs st' = logs st
    ++ map (λ l, (DebugLevel, "Layer '" +:+ Layer.ID l +:+ "' SHA: "
                              +:+ Layer.Digest l +:+ nl)) sliceLayers
    ++ (if 0 <? reused
        then [(InfoLevel, "Reusing " +:+ pretty reused +:+ "/" +:+ pretty total
                          +:+ " app layer(s)" +:+ nl)]
        else [])
    ++ (if negb (total - reused =? 0)
        then [(InfoLevel, "Adding " +:+ pretty (total - reused) +:+ "/" +:+ pretty total
                          +:+ " app layer(s)" +:+ nl)]
        else []).
Proof.
  intros H sliceLayers reused total. subst sliceLayers reused total.
  unfold addAppLayers in H.
  destruct (SliceLayers (Factory e) (AppDir opts) slices) as [sliceLayers [err|]];
    [ret_in H|].
  simpl fst. bind_in H r s1 H1. destruct r as [err|[meta1 n]]; [ret_in H|].
  apply addSliceLayers_records in H1 as (-> & -> & Hl). simpl in H.
  bind_in H u2 s2 H2. bind_in H u3 s3 H3. ret_in H. split; [done|].
  revert H2 H3. destruct (0 <? _); destruct (negb _);
    unfold log, ret; intros; simplify_eq; simpl;
    rewrite Hl, <- ?app_assoc, ?app_nil_r; done.
Qed.

Lemma exportLaunchLayers_records e opts bp fsLayers :
  ∀ bpMD bpMD' st st',
    exportLaunchLayers e opts bp fsLayers bpMD st = (inr bpMD', st') →
    BuildpackLayersMetadata.ID bpMD' = BuildpackLayersMetadata.ID bpMD ∧
    BuildpackLayersMetadata.Version bpMD' = BuildpackLayersMetadata.Version bpMD ∧
    BuildpackLayersMetadata.Store bpMD' = BuildpackLayersMetadata.Store bpMD ∧
    ∀ n, is_Some (BuildpackLayersMetadata.Layers bpMD' !! n) ↔
         is_Some (BuildpackLayersMetadata.Layers bpMD !! n) ∨
         n ∈ map bpLayer.name fsLayers.
Proof.
  induction fsLayers as [|fsLayer rest IH]; intros bpMD bpMD' st st' H; simpl in *.
  - ret_in H. split_and!; try done. intros n. split; [by left|].
    intros [?|Hin]; [done|]. by apply elem_of_nil in Hin.
  - bind_in H r s1 H1. destruct r as [err|lmd]; [ret_in H|].
    apply IH in H as (-> & -> & -> & Hdom). split_and!; try done.
    intros n. rewrite Hdom. simpl. rewrite elem_of_cons.
    destruct (decide (n = bpLayer.name fsLayer)) as [->|Hne].
    + rewrite lookup_insert_eq. split; eauto.
    + rewrite lookup_insert_ne by done.
      split; [intros [?|?]; auto|intros [?|[?|?]]; auto; done].
Qed.

(** X20: when [addBuildpackLayers] returns nil, the metadata has one more
    buildpack entry per buildpack of the group, in group order: it
    carries the id and version of the buildpack and the store of its
    layers directory, which has no malformed layer, and it has a layer
    entry exactly for the names of the launch layers of that directory.
    Nothing else of the metadata changes. *)
Theorem addBuildpackLayers_records e opts bps :
  ∀ meta meta' st st',
    addBuildpackLayers_from e opts bps meta st = (inr meta', st') →
    ∃ bpMDs,
      meta' = LayersMetadata.with_Buildpacks (LayersMetadata.Buildpacks meta ++ bpMDs) meta ∧
      Forall2
        (λ bp bpMD,
           BuildpackLayersMetadata.ID bpMD = GroupBuildpack.ID bp ∧
           BuildpackLayersMetadata.Version bpMD = GroupBuildpack.Version bp ∧
           ∃ bpDir,
             readBuildpackLayersDir (LayersDir opts) bp = inr bpDir ∧
             BuildpackLayersMetadata.Store bpMD = bpLayersDir.store bpDir ∧
             bpLayersDir.malformedLayers bpDir = [] ∧
             ∀ n, is_Some (BuildpackLayersMetadata.Layers bpMD !! n) ↔
                  n ∈ map bpLayer.name (bpLayersDir.launchLayers bpDir))
        bps bpMDs.
Proof.
  induction bps as [|bp rest IH]; intros meta meta' st st' H; simpl in *.
  - ret_in H. exists []. rewrite app_nil_r. split; [|constructor].
    match goal with |- ?m = _ => by destruct m end.
  - destruct (readBuildpackLayersDir (LayersDir opts) bp) as [err|bpDir] eqn:Hread;
      [ret_in H|].
    bind_in H r s1 H1. destruct r as [err|bpMD]; [ret_in H|].
    apply exportLaunchLayers_records in H1 as (HID & HV & HS & Hdom). simpl in *.
    destruct (bpLayersDir.malformedLayers bpDir) eqn:Hmal; [|ret_in H].
    apply IH in H as (bpMDs & -> & HF). exists (bpMD :: bpMDs). split.
    + unfold LayersMetadata.with_Buildpacks. simpl. by rewrite <- app_assoc.
    + constructor; [|done]. split_and!; try done.
      exists bpDir. rewrite Hmal. split_and!; try done.
      intros n. rewrite Hdom, lookup_empty. split; [|by right].
      intros [[? [=]]|?]; done.
Qed.

(** X21: a layers directory with malformed layers ends the export of the
    buildpack layers: once the launch layers of the buildpack have gone
    into the image, [addBuildpackLayers] returns
    "failed to parse metadata for layers '[<ids>]'" with the identifiers
    of the malformed layers, and the buildpacks after it are not looked
    at. *)
Theorem malformed_layers_fail e opts bp rest meta bpDir bpMD st st1 :
  readBuildpackLayersDir (LayersDir opts) bp = inr bpDir →
  bpLayersDir.malformedLayers bpDir ≠ [] →
  exportLaunchLayers e opts bp (bpLayersDir.launchLayers bpDir)
    {| BuildpackLayersMetadata.ID := GroupBuildpack.ID bp;
       BuildpackLayersMetadata.Version := GroupBuildpack.Version bp;
       BuildpackLayersMetadata.Layers := ∅;
       BuildpackLayersMetadata.Store := bpLayersDir.store bpDir |} st = (inr bpMD, st1) →
  addBuildpackLayers_from e opts (bp :: rest) meta st
  = (inl (Errorf ("failed to parse metadata for layers '"
                  +:+ fmt_strings (map bpLayer.Identifier (bpLayersDir.malformedLayers bpDir))
                  +:+ "'")), st1) ∧
  calls st1 = calls st ++ map (launch_layer_call e opts bp) (bpLayersDir.launchLayers bpDir).
Proof.
  intros Hread Hmal Hrun. simpl. rewrite Hread. unfold bind. rewrite Hrun.
  split; [|by apply exportLaunchLayers_ok in Hrun].
  by destruct (bpLayersDir.malformedLayers bpDir).
Qed.

Lemma addOrReuseLayer_sha e image layer previousSHA sha st st' :
  addOrReuseLayer e image layer previousSHA st = ((sha, None), st') →
  sha = Layer.Digest (DirLayer (Factory e) (Layer.ID layer) (Layer.TarPath layer)).1.
Proof.
  unfold addOrReuseLayer.
  destruct (DirLayer _ _ _) as [rebuilt [err|]]; [intros H; ret_in H|]. simpl.
  destruct (String.eqb _ _); intros H;
    bind_in H u1 s1 H1; bind_in H u2 s2 H2; bind_in H r s3 H3; by ret_in H.
Qed.

(** X22: when [addLauncherLayers] returns nil, the metadata records for
    the launcher and for the config layer the digest of the layer as the
    factory made it again, and for the process types likewise from
    platform API 0.4 on when there is a process; otherwise the
    process-types entry and everything else stay as they were. *)
Theorem addLauncherLayers_records e opts buildMD meta meta' st st' :
  addLauncherLayers e opts buildMD meta st = (inr meta', st') →
  let digest (layer : Layer.t) :=
    Layer.Digest (DirLayer (Factory e) (Layer.ID layer) (Layer.TarPath layer)).1 in
  let launcher := digest (LauncherLayer (Factory e) (Path (Launcher opts))).1 in
  let config :=
    digest (DirLayer (Factory e) "config" (filepath_Join (LayersDir opts) "config")).1 in
  let recorded :=
    LayersMetadata.with_Config config (LayersMetadata.with_Launcher launcher meta) in
  meta' =
    if supportsMulticallLauncher e && (0 <? length (BuildMetadata.Processes buildMD))
    then LayersMetadata.with_ProcessTypes
           (digest (ProcessTypesLayer (Factory e)
                      {| launch.Processes := BuildMetadata.Processes buildMD |}).1)
           recorded
    else recorded.
Proof.
  intros H digest launcher config recorded. subst digest launcher config recorded.
  unfold addLauncherLayers in H.
  destruct (LauncherLayer _ _) as [launcherLayer [err|]]; [ret_in H|].
  bind_in H r1 s1 H1. destruct r1 as [sha1 [err|]]; [ret_in H|].
  apply addOrReuseLayer_sha in H1 as ->.
  destruct (DirLayer (Factory e) "config" _) as [configLayer [err|]]; [ret_in H|].
  bind_in H r2 s2 H2. destruct r2 as [sha2 [err|]]; [ret_in H|].
  apply addOrReuseLayer_sha in H2 as ->.
  unfold launcherConfig in H. simpl fst.
  destruct (supportsMulticallLauncher e); [|by ret_in H]. simpl.
  destruct (0 <? _); [|by ret_in H].
  destruct (ProcessTypesLayer _ _) as [ptLayer [err|]]; [ret_in H|].
  bind_in H r3 s3 H3. destruct r3 as [sha3 [err|]]; [ret_in H|].
  apply addOrReuseLayer_sha in H3 as ->. by ret_in H.
Qed.

(** *** The build report *)

Lemma buildReportEntries_char layersDir bps :
  let reports bp := negb (api.LessThan (api_MustParse (GroupBuildpack.API bp)) api.v0_5) in
  let decode bp :=
    toml_DecodeFile_BuildReport
      (filepath_Join (filepath_Join layersDir (launch_EscapeID (GroupBuildpack.ID bp)))
         "build.toml") in
  let broken bp :=
    match (decode bp).2 with Some err => negb (os_IsNotExist err) | None => false end in
  ∀ out,
    buildReportEntries layersDir bps out =
    match find broken (List.filter reports bps) with
    | Some bp => match (decode bp).2 with Some err => inl err | None => inr [] end
    | None =>
        inr (out ++ flat_map (λ bp, buildpack_WithBuildpack bp (decode bp).1)
                      (List.filter reports bps))
    end.
Proof.
  intros reports decode broken. subst reports decode broken.
  induction bps as [|bp rest IH]; intros out; simpl.
  - by rewrite app_nil_r.
  - destruct (api.LessThan _ _); simpl; [apply IH|].
    destruct (toml_DecodeFile_BuildReport _) as [bom [err|]] eqn:Hdec; simpl.
    + destruct (os_IsNotExist err); simpl; [|by rewrite Hdec].
      rewrite IH. destruct (find _ _); [done|]. by rewrite app_assoc.
    + rewrite IH. destruct (find _ _); [done|]. by rewrite app_assoc.
Qed.

(** X23: the build report, as a whole: below platform API 0.5 it is
    empty.  Otherwise only the buildpacks of API 0.5 or more count; the
    first of them whose [build.toml] fails to decode for another reason
    than being absent makes the report fail with that error, unwrapped;
    if there is none, the report is the entries of those buildpacks, in
    group order, a buildpack without the file included with what the
    decoder left. *)
Theorem makeBuildReport_entries e layersDir :
  let reports bp := negb (api.LessThan (api_MustParse (GroupBuildpack.API bp)) api.v0_5) in
  let decode bp :=
    toml_DecodeFile_BuildReport
      (filepath_Join (filepath_Join layersDir (launch_EscapeID (GroupBuildpack.ID bp)))
         "build.toml") in
  let broken bp :=
    match (decode bp).2 with Some err => negb (os_IsNotExist err) | None => false end in
  makeBuildReport e layersDir =
  if api.LessThan (PlatformAPI e) api.v0_5 then inr []
  else match find broken (List.filter reports (Buildpacks e)) with
       | Some bp => match (decode bp).2 with Some err => inl err | None => inr [] end
       | None =>
           inr (flat_map (λ bp, buildpack_WithBuildpack bp (decode bp).1)
                  (List.filter reports (Buildpacks e)))
       end.
Proof.
  intros reports decode broken. unfold Lifecycle.makeBuildReport.
  destruct (api.LessThan _ _); [done|]. apply buildReportEntries_char.
Qed.

(** *** The whole export *)

Lemma saves_last_ret {B} image names (err : error) :
  saves_last (B := B) image names (ret (inl err)).
Proof. intros st. exists []. split; [done|]. left. rewrite app_nil_r. simpl. eauto. Qed.

Lemma saves_last_bind {B C} image names (c : E C) (k : C → E (error + B)) :
  sends_only not_save c → (∀ a, saves_last image names (k a)) →
  saves_last image names (bind c k).
Proof.
  intros Hc Hk st. unfold bind. destruct (Hc st) as (cs1 & E1 & F1).
  destruct (c st) as [a s1]. simpl in E1.
  destruct (Hk a s1) as (cs2 & F2 & Hcase).
  exists (cs1 ++ cs2). split; [by apply Forall_app|].
  rewrite E1, <- !app_assoc in Hcase. by rewrite <- !app_assoc.
Qed.

Lemma saves_last_save image names (f : ImageReport.t → ExportReport.t) :
  saves_last image names
    (r <- saveImage image names ;;
     match r with
     | (_, Some err) => ret (inl err)
     | (report, None) => ret (inr (f report))
     end).
Proof.
  intros st. exists []. split; [done|]. right. rewrite !app_nil_r.
  unfold saveImage, bind, call, ret. simpl.
  destruct (reply_err _); simpl; eauto.
Qed.

Lemma sends_only_not_save {A} (P : ImageCall → bool) (c : E A) :
  sends_only P c → (∀ x, P x = true → not_save x = true) → sends_only not_save c.
Proof. intros Hc HP. by eapply sends_only_weaken. Qed.

Lemma layer_not_save x : is_layer_call x = true → not_save x = true.
Proof. by destruct x. Qed.

Lemma label_not_save x : is_label_call x = true → not_save x = true.
Proof. by destruct x. Qed.

Lemma env_not_save x : is_env_call x = true → not_save x = true.
Proof. by destruct x. Qed.

Ltac saves_step :=
  first
    [ apply saves_last_ret
    | apply saves_last_save
    | apply saves_last_bind;
      [ first
          [ apply sends_only_call; reflexivity
          | apply sends_only_log
          | eapply sends_only_not_save;
            [ first [ apply addBuildpackLayers_from_sends
                    | apply addAppLayers_sends
                    | apply addLauncherLayers_sends ]
            | apply layer_not_save ]
          | eapply sends_only_not_save; [apply setLabels_sends|apply label_not_save]
          | eapply sends_only_not_save; [apply setEnv_sends|apply env_not_save]
          | eapply sends_only_not_save; [apply entrypoint_sends|done]
          | unfold setWorkingDir; sends ]
      | intros ? ]
    | match goal with
      | |- saves_last _ _ (match ?x with _ => _ end) => destruct x
      | |- saves_last _ _ (if ?x then _ else _) => destruct x
      end ].

Lemma Export_saves_last_aux e opts0 :
  saves_last (WorkingImage opts0) (AdditionalNames opts0) (Export e opts0).
Proof.
  unfold Lifecycle.Export, addBuildpackLayers.
  repeat saves_step.
Qed.

(** X24: the image is saved last, or not at all: whatever [Export]
    returns, it has made no [Save] call except possibly its very last
    call, which then is [Save] with the additional names.  If it made
    none, it returned an error; if it made one, it returned the error of
    that call, or a report when there was none. *)
Theorem Export_saves_last e opts0 r st st' :
  Export e opts0 st = (r, st') →
  ∃ pre,
    Forall (λ c, is_save_call c = false) pre ∧
    ((calls st' = calls st ++ pre ∧ ∃ err, r = inl err) ∨
     (calls st' = calls st ++ pre ++ [Save (AdditionalNames opts0)] ∧
      match reply_err (WorkingImage opts0 (calls st ++ pre)
                         (Save (AdditionalNames opts0))) with
      | Some err => r = inl err
      | None => ∃ report, r = inr report
      end)).
Proof.
  intros H. destruct (Export_saves_last_aux e opts0 st) as (pre & F & Hcase).
  rewrite H in Hcase. simpl in Hcase. exists pre. split; [|done].
  eapply Forall_impl; [done|]. intros x. unfold not_save. by destruct (is_save_call x).
Qed.

Lemma Export_ok_inv e opts0 st report st' :
  Export e opts0 st = (inr report, st') →
  let opts :=
    with_dirs (filepath_Abs (LayersDir opts0)).1 (filepath_Abs (AppDir opts0)).1 opts0 in
  ∃ layers labels envs ep,
    Forall (λ c, is_layer_call c = true) layers ∧
    Forall (λ c, is_label_call c = true) labels ∧
    Forall (λ c, is_env_call c = true) envs ∧
    calls st' = calls st ++ [TopLayer] ++ layers ++ labels ++ envs
      ++ (if api.AtLeast (PlatformAPI e) api.v0_6 then [SetWorkingDir (AppDir opts)] else [])
      ++ [SetEntrypoint [ep]; SetCmd []; Save (AdditionalNames opts0)] ∧
    makeBuildReport e (LayersDir opts) = inr (ExportReport.Build report) ∧
    ExportReport.Image report =
      (if supportsManifestSize e then id else ImageReport.with_ManifestSize 0)
        (reply_report (WorkingImage opts0 (removelast (calls st'))
                         (Save (AdditionalNames opts0)))).
Proof.
  intros H opts. subst opts. unfold Lifecycle.Export in H.
  destruct (filepath_Abs (LayersDir opts0)) as [layersDir [err|]]; [ret_in H|].
  destruct (filepath_Abs (AppDir opts0)) as [appDir [err|]]; [ret_in H|].
  simpl fst. set (opts := with_dirs layersDir appDir opts0) in *.
  bind_in H r0 s0 H0. apply emits_call in H0 as [H0 _].
  destruct (reply_err r0); [ret_in H|].
  destruct (toml_DecodeFile_BuildMetadata _) as [buildMD [err|]]; [ret_in H|].
  bind_in H r1 s1 H1. destruct r1 as [err|meta1]; [ret_in H|].
  apply (sends_only_run _ _ _ _ _ (addBuildpackLayers_from_sends _ _ _ _)) in H1
    as (c1 & E1 & F1).
  bind_in H r2 s2 H2. destruct r2 as [err|meta2]; [ret_in H|].
  apply (sends_only_run _ _ _ _ _ (addAppLayers_sends _ _ _ _)) in H2 as (c2 & E2 & F2).
  bind_in H r3 s3 H3. destruct r3 as [err|meta3]; [ret_in H|].
  apply (sends_only_run _ _ _ _ _ (addLauncherLayers_sends _ _ _ _)) in H3
    as (c3 & E3 & F3).
  bind_in H r4 s4 H4. destruct r4 as [[err|] buildMD']; [ret_in H|].
  apply (sends_only_run _ _ _ _ _ (setLabels_sends _ _ _ _)) in H4 as (c4 & E4 & F4).
  bind_in H r5 s5 H5. destruct r5 as [err|]; [ret_in H|].
  apply (sends_only_run _ _ _ _ _ (setEnv_sends _ _ _)) in H5 as (c5 & E5 & F5).
  bind_in H r6 s6 H6.
  destruct r6 as [err|]; [ret_in H|].
  assert (calls s6 = calls s5
            ++ (if api.AtLeast (PlatformAPI e) api.v0_6
                then [SetWorkingDir (AppDir opts)] else [])) as E6.
  { destruct (api.AtLeast _ _); [|ret_in H6; by rewrite app_nil_r].
    bind_in H6 u s H6a. apply emits_log in H6a.
    unfold setWorkingDir in H6. bind_in H6 rw sw H6b. ret_in H6.
    apply emits_call in H6b as [H6b _]. unfold emits in *.
    by rewrite H6b, H6a, app_nil_r. }
  bind_in H r7 s7 H7.
  apply (sends_only_run _ _ _ _ _ (entrypoint_sends _ _ _ _)) in H7 as (c7 & E7 & F7).
  assert (c7 = []) as ->.
  { destruct c7 as [|x c7]; [done|]. by apply Forall_cons in F7 as [? _]. }
  rewrite app_nil_r in E7.
  destruct r7 as [ep [err|]]; [ret_in H|].
  bind_in H u8 s8 H8. apply emits_log in H8.
  bind_in H r9 s9 H9. apply emits_call in H9 as [H9 _].
  destruct (reply_err r9); [ret_in H|].
  bind_in H r10 s10 H10. apply emits_call in H10 as [H10 _].
  destruct (reply_err r10); [ret_in H|].
  destruct (makeBuildReport e (LayersDir opts)) as [err|build]; [ret_in H|].
  bind_in H r11 s11 H11. unfold saveImage in H11.
  bind_in H11 rs ss H11a. ret_in H11. apply emits_call in H11a as [H11a ->].
  destruct (reply_err _); ret_in H.
  exists (c1 ++ c2 ++ c3), c4, c5, ep.
  assert (calls s10 = calls st ++ [TopLayer] ++ (c1 ++ c2 ++ c3) ++ c4 ++ c5
            ++ (if api.AtLeast (PlatformAPI e) api.v0_6
                then [SetWorkingDir (AppDir opts)] else [])
            ++ [SetEntrypoint [ep]; SetCmd []]) as E10.
  { unfold emits in *. rewrite H10, H9, H8, E7, E6, E5, E4, E3, E2, E1, H0.
    rewrite app_nil_r. by rewrite <- !app_assoc. }
  unfold emits in H11a. split_and!; try done.
  - by rewrite !Forall_app.
  - rewrite H11a, E10. by rewrite <- !app_assoc.
  - simpl. rewrite H11a, removelast_last. by destruct (supportsManifestSize e).
Qed.

(** X25: the calls of a successful export come in phases: the top layer
    is asked first; then come layer calls only, then label calls only,
    then environment calls only, then the working directory, set to the
    absolute app directory, exactly from platform API 0.6 on; the last
    three calls are the entrypoint, of one element, the empty command,
    and the save under the additional names. *)
Theorem Export_phases e opts0 st report st' :
  Export e opts0 st = (inr report, st') →
  ∃ layers labels envs ep,
    Forall (λ c, is_layer_call c = true) layers ∧
    Forall (λ c, is_label_call c = true) labels ∧
    Forall (λ c, is_env_call c = true) envs ∧
    calls st' = calls st ++ [TopLayer] ++ layers ++ labels ++ envs
      ++ (if api.AtLeast (PlatformAPI e) api.v0_6
          then [SetWorkingDir (filepath_Abs (AppDir opts0)).1] else [])
      ++ [SetEntrypoint [ep]; SetCmd []; Save (AdditionalNames opts0)].
Proof.
  intros H. apply Export_ok_inv in H as (layers & labels & envs & ep & H).
  exists layers, labels, envs, ep. by destruct H as (? & ? & ? & ? & _).
Qed.

(** X26: the report of a successful export: its build part is what
    [makeBuildReport] gives for the absolute layers directory, and its
    image part is what the save returned, with the manifest size put to
    zero below platform API 0.6. *)
Theorem Export_report e opts0 st report st' :
  Export e opts0 st = (inr report, st') →
  makeBuildReport e (filepath_Abs (LayersDir opts0)).1 = inr (ExportReport.Build report) ∧
  ExportReport.Image report =
    (if api.AtLeast (PlatformAPI e) api.v0_6 then id else ImageReport.with_ManifestSize 0)
      (reply_report (WorkingImage opts0 (removelast (calls st'))
                       (Save (AdditionalNames opts0)))) ∧
  (api.LessThan (PlatformAPI e) api.v0_6 = true →
   ImageReport.ManifestSize (ExportReport.Image report) = 0).
Proof.
  intros H. apply Export_ok_inv in H as (_ & _ & _ & _ & _ & _ & _ & _ & HB & HI).
  split_and!; try done. intros HL. rewrite HI. unfold supportsManifestSize.
  rewrite AtLeast_LessThan, HL. done.
Qed.

End WithEnvironment.

End ExporterMore.

(** ** The exporter on more scenarios *)

Module ExporterMoreExamples.
Import Lifecycle Calls ExportScenario MoreExportScenario.

Lemma setLabels_labels_witness :
  (setLabels marshal marshal marshal exporter opts LayersMetadata.zero
     buildMD_labelled st0).1.2
  = BuildMetadata.with_Launcher (Metadata (Launcher opts)) buildMD_labelled ∧
  calls (setLabels marshal marshal marshal exporter opts LayersMetadata.zero
           buildMD_labelled st0).2
  = calls st0
    ++ [SetLabel LayerMetadataLabel "{}"; SetLabel BuildMetadataLabel "{}";
        SetLabel ProjectMetadataLabel "{}"]
    ++ [SetLabel "maintainer" "me"].
Proof.
  exact (ExporterMore.setLabels_labels marshal marshal marshal exporter opts
           LayersMetadata.zero buildMD_labelled _ st0 _ eq_refl).
Defined.

Lemma setEnv_variables_witness :
  calls (setEnv ":" "/cnb/process" "/cnb/lifecycle" exporter opts
           {| launch.Processes := [web] |} st0).2
  = calls st0
    ++ [SetEnv "CNB_LAYERS_DIR" "/layers"; SetEnv "CNB_APP_DIR" "/workspace";
        SetEnv "CNB_PLATFORM_API" "0.5"; SetEnv "CNB_DEPRECATION_MODE" "quiet"]
    ++ [Env "PATH"; SetEnv "PATH" "/cnb/process:/cnb/lifecycle:/usr/bin"].
Proof.
  exact (ExporterMore.setEnv_variables ":" "/cnb/process" "/cnb/lifecycle" exporter opts
           {| launch.Processes := [web] |} st0 _ eq_refl).
Defined.

Lemma setEnv_platform_api_error_name_witness :
  last (calls (setEnv ":" "/cnb/process" "/cnb/lifecycle" exporter opts_refused
                 {| launch.Processes := [web] |} st0).2)
  = Some (SetEnv EnvPlatformAPI "0.5") ∧
  ∃ cause,
    reply_err (image_refuses_platform_api
                 (removelast (calls (setEnv ":" "/cnb/process" "/cnb/lifecycle" exporter
                                       opts_refused {| launch.Processes := [web] |} st0).2))
                 (SetEnv EnvPlatformAPI "0.5")) = Some cause ∧
    Wrap "set app image env CNB_APP_DIR" (Foreign "read-only")
    = Wrap "set app image env CNB_APP_DIR" cause.
Proof.
  exact (ExporterMore.setEnv_platform_api_error_name ":" "/cnb/process" "/cnb/lifecycle"
           exporter opts_refused {| launch.Processes := [web] |}
           (Wrap "set app image env CNB_APP_DIR" (Foreign "read-only")) st0 _
           eq_refl eq_refl).
Defined.

Lemma addAppLayers_records_witness :
  (addAppLayers exporter opts_app_known [] LayersMetadata.zero st0).1
  = inr (LayersMetadata.with_App [{| LayerMetadata.SHA := "sha256:app" |}]
           LayersMetadata.zero) ∧
  logs (addAppLayers exporter opts_app_known [] LayersMetadata.zero st0).2
  = [(DebugLevel, "Layer 'app' SHA: sha256:app" +:+ nl);
     (InfoLevel, "Reusing 1/1 app layer(s)" +:+ nl)].
Proof.
  split; [reflexivity|].
  exact (proj2 (ExporterMore.addAppLayers_records exporter opts_app_known []
                  LayersMetadata.zero _ st0 _ eq_refl)).
Defined.

Lemma addBuildpackLayers_records_witness :
  ∃ bpMDs,
    (addBuildpackLayers_from (read_dir [l1; l2]) exporter opts [bp1]
       LayersMetadata.zero st0).1
    = inr (LayersMetadata.with_Buildpacks bpMDs LayersMetadata.zero) ∧
    Forall2
      (λ bp bpMD,
         BuildpackLayersMetadata.ID bpMD = GroupBuildpack.ID bp ∧
         BuildpackLayersMetadata.Version bpMD = GroupBuildpack.Version bp ∧
         ∃ dir,
           read_dir [l1; l2] "/layers" bp = inr dir ∧
           BuildpackLayersMetadata.Store bpMD = bpLayersDir.store dir ∧
           bpLayersDir.malformedLayers dir = [] ∧
           ∀ n, is_Some (BuildpackLayersMetadata.Layers bpMD !! n) ↔
                n ∈ map bpLayer.name (bpLayersDir.launchLayers dir))
      [bp1] bpMDs.
Proof.
  destruct (ExporterMore.addBuildpackLayers_records (read_dir [l1; l2]) exporter opts [bp1]
              LayersMetadata.zero _ st0 _ eq_refl) as (bpMDs & Hm & HF).
  exists bpMDs. split; [|exact HF].
  exact (f_equal inr Hm).
Defined.

Lemma malformed_layers_fail_witness :
  addBuildpackLayers_from read_dir_malformed exporter opts [bp1] LayersMetadata.zero st0
  = (inl (Errorf "failed to parse metadata for layers '[bp1:l3]'"), after_l1) ∧
  calls after_l1 = [AddLayerWithDiffID "/layers/bp1/l1.tar.tar" "sha256:bp1:l1"].
Proof.
  exact (ExporterMore.malformed_layers_fail read_dir_malformed exporter opts bp1 []
           LayersMetadata.zero bpDir_malformed bpMD_l1 st0 after_l1 eq_refl
           (λ H, match H in _ = l return match l with [] => False | _ => True end
                 with eq_refl => I end)
           eq_refl).
Defined.

Lemma addLauncherLayers_records_witness :
  (addLauncherLayers exporter opts buildMD LayersMetadata.zero st0).1
  = inr (LayersMetadata.with_ProcessTypes "sha256:process-types"
           (LayersMetadata.with_Config "sha256:config"
              (LayersMetadata.with_Launcher "sha256:launcher" LayersMetadata.zero))).
Proof.
  exact (f_equal inr
           (ExporterMore.addLauncherLayers_records exporter opts buildMD
              LayersMetadata.zero _ st0 _ eq_refl)).
Defined.

Example build_report_of_the_scenario :
  makeBuildReport decode_report EscapeID WithBuildpack MustParse exporter "/layers"
  = inr [].
Proof. vm_compute. reflexivity. Qed.

Lemma Export_saves_last_witness :
  ∃ pre,
    Forall (λ c, is_save_call c = false) pre ∧
    ((calls (Export_with [l1; l2] st0).2 = calls st0 ++ pre ∧
      ∃ err, (Export_with [l1; l2] st0).1 = inl err) ∨
     (calls (Export_with [l1; l2] st0).2 = calls st0 ++ pre ++ [Save []] ∧
      match reply_err (image_ok (calls st0 ++ pre) (Save [])) with
      | Some err => (Export_with [l1; l2] st0).1 = inl err
      | None => ∃ report, (Export_with [l1; l2] st0).1 = inr report
      end)).
Proof.
  apply (ExporterMore.Export_saves_last Abs ":" decode_buildMD decode_report
           (read_dir [l1; l2]) marshal marshal marshal "/cnb/lifecycle/launcher"
           "/cnb/process" "/cnb/lifecycle" ProcessPath EscapeID WithBuildpack MustParse
           exporter opts (Export_with [l1; l2] st0).1 st0 (Export_with [l1; l2] st0).2).
  vm_compute. reflexivity.
Defined.

Lemma Export_phases_witness :
  ∃ layers labels envs ep,
    Forall (λ c, is_layer_call c = true) layers ∧
    Forall (λ c, is_label_call c = true) labels ∧
    Forall (λ c, is_env_call c = true) envs ∧
    calls (Export_with [l1; l2] st0).2
    = calls st0 ++ [TopLayer] ++ layers ++ labels ++ envs ++ []
      ++ [SetEntrypoint [ep]; SetCmd []; Save []].
Proof.
  apply (ExporterMore.Export_phases Abs ":" decode_buildMD decode_report
           (read_dir [l1; l2]) marshal marshal marshal "/cnb/lifecycle/launcher"
           "/cnb/process" "/cnb/lifecycle" ProcessPath EscapeID WithBuildpack MustParse
           exporter opts st0
           {| ExportReport.Build := []; ExportReport.Image := ImageReport.zero |}).
  vm_compute. reflexivity.
Defined.

(** The image reports a manifest of 527 bytes; below platform API 0.6 the
    report of the export says zero. *)
Lemma Export_report_witness :
  reply_report (image_sized [] (Save ["registry/app"]))
  = ImageReport.with_ManifestSize 527 ImageReport.zero ∧
  makeBuildReport decode_report EscapeID WithBuildpack MustParse exporter "/layers"
  = inr [] ∧
  ImageReport.ManifestSize
    (ExportReport.Image
       {| ExportReport.Build := []; ExportReport.Image := ImageReport.zero |}) = 0.
Proof.
  split; [reflexivity|].
  assert (Export_sized st0
          = (inr {| ExportReport.Build := []; ExportReport.Image := ImageReport.zero |},
             (Export_sized st0).2)) as Hrun by (vm_compute; reflexivity).
  destruct (ExporterMore.Export_report Abs ":" decode_buildMD decode_report
              (read_dir [l1; l2]) marshal marshal marshal "/cnb/lifecycle/launcher"
              "/cnb/process" "/cnb/lifecycle" ProcessPath EscapeID WithBuildpack MustParse
              exporter opts_sized st0 _ _ Hrun) as (HB & _ & HM).
  split; [exact HB|exact (HM eq_refl)].
Defined.

End ExporterMoreExamples.

(** ** The Dockerfiles of an extension *)

Module DockerfileProofs.
Import buildpack.

Section WithHost.

Variable filepath_Glob : string → error + list string.
Variable filepath_Split : string → string * string.

Local Abbreviation processMatches := (buildpack.processMatches filepath_Split).
Local Abbreviation processDockerfiles :=
  (buildpack.processDockerfiles filepath_Glob filepath_Split).

Lemma processMatches_app extID buildArgs runArgs matches :
  ∀ dockerfiles,
    processMatches extID buildArgs runArgs matches dockerfiles
    = dockerfiles ++ processMatches extID buildArgs runArgs matches [].
Proof.
  induction matches as [|m rest IH]; intros dockerfiles; simpl.
  - by rewrite app_nil_r.
  - repeat case_match;
      rewrite ?(IH (_ ++ _)), ?(IH (_ :: _)), <- ?app_assoc; done.
Qed.

(** X27: every Dockerfile that [processDockerfiles] lists belongs to the
    extension, is one of the matches of the glob, and is of type run or
    build: a run entry comes from a file named [run.Dockerfile] or
    [Dockerfile] and carries the run arguments, a build entry comes from
    a file named [build.Dockerfile] or [Dockerfile] and carries the build
    arguments. *)
Theorem processDockerfiles_entries bpOutputDir extID buildArgs runArgs matches dockerfiles :
  filepath_Glob (filepath_Join bpOutputDir "*Dockerfile") = inr matches →
  processDockerfiles bpOutputDir extID buildArgs runArgs = inr dockerfiles →
  Forall (λ d,
    ExtensionID d = extID ∧ Path d ∈ matches ∧
    ((Type_ d = "run" ∧ Args d = runArgs ∧
      ((filepath_Split (Path d)).2 = "run.Dockerfile" ∨
       (filepath_Split (Path d)).2 = "Dockerfile")) ∨
     (Type_ d = "build" ∧ Args d = buildArgs ∧
      ((filepath_Split (Path d)).2 = "build.Dockerfile" ∨
       (filepath_Split (Path d)).2 = "Dockerfile")))) dockerfiles.
Proof.
  unfold buildpack.processDockerfiles. intros -> [= <-].
  induction matches as [|m rest IH]; simpl; [constructor|].
  assert (Forall (λ d,
    ExtensionID d = extID ∧ Path d ∈ m :: rest ∧
    ((Type_ d = "run" ∧ Args d = runArgs ∧
      ((filepath_Split (Path d)).2 = "run.Dockerfile" ∨
       (filepath_Split (Path d)).2 = "Dockerfile")) ∨
     (Type_ d = "build" ∧ Args d = buildArgs ∧
      ((filepath_Split (Path d)).2 = "build.Dockerfile" ∨
       (filepath_Split (Path d)).2 = "Dockerfile"))))
    (processMatches extID buildArgs runArgs rest [])) as IH'.
  { eapply Forall_impl; [exact IH|]. intros d (? & ? & ?). split_and!; try done.
    by apply list_elem_of_further. }
  destruct (String.eqb _ "run.Dockerfile") eqn:E1;
    [|destruct (String.eqb _ "build.Dockerfile") eqn:E2;
      [|destruct (String.eqb _ "Dockerfile") eqn:E3]];
    try rewrite processMatches_app; try done.
  - apply String.eqb_eq in E1. apply Forall_app. split; [|done].
    constructor; [|constructor]. simpl.
    split_and!; [done|apply list_elem_of_here|left; split_and!; [done|done|by left]].
  - apply String.eqb_eq in E2. apply Forall_app. split; [|done].
    constructor; [|constructor]. simpl.
    split_and!; [done|apply list_elem_of_here|right; split_and!; [done|done|by left]].
  - apply String.eqb_eq in E3. apply Forall_app. split; [|done].
    constructor; [|constructor; [|constructor]]; simpl.
    + split_and!; [done|apply list_elem_of_here|left; split_and!; [done|done|by right]].
    + split_and!; [done|apply list_elem_of_here|right; split_and!; [done|done|by right]].
Qed.

(** X28: the list keeps the order of the glob: it is, match after match,
    the run entry of a [run.Dockerfile], the build entry of a
    [build.Dockerfile], the run entry and then the build entry of a
    [Dockerfile], and nothing for a match of another name; an error of
    the glob comes back as it is. *)
Theorem processDockerfiles_in_glob_order bpOutputDir extID buildArgs runArgs :
  let run m := {| ExtensionID := extID; Path := m; Type_ := "run"; Args := runArgs |} in
  let build m :=
    {| ExtensionID := extID; Path := m; Type_ := "build"; Args := buildArgs |} in
  processDockerfiles bpOutputDir extID buildArgs runArgs =
  match filepath_Glob (filepath_Join bpOutputDir "*Dockerfile") with
  | inl err => inl err
  | inr matches =>
      inr (flat_map
             (λ m, let filename := (filepath_Split m).2 in
                   if String.eqb filename "run.Dockerfile" then [run m]
                   else if String.eqb filename "build.Dockerfile" then [build m]
                   else if String.eqb filename "Dockerfile" then [run m; build m]
                   else [])
             matches)
  end.
Proof.
  intros run build. unfold buildpack.processDockerfiles.
  destruct (filepath_Glob _) as [err|matches]; [done|]. f_equal.
  induction matches as [|m rest IH]; simpl; [done|].
  repeat case_match; try rewrite processMatches_app; by rewrite IH.
Qed.

End WithHost.

Lemma processDockerfiles_entries_witness :
  Forall (λ d,
    ExtensionID d = "ext" ∧
    Path d ∈ ["/out/Dockerfile"; "/out/build.Dockerfile"; "/out/other.Dockerfile";
              "/out/run.Dockerfile"] ∧
    ((Type_ d = "run" ∧ Args d = DockerfileScenario.run_args ∧
      ((DockerfileScenario.Split (Path d)).2 = "run.Dockerfile" ∨
       (DockerfileScenario.Split (Path d)).2 = "Dockerfile")) ∨
     (Type_ d = "build" ∧ Args d = DockerfileScenario.build_args ∧
      ((DockerfileScenario.Split (Path d)).2 = "build.Dockerfile" ∨
       (DockerfileScenario.Split (Path d)).2 = "Dockerfile"))))
    [{| ExtensionID := "ext"; Path := "/out/Dockerfile"; Type_ := "run";
        Args := DockerfileScenario.run_args |};
     {| ExtensionID := "ext"; Path := "/out/Dockerfile"; Type_ := "build";
        Args := DockerfileScenario.build_args |};
     {| ExtensionID := "ext"; Path := "/out/build.Dockerfile"; Type_ := "build";
        Args := DockerfileScenario.build_args |};
     {| ExtensionID := "ext"; Path := "/out/run.Dockerfile"; Type_ := "run";
        Args := DockerfileScenario.run_args |}].
Proof.
  apply (processDockerfiles_entries DockerfileScenario.Glob DockerfileScenario.Split
           "/out" "ext" DockerfileScenario.build_args DockerfileScenario.run_args).
  - reflexivity.
  - reflexivity.
Defined.

End DockerfileProofs.
